(** * voyager-node: the Node.js binding of the Voyager index

    A shallow embedding of [nodejs/src/voyager-node.cc]: the in-memory input
    stream, the argument handling of the [Index] constructor, of [query],
    [loadIndex], [fromBuffer] and [toBuffer], and the properties the
    specification states about them; then the other methods of the class
    and the exported enumerations, and further properties of the code. *)

From Stdlib Require Import ZArith Lia List String Ascii.
From Stdlib Require Import Strings.Byte.
From Stdlib Require Import Numbers.DecimalString.
From Stdlib Require Import Floats.SpecFloat.
From stdpp Require Import base option list gmap strings.

Local Open Scope Z_scope.

(** ** C++ integer conversions (LP64) *)

Module CInt.

(** Conversion to a 64-bit unsigned type ([size_t], [unsigned long long]). *)
Definition to_u64 (z : Z) : Z := z mod 2 ^ 64.

(** Conversion to [long long] / [int64_t]. *)
Definition to_i64 (z : Z) : Z := (z + 2 ^ 63) mod 2 ^ 64 - 2 ^ 63.

(** Conversion to [uint32_t]. *)
Definition to_u32 (z : Z) : Z := z mod 2 ^ 32.

(** Conversion to [int] / [int32_t]. *)
Definition to_i32 (z : Z) : Z := (z + 2 ^ 31) mod 2 ^ 32 - 2 ^ 31.

(** [std::to_string] on an integer. *)
Definition to_string (z : Z) : string := NilZero.string_of_int (Z.to_int z).

End CInt.

(** ** Results of C++ code that may throw *)

Inductive outcome (A : Type) : Type :=
| Ok (a : A)
| Throw (what : string).
Arguments Ok {A} a.
Arguments Throw {A} what.

(** ** [class MemoryInputStream : public InputStream] *)

Inductive byte_order := LittleEndian | BigEndian.

Module MemoryInputStream.
Import CInt.

(** The two private members; [position] is a [long long]. *)
Record t := Build { data : list byte; position : Z }.

(** [MemoryInputStream(const std::string &data) : data(data), position(0)] *)
Definition new (d : list byte) : t := {| data := d; position := 0 |}.

(** [data.size()], a [size_t]. *)
Definition size (s : t) : Z := Z.of_nat (length (data s)).

Definition isSeekable (s : t) : bool * t := (true, s).

Definition getTotalLength (s : t) : Z * t := (to_i64 (size s), s).

(** [std::memcpy(dst, src, n)] on a destination that holds at least [n]
    bytes: the first [n] bytes of [dst] are replaced by those of [src]. *)
Definition memcpy (dst src : list byte) (n : Z) : list byte :=
  take (Z.to_nat n) src ++ drop (Z.to_nat n) dst.

(** [data.data() + position] *)
Definition from_position (s : t) : list byte :=
  drop (Z.to_nat (position s)) (data s).

(** [read(char *buffer, long long bytesToRead)]: the new stream, the new
    contents of [buffer], and the returned count.  [data.size() - position]
    is computed in [size_t] and converted to [long long]. *)
Definition read (s : t) (buffer : list byte) (bytesToRead : Z)
  : Z * list byte * t :=
  let bytesAvailable := to_i64 (to_u64 (size s - position s)) in
  let bytesToActuallyRead := Z.min bytesToRead bytesAvailable in
  if 0 <? bytesToActuallyRead then
    (bytesToActuallyRead,
     memcpy buffer (from_position s) bytesToActuallyRead,
     {| data := data s;
        position := to_i64 (position s + bytesToActuallyRead) |})
  else (bytesToActuallyRead, buffer, s).

(** [position >= data.size()], compared as unsigned. *)
Definition isExhausted (s : t) : bool * t :=
  (size s <=? to_u64 (position s), s).

Definition getPosition (s : t) : Z * t := (position s, s).

Definition setPosition (s : t) (newPosition : Z) : bool * t :=
  if (newPosition <? 0) || (to_i64 (size s) <? newPosition) then (false, s)
  else (true, {| data := data s; position := newPosition |}).

(** The value [memcpy] leaves in a [uint32_t] from four bytes, on a host of
    the given byte order. *)
Definition uint32_of_bytes (bo : byte_order) (bs : list byte) : Z :=
  let digits := match bo with LittleEndian => bs | BigEndian => rev bs end in
  fold_right (fun b acc => Z.of_N (Byte.to_N b) + 256 * acc) 0 digits.

Definition peek_error (s : t) : string :=
  ("Failed to peek " ++ to_string 4 ++
   " bytes from memory stream at index " ++ to_string (position s) ++ ".")%string.

(** [peek()]: [position + sizeof(uint32_t) > data.size()] is an unsigned
    comparison. *)
Definition peek (bo : byte_order) (s : t) : outcome Z * t :=
  if size s <? to_u64 (to_u64 (position s) + 4) then (Throw (peek_error s), s)
  else (Ok (uint32_of_bytes bo (take 4 (from_position s))), s).

(** The states a stream object can be in: [std::string] holds fewer than
    [2^63] bytes, and [position], which is private, is only written by the
    constructor, [read] and [setPosition]. *)
Inductive reachable : t -> Prop :=
| reach_new d : Z.of_nat (length d) < 2 ^ 63 -> reachable (new d)
| reach_read s buffer n : reachable s -> reachable (snd (read s buffer n))
| reach_setPosition s p : reachable s -> reachable (snd (setPosition s p))
| reach_peek bo s : reachable s -> reachable (snd (peek bo s)).

Definition wf (s : t) : Prop := 0 <= position s <= size s /\ size s < 2 ^ 63.

End MemoryInputStream.

(** ** JavaScript values as the binding sees them through Node-API *)

Inductive JsErrorKind := JsError | JsTypeError.

(** A call into the binding either returns or throws a JavaScript
    exception. *)
Inductive JsResult (A : Type) : Type :=
| Returned (a : A)
| Thrown (kind : JsErrorKind) (message : string).
Arguments Returned {A} a.
Arguments Thrown {A} kind message.

#[global] Instance JsResult_ret : MRet JsResult := fun _ a => Returned a.

#[global] Instance JsResult_bind : MBind JsResult := fun _ _ f r =>
  match r with
  | Returned a => f a
  | Thrown k m => Thrown k m
  end.

(** [try { body } catch (const std::exception &e)
      { Napi::Error::New(env, e.what()).ThrowAsJavaScriptException(); }]:
    whatever C++ exception leaves [body] is thrown again as a plain [Error]
    with the same message. *)
Definition catch_std {A} (body : JsResult A) : JsResult A :=
  match body with
  | Returned a => Returned a
  | Thrown _ m => Thrown JsError m
  end.

(** An engine call inside such a [try] block. *)
Definition try_engine {A} (o : outcome A) : JsResult A :=
  match o with
  | Ok a => Returned a
  | Throw what => Thrown JsError what
  end.

Module Napi.
Import CInt.

(** A JavaScript number is a binary64 value, a C++ [float] a binary32
    one; both are carried by [spec_float]. *)
Definition double_of_Z (z : Z) : spec_float :=
  binary_normalize 53 1024 z 0 false.

(** [static_cast<float>] of an integer: round to nearest, ties to even. *)
Definition float_of_Z (z : Z) : spec_float :=
  binary_normalize 24 128 z 0 false.

Definition double_of_float (f : spec_float) : spec_float :=
  match f with
  | S754_finite s m e => binary_round 53 1024 s m e
  | _ => f
  end.

Definition float_of_double (d : spec_float) : spec_float :=
  match d with
  | S754_finite s m e => binary_round 24 128 s m e
  | _ => d
  end.

(** The integer part of a finite number (rounded toward zero). *)
Definition truncate (d : spec_float) : option Z :=
  match d with
  | S754_zero _ => Some 0
  | S754_finite s m e =>
      let a := match e with
               | Zneg p => Zpos m / 2 ^ Zpos p
               | _ => Zpos m * 2 ^ e
               end in
      Some (if s then - a else a)
  | S754_infinity _ | S754_nan => None
  end.

#[local] Unset Elimination Schemes.
Inductive Value :=
| Undefined
| Null
| Boolean (b : bool)
| Number (d : spec_float)
| String (s : string)
| Array (elems : list Value)
| Buffer (bytes : list byte)
| Object (props : gmap string Value)
(** An array that was given named properties: [Napi::Array::New(env)]
    followed by [Set(name, value)]. *)
| ArrayWith (elems : list Value) (props : gmap string Value).
#[local] Set Elimination Schemes.

Definition IsNumber (v : Value) : bool :=
  match v with Number _ => true | _ => false end.
Definition IsString (v : Value) : bool :=
  match v with String _ => true | _ => false end.
Definition IsArray (v : Value) : bool :=
  match v with Array _ | ArrayWith _ _ => true | _ => false end.
Definition IsBuffer (v : Value) : bool :=
  match v with Buffer _ => true | _ => false end.
(** [napi_typeof] answers [napi_object] for arrays and buffers too. *)
Definition IsObject (v : Value) : bool :=
  match v with
  | Array _ | Buffer _ | Object _ | ArrayWith _ _ => true
  | _ => false
  end.

(** The named properties of an object; the binding never asks an array or
    a buffer for one of its own (indices, [length]). *)
Definition props_of (v : Value) : gmap string Value :=
  match v with
  | Object props | ArrayWith _ props => props
  | _ => ∅
  end.

(** [options.Has(key)] *)
Definition Has (options : Value) (key : string) : bool :=
  bool_decide (is_Some (props_of options !! key)).

(** [options.Get(key)] *)
Definition Get (options : Value) (key : string) : Value :=
  default Undefined (props_of options !! key).

(** [v.As<Napi::Number>()] followed by one of the value accessors: the
    cast itself checks nothing, the accessor throws a [TypeError] when the
    value is not a number. *)
Definition As_Number (v : Value) : JsResult spec_float :=
  match v with
  | Number d => Returned d
  | _ => Thrown JsTypeError "A number was expected"
  end.

(** [napi_get_value_int32], [napi_get_value_uint32]: the low 32 bits of
    the integer part, [0] for NaN and the infinities. *)
Definition Int32Value (v : Value) : JsResult Z :=
  d ← As_Number v; Returned (to_i32 (default 0 (truncate d))).
Definition Uint32Value (v : Value) : JsResult Z :=
  d ← As_Number v; Returned (to_u32 (default 0 (truncate d))).

(** [napi_get_value_int64]: the integer part, saturated to the range of
    [int64_t]; [0] for NaN and the infinities. *)
Definition Int64Value (v : Value) : JsResult Z :=
  d ← As_Number v;
  let z := default 0 (truncate d) in
  Returned (if z <? - 2 ^ 63 then - 2 ^ 63
            else if 2 ^ 63 <=? z then 2 ^ 63 - 1 else z).

(** [napi_get_value_double] narrowed to [float]. *)
Definition FloatValue (v : Value) : JsResult spec_float :=
  d ← As_Number v; Returned (float_of_double d).

(** [info.Length()] and [info[i]]: an index past the arguments reads
    [undefined]. *)
Definition Length (info : list Value) : Z := Z.of_nat (length info).
Definition arg (info : list Value) (i : nat) : Value :=
  default Undefined (info !! i).

End Napi.

(** ** What the binding uses of the engine's headers

    [Enums.h], [Metadata.h], [StreamUtils.h], [Index.h] and [TypedIndex.h]
    are included by the binding and are not part of it: the binding is
    embedded over their declarations. *)

(** [Enums.h]: the two enumerations, the conversions between them and the
    integers the binding applies ([static_cast]), and [toString]. *)
Class Enums := {
  SpaceType : Type;
  StorageDataType : Type;
  SpaceType_eq_dec :: EqDecision SpaceType;
  StorageDataType_eq_dec :: EqDecision StorageDataType;
  Euclidean : SpaceType;
  InnerProduct : SpaceType;
  Cosine : SpaceType;
  Float8 : StorageDataType;
  Float32 : StorageDataType;
  E4M3 : StorageDataType;
  (** [static_cast<SpaceType>(uint32_t)], [static_cast<int>(SpaceType)] *)
  SpaceType_of_uint32 : Z -> SpaceType;
  int_of_SpaceType : SpaceType -> Z;
  (** [static_cast<StorageDataType>(uint32_t)],
      [static_cast<int>(StorageDataType)] *)
  StorageDataType_of_uint32 : Z -> StorageDataType;
  int_of_StorageDataType : StorageDataType -> Z;
  SpaceType_toString : SpaceType -> string;
  StorageDataType_toString : StorageDataType -> string;
}.

(** The three instantiations of [TypedIndex] the binding creates:
    [TypedIndex<float>], [TypedIndex<float, int8_t, std::ratio<1, 127>>]
    and [TypedIndex<float, E4M3>]. *)
Inductive TypedIndexKind := TypedIndex_float | TypedIndex_int8 | TypedIndex_E4M3.

(** [NDArray<T, 2>]: row-major data and a shape. *)
Record NDArray (T : Type) := { nd_data : list T; nd_shape : Z * Z }.
Arguments nd_data {T} n.
Arguments nd_shape {T} n.

Class Engine {En : Enums} := {
  (** The object behind [std::shared_ptr<Index>]. *)
  Index : Type;
  (** [voyager::Metadata::V1] *)
  Metadata : Type;
  Metadata_getStorageDataType : Metadata -> StorageDataType;
  Metadata_getSpaceType : Metadata -> SpaceType;
  Metadata_getNumDimensions : Metadata -> Z;
  (** [FileInputStream], and its constructor from a path. *)
  FileInputStream : Type;
  FileInputStream_new : string -> outcome FileInputStream;
  (** The stream handed to the loaders is one of the two this binding
      creates. *)
  InputStream : Type := FileInputStream + MemoryInputStream.t;
  (** [voyager::Metadata::loadFromStream]: the header if the stream starts
      with one ([nullptr] otherwise), and the stream after the attempt. *)
  Metadata_loadFromStream :
    InputStream -> outcome (option Metadata * InputStream);
  loadTypedIndexFromMetadata : Metadata -> InputStream -> outcome Index;
  (** [TypedIndex<...>(space, numDimensions, M, efConstruction, maxElements,
      randomSeed)] *)
  TypedIndex_new :
    TypedIndexKind -> SpaceType -> Z -> Z -> Z -> Z -> Z -> outcome Index;
  (** [TypedIndex<...>(inputStream, space, numDimensions)] *)
  TypedIndex_load :
    TypedIndexKind -> InputStream -> SpaceType -> Z -> outcome Index;
  Index_getSpace : Index -> SpaceType;
  Index_getNumDimensions : Index -> Z;
  (** [saveIndex(std::shared_ptr<MemoryOutputStream>)] followed by
      [getValue()]: the bytes written. *)
  Index_saveIndex : Index -> outcome (list byte);
  Index_getIDs : Index -> outcome (list Z);
  Index_getVector : Index -> Z -> outcome (list spec_float);
}.

(** The two [query] overloads of [Index]. *)
Class Search {En : Enums} {Eng : Engine} := {
  (** [query(std::vector<float>, int k, long queryEf)] *)
  Index_query :
    Index -> list spec_float -> Z -> Z ->
    outcome (list Z * list spec_float);
  (** [query(std::vector<std::vector<float>>, int k, int numThreads,
      long queryEf)] *)
  Index_query_batch :
    Index -> list (list spec_float) -> Z -> Z -> Z ->
    outcome (NDArray Z * NDArray spec_float);
}.

(** The member functions of [Index] behind the remaining methods of the
    binding.  One that changes the index gives the index after the call,
    also when it throws. *)
Class Updates {En : Enums} {Eng : Engine} := {
  (** [addItem(std::vector<float>, std::optional<hnswlib::labeltype>)] *)
  Index_addItem :
    Index -> list spec_float -> option Z -> outcome Z * Index;
  (** [addItems(std::vector<std::vector<float>>,
      std::vector<hnswlib::labeltype>, int numThreads)] *)
  Index_addItems :
    Index -> list (list spec_float) -> list Z -> Z ->
    outcome (list Z) * Index;
  (** [getVectors(std::vector<hnswlib::labeltype>)] *)
  Index_getVectors : Index -> list Z -> outcome (NDArray spec_float);
  Index_markDeleted : Index -> Z -> outcome unit * Index;
  Index_unmarkDeleted : Index -> Z -> outcome unit * Index;
  Index_resizeIndex : Index -> Z -> outcome unit * Index;
  Index_setEF : Index -> Z -> outcome unit * Index;
  Index_getDistance :
    Index -> list spec_float -> list spec_float -> outcome spec_float;
  (** [getIDsMap()]: the labels in the index, each with its slot. *)
  Index_getIDsMap : Index -> outcome (gmap Z Z);
}.

(** ** [class IndexWrapper : public Napi::ObjectWrap<IndexWrapper>] *)

Module IndexWrapper.
Import CInt Napi.

Section Binding.
Context {En : Enums} {Eng : Engine}.

(** The wrapper object: its one member [index_]. *)
Record t := Build { index_ : Index }.

(** [switch (storageDataType)] over the three enumerators; [None] is
    the [default:] label. *)
Definition kind_of (storageDataType : StorageDataType)
  : option TypedIndexKind :=
  if decide (storageDataType = Float32) then Some TypedIndex_float
  else if decide (storageDataType = Float8) then Some TypedIndex_int8
  else if decide (storageDataType = E4M3) then Some TypedIndex_E4M3
  else None.

(** [options.Has(key) ? read(options.Get(key)) : dflt] *)
Definition optional {A} (options : Value) (key : string)
    (read : Value -> JsResult A) (dflt : A) : JsResult A :=
  if Has options key then read (Get options key) else Returned dflt.

Definition SpaceType_option (v : Value) : JsResult SpaceType :=
  n ← Uint32Value v; Returned (SpaceType_of_uint32 n).

Definition StorageDataType_option (v : Value) : JsResult StorageDataType :=
  n ← Uint32Value v; Returned (StorageDataType_of_uint32 n).

(** [Int64Value()] stored in a [size_t]. *)
Definition size_t_option (v : Value) : JsResult Z :=
  n ← Int64Value v; Returned (to_u64 n).

(** *** The constructor *)

(** The local variables the constructor fills from [options]. *)
Record Options := {
  space : SpaceType;
  numDimensions : Z;
  M : Z;
  efConstruction : Z;
  randomSeed : Z;
  maxElements : Z;
  storageDataType : StorageDataType;
}.

Definition missing_required : string :=
  "Index() missing required arguments: 'space' and 'numDimensions'".

Definition read_Options (options : Value) : JsResult Options :=
  if negb (Has options "space") || negb (Has options "numDimensions")
  then Thrown JsTypeError missing_required
  else
    space ← SpaceType_option (Get options "space");
    numDimensions ← Int32Value (Get options "numDimensions");
    M ← optional options "M" size_t_option 12;
    efConstruction ← optional options "efConstruction" size_t_option 200;
    randomSeed ← optional options "randomSeed" size_t_option 1;
    maxElements ← optional options "maxElements" size_t_option 1;
    storageDataType ←
      optional options "storageDataType" StorageDataType_option Float32;
    Returned {| space := space; numDimensions := numDimensions; M := M;
                efConstruction := efConstruction;
                randomSeed := randomSeed; maxElements := maxElements;
                storageDataType := storageDataType |}.

(** The [switch] that creates the typed index, inside its [try]. *)
Definition create (o : Options) : JsResult t :=
  match kind_of (storageDataType o) with
  | Some kind =>
      index ← try_engine
        (TypedIndex_new kind (space o) (numDimensions o) (M o)
           (efConstruction o) (maxElements o) (randomSeed o));
      Returned {| index_ := index |}
  | None => Thrown JsTypeError "Unknown storage data type received."
  end.

(** [IndexWrapper::IndexWrapper(const Napi::CallbackInfo &info)] *)
Definition new (info : list Value) : JsResult t :=
  if (Length info <? 1) || negb (IsObject (arg info 0))
  then Thrown JsTypeError
         "Index() missing required argument: 'options' (an object)"
  else
    o ← read_Options (arg info 0);
    create o.

(** *** Conversions of vectors *)

Definition elems_of (v : Value) : list Value :=
  match v with Array elems | ArrayWith elems _ => elems | _ => [] end.

(** [ArrayToVector] *)
Definition ArrayToVector (arr : Value) : JsResult (list spec_float) :=
  mapM FloatValue (elems_of arr).

(** [VectorToArray]: each [float] becomes a number. *)
Definition VectorToArray (vec : list spec_float) : Value :=
  Array ((fun f => Number (double_of_float f)) <$> vec).


(** *** [loadIndex] and [fromBuffer] *)

(** The locals that hold the options of a legacy load. *)
Record LoadOptions := {
  load_space : SpaceType;
  load_numDimensions : Z;
  load_storageDataType : StorageDataType;
}.

(** [info.Length() >= 2 && info[1].IsObject()] *)
Definition has_options (info : list Value) : bool :=
  (2 <=? Length info) && IsObject (arg info 1).

(** The block that follows the comment "Optional parameters for loading
    legacy indices", the same in both functions. *)
Definition read_LoadOptions (info : list Value) : JsResult LoadOptions :=
  if has_options info then
    let options := arg info 1 in
    space ← optional options "space" SpaceType_option Euclidean;
    numDimensions ← optional options "numDimensions" Int32Value 0;
    storageDataType ←
      optional options "storageDataType" StorageDataType_option Float32;
    Returned {| load_space := space; load_numDimensions := numDimensions;
                load_storageDataType := storageDataType |}
  else
    Returned {| load_space := Euclidean; load_numDimensions := 0;
                load_storageDataType := Float32 |}.

Definition storage_mismatch (provided stored : StorageDataType) : string :=
  "Provided storage data type (" ++ StorageDataType_toString provided ++
  ") does not match the data type used in this file (" ++
  StorageDataType_toString stored ++ ").".

Definition space_mismatch (provided stored : SpaceType) : string :=
  "Provided space type (" ++ SpaceType_toString provided ++
  ") does not match the space type used in this file (" ++
  SpaceType_toString stored ++ ").".

Definition dimensions_mismatch (provided stored : Z) : string :=
  "Provided number of dimensions (" ++ to_string provided ++
  ") does not match the number of dimensions used in this file " ++
  "(" ++ to_string stored ++ ").".

(** [Uint32Value()] stored in an [int]. *)
Definition providedDims_option (v : Value) : JsResult Z :=
  n ← Uint32Value v; Returned (to_i32 n).

(** The block under "Modern index with metadata - validate if options
    were provided", the same in both functions; it runs inside the
    [try]. *)
Definition validate (info : list Value) (metadata : Metadata)
  : JsResult unit :=
  if has_options info then
    let options := arg info 1 in
    _ ← (if Has options "storageDataType" then
           providedType ←
             catch_std (StorageDataType_option (Get options "storageDataType"));
           if decide (Metadata_getStorageDataType metadata = providedType)
           then Returned ()
           else Thrown JsError
                  (storage_mismatch providedType
                     (Metadata_getStorageDataType metadata))
         else Returned ());
    _ ← (if Has options "space" then
           providedSpace ← catch_std (SpaceType_option (Get options "space"));
           if decide (Metadata_getSpaceType metadata = providedSpace)
           then Returned ()
           else Thrown JsError
                  (space_mismatch providedSpace
                     (Metadata_getSpaceType metadata))
         else Returned ());
    if Has options "numDimensions" then
      providedDims ←
        catch_std (providedDims_option (Get options "numDimensions"));
      if decide (Metadata_getNumDimensions metadata = providedDims)
      then Returned ()
      else Thrown JsError
             (dimensions_mismatch providedDims
                (Metadata_getNumDimensions metadata))
    else Returned ()
  else Returned ().

(** The [switch] of the legacy branch, the same in both functions. *)
Definition load_legacy (inputStream : InputStream) (o : LoadOptions)
  : JsResult Index :=
  match kind_of (load_storageDataType o) with
  | Some kind =>
      try_engine (TypedIndex_load kind inputStream (load_space o)
                    (load_numDimensions o))
  | None => Thrown JsTypeError "Unknown storage data type received."
  end.

(** The end of both functions: a wrapper is constructed from dummy
    options and then given the loaded index. *)
Definition wrap (loadedIndex : Index) : JsResult t :=
  let dummyOptions :=
    Object
      (<["space" :=
           Number (double_of_Z (int_of_SpaceType (Index_getSpace loadedIndex)))]>
       (<["numDimensions" :=
            Number (double_of_Z (Index_getNumDimensions loadedIndex))]> ∅)) in
  _ ← catch_std (new [dummyOptions]);
  Returned {| index_ := loadedIndex |}.

Definition file_no_metadata : string :=
  "Index file has no metadata. Please provide space, " ++
  "numDimensions, and storageDataType options.".

Definition buffer_no_metadata : string :=
  "Index buffer has no metadata. Please provide space, " ++
  "numDimensions, and storageDataType options.".

(** What either function does once the header has been looked for;
    [missing] is its test on [numDimensions] and [no_metadata] its
    message. *)
Definition load_from (info : list Value) (o : LoadOptions)
    (metadata : option Metadata) (inputStream : InputStream)
    (missing : Z -> bool) (no_metadata : string) : JsResult t :=
  loadedIndex ←
    match metadata with
    | Some metadata =>
        _ ← validate info metadata;
        try_engine (loadTypedIndexFromMetadata metadata inputStream)
    | None =>
        if missing (load_numDimensions o)
        then Thrown JsTypeError no_metadata
        else load_legacy inputStream o
    end;
  wrap loadedIndex.

Definition Utf8Value (v : Value) : string :=
  match v with String s => s | _ => "" end.

(** [IndexWrapper::LoadIndex]; the legacy branch tests
    [numDimensions <= 0]. *)
Definition LoadIndex (info : list Value) : JsResult t :=
  if (Length info <? 1) || negb (IsString (arg info 0))
  then Thrown JsTypeError
         "loadIndex() missing required argument: 'path' (a string)"
  else
    let path := Utf8Value (arg info 0) in
    o ← read_LoadOptions info;
    file ← try_engine (FileInputStream_new path);
    '(metadata, inputStream) ← try_engine (Metadata_loadFromStream (inl file));
    load_from info o metadata inputStream
      (fun numDimensions => numDimensions <=? 0) file_no_metadata.

Definition bytes_of (v : Value) : list byte :=
  match v with Buffer bytes => bytes | _ => [] end.

(** [IndexWrapper::FromBuffer]; the legacy branch tests
    [numDimensions == 0]. *)
Definition FromBuffer (info : list Value) : JsResult t :=
  if (Length info <? 1) || negb (IsBuffer (arg info 0))
  then Thrown JsTypeError
         "fromBuffer() missing required argument: 'buffer' (a Buffer)"
  else
    let data := bytes_of (arg info 0) in
    o ← read_LoadOptions info;
    '(metadata, inputStream) ←
      try_engine (Metadata_loadFromStream (inr (MemoryInputStream.new data)));
    load_from info o metadata inputStream
      (fun numDimensions => numDimensions =? 0) buffer_no_metadata.

(** *** [toBuffer], [ids], [getVector] *)

(** [IndexWrapper::ToBuffer] *)
Definition ToBuffer (self : t) (info : list Value) : JsResult Value :=
  bytes ← try_engine (Index_saveIndex (index_ self));
  Returned (Buffer bytes).

(** [IndexWrapper::GetIds] *)
Definition GetIds (self : t) (info : list Value) : JsResult Value :=
  ids ← try_engine (Index_getIDs (index_ self));
  Returned (Array ((fun id => Number (double_of_Z id)) <$> ids)).

(** [IndexWrapper::GetVector] *)
Definition GetVector (self : t) (info : list Value) : JsResult Value :=
  if (Length info <? 1) || negb (IsNumber (arg info 0))
  then Thrown JsTypeError
         "getVector() missing required argument: 'id' (a number)"
  else
    id ← size_t_option (arg info 0);
    vector ← try_engine (Index_getVector (index_ self) id);
    Returned (VectorToArray vector).

End Binding.

Section Querying.
Context {En : Enums} {Eng : Engine} {Srch : Search}.

(** *** [query] *)

(** [info.Length() >= i + 1 && info[i].IsNumber() ? read(info[i]) :
    dflt] *)
Definition number_arg (info : list Value) (i : nat)
    (read : Value -> JsResult Z) (dflt : Z) : JsResult Z :=
  if (Z.of_nat (S i) <=? Length info) && IsNumber (arg info i)
  then read (arg info i) else Returned dflt.

(** The locals [k], [numThreads] and [queryEf]. *)
Record QueryArgs := { k : Z; numThreads : Z; queryEf : Z }.

(** Their values when no optional argument is given. *)
Definition query_initial : QueryArgs :=
  {| k := 1; numThreads := -1; queryEf := -1 |}.

Definition read_QueryArgs (info : list Value) : JsResult QueryArgs :=
  k ← number_arg info 1 Int32Value 1;
  numThreads ← number_arg info 2 Int32Value (-1);
  queryEf ← number_arg info 3 Int64Value (-1);
  Returned {| k := k; numThreads := numThreads; queryEf := queryEf |}.

(** The single-vector branch.  The labels are handed to [VectorToArray]
    as a [std::vector<float>] built from them.  The result is an empty
    array, [Napi::Array::New(env)], given two named properties. *)
Definition query_single (self : t) (inputArray : Value) (a : QueryArgs)
  : JsResult Value :=
  queryVector ← catch_std (ArrayToVector inputArray);
  '(neighborIds, distances) ←
    try_engine (Index_query (index_ self) queryVector (k a) (queryEf a));
  Returned (ArrayWith []
    (<["neighbors" := VectorToArray (float_of_Z <$> neighborIds)]>
     (<["distances" := VectorToArray distances]> ∅))).

Definition query_vectors (elems : list Value)
  : JsResult (list (list spec_float)) :=
  mapM (fun v =>
          if IsArray v then catch_std (ArrayToVector v)
          else Thrown JsTypeError
                 ("query() expected one- or two-dimensional input data " ++
                  "(either a single query vector or multiple query vectors)"))
       elems.

(** Row [i] of a result array: [cols] assigned entries read at
    [i * stride + j], in an array created with [len] slots. *)
Definition result_row {T} (toNumber : T -> spec_float) (dflt : T)
    (data : list T) (i : nat) (cols : nat) (stride : nat) (len : nat)
  : Value :=
  Array (((fun j => Number (toNumber (nth (i * stride + j) data dflt)))
            <$> seq 0 cols)
         ++ replicate (len - cols) Undefined).

(** The branch for several query vectors. *)
Definition query_batch (self : t) (inputArray : Value) (a : QueryArgs)
  : JsResult Value :=
  queryVectors ← query_vectors (elems_of inputArray);
  '(neighborIds, distances) ←
    try_engine (Index_query_batch (index_ self) queryVectors (k a)
                  (numThreads a) (queryEf a));
  let rows := Z.to_nat (fst (nd_shape neighborIds)) in
  let cols := Z.to_nat (snd (nd_shape neighborIds)) in
  let drows := Z.to_nat (fst (nd_shape distances)) in
  let dcols := Z.to_nat (snd (nd_shape distances)) in
  let neighborsResult :=
    Array ((fun i => result_row double_of_Z 0 (nd_data neighborIds)
                       i cols cols cols) <$> seq 0 rows) in
  let distancesResult :=
    Array (((fun i => result_row double_of_float (S754_zero false)
                        (nd_data distances) i cols dcols dcols)
              <$> seq 0 rows)
           ++ replicate (drows - rows) Undefined) in
  Returned (Object
    (<["neighbors" := neighborsResult]>
     (<["distances" := distancesResult]> ∅))).

(** [IndexWrapper::Query] *)
Definition Query (self : t) (info : list Value) : JsResult Value :=
  if (Length info <? 1) || negb (IsArray (arg info 0))
  then Thrown JsTypeError
         ("query() missing required argument: 'vector' (an " ++
          "array or an array of arrays)")
  else
    a ← read_QueryArgs info;
    let inputArray := arg info 0 in
    let isSingleVector :=
      match elems_of inputArray with
      | first :: _ => IsNumber first
      | [] => false
      end in
    if isSingleVector then query_single self inputArray a
    else query_batch self inputArray a.

End Querying.

(** *** The other methods *)

Module Methods.

Section Updating.
Context {En : Enums} {Eng : Engine} {Upd : Updates}.

(** **** The methods that change the index

    Each gives what the call returns or throws, and the wrapper after the
    call. *)

(** The part of a method that runs before the engine is called: when it
    throws, the wrapper is as it was. *)
Definition before_engine {A B} (self : t) (r : JsResult A)
    (call : A -> JsResult B * t) : JsResult B * t :=
  match r with
  | Returned a => call a
  | Thrown kind message => (Thrown kind message, self)
  end.

(** [try { engine call; return value; } catch ...] on an engine
    function that changes the index. *)
Definition try_update {A B} (r : outcome A * Index) (value : A -> B)
  : JsResult B * t :=
  (a ← try_engine (fst r); Returned (value a), {| index_ := snd r |}).

(** [info.Length() >= 1 && info[0].IsNumber()] read as a label or a
    size: [Int64Value()] stored in a [size_t]. *)
Definition size_t_arg (info : list Value) (missing : string)
  : JsResult Z :=
  if (Length info <? 1) || negb (IsNumber (arg info 0))
  then Thrown JsTypeError missing
  else size_t_option (arg info 0).

(** The locals [vector] and [id] of [AddItem]. *)
Definition read_AddItemArgs (info : list Value)
  : JsResult (list spec_float * option Z) :=
  if (Length info <? 1) || negb (IsArray (arg info 0))
  then Thrown JsTypeError
         "addItem() missing required argument: 'vector' (an array)"
  else
    vector ← ArrayToVector (arg info 0);
    id ← (if (2 <=? Length info) && IsNumber (arg info 1)
          then z ← size_t_option (arg info 1); Returned (Some z)
          else Returned None);
    Returned (vector, id).

(** [IndexWrapper::AddItem] *)
Definition AddItem (self : t) (info : list Value) : JsResult Value * t :=
  before_engine self (read_AddItemArgs info) (fun '(vector, id) =>
    try_update (Index_addItem (index_ self) vector id)
      (fun resultId => Number (double_of_Z resultId))).

Definition addItems_vectors (elems : list Value)
  : JsResult (list (list spec_float)) :=
  mapM (fun v =>
          if IsArray v then ArrayToVector v
          else Thrown JsTypeError
                 "addItems() expected each element of 'vectors' to be an array")
       elems.

(** The locals [vectors], [ids] and [numThreads] of [AddItems]. *)
Definition read_AddItemsArgs (info : list Value)
  : JsResult (list (list spec_float) * list Z * Z) :=
  if (Length info <? 1) || negb (IsArray (arg info 0))
  then Thrown JsTypeError
         ("addItems() missing required argument: 'vectors' " ++
          "(an array of arrays)")
  else
    vectors ← addItems_vectors (elems_of (arg info 0));
    ids ← (if (2 <=? Length info) && IsArray (arg info 1)
           then mapM size_t_option (elems_of (arg info 1))
           else Returned []);
    numThreads ← number_arg info 2 Int32Value (-1);
    Returned (vectors, ids, numThreads).

(** [IndexWrapper::AddItems] *)
Definition AddItems (self : t) (info : list Value) : JsResult Value * t :=
  before_engine self (read_AddItemsArgs info)
    (fun '(vectors, ids, numThreads) =>
       try_update (Index_addItems (index_ self) vectors ids numThreads)
         (fun resultIds =>
            Array ((fun id => Number (double_of_Z id)) <$> resultIds))).

(** [IndexWrapper::MarkDeleted] *)
Definition MarkDeleted (self : t) (info : list Value)
  : JsResult Value * t :=
  before_engine self
    (size_t_arg info "markDeleted() missing required argument: 'id' (a number)")
    (fun id =>
       try_update (Index_markDeleted (index_ self) id) (fun _ => Undefined)).

(** [IndexWrapper::UnmarkDeleted] *)
Definition UnmarkDeleted (self : t) (info : list Value)
  : JsResult Value * t :=
  before_engine self
    (size_t_arg info
       "unmarkDeleted() missing required argument: 'id' (a number)")
    (fun id =>
       try_update (Index_unmarkDeleted (index_ self) id) (fun _ => Undefined)).

(** [IndexWrapper::Resize] *)
Definition Resize (self : t) (info : list Value) : JsResult Value * t :=
  before_engine self
    (size_t_arg info
       "resize() missing required argument: 'newSize' (a number)")
    (fun newSize =>
       try_update (Index_resizeIndex (index_ self) newSize)
         (fun _ => Undefined)).

(** A setter's [value.IsNumber()] test and its [Int64Value()] stored
    in a [size_t]. *)
Definition size_t_value (value : Value) (message : string) : JsResult Z :=
  if negb (IsNumber value) then Thrown JsTypeError message
  else size_t_option value.

(** [IndexWrapper::SetMaxElements] *)
Definition SetMaxElements (self : t) (info : list Value) (value : Value)
  : JsResult unit * t :=
  before_engine self
    (size_t_value value "maxElements must be set to a number")
    (fun newSize =>
       try_update (Index_resizeIndex (index_ self) newSize) (fun _ => ())).

(** [IndexWrapper::SetEf] *)
Definition SetEf (self : t) (info : list Value) (value : Value)
  : JsResult unit * t :=
  before_engine self (size_t_value value "ef must be set to a number")
    (fun ef => try_update (Index_setEF (index_ self) ef) (fun _ => ())).

(** **** The methods that only read the index *)

(** The two loops of [GetVectors] over an [NDArray<float, 2>]: an array
    of [shape[0]] rows of [shape[1]] numbers. *)
Definition rows_of (vectors : NDArray spec_float) : Value :=
  let rows := Z.to_nat (fst (nd_shape vectors)) in
  let cols := Z.to_nat (snd (nd_shape vectors)) in
  Array ((fun i => result_row double_of_float (S754_zero false)
                     (nd_data vectors) i cols cols cols)
           <$> seq 0 rows).

(** [IndexWrapper::GetVectors] *)
Definition GetVectors (self : t) (info : list Value) : JsResult Value :=
  if (Length info <? 1) || negb (IsArray (arg info 0))
  then Thrown JsTypeError
         ("getVectors() missing required argument: 'ids' " ++
          "(an array of numbers)")
  else
    ids ← mapM size_t_option (elems_of (arg info 0));
    vectors ← try_engine (Index_getVectors (index_ self) ids);
    Returned (rows_of vectors).

(** [IndexWrapper::GetDistance] *)
Definition GetDistance (self : t) (info : list Value) : JsResult Value :=
  if (Length info <? 2) || negb (IsArray (arg info 0))
     || negb (IsArray (arg info 1))
  then Thrown JsTypeError
         ("getDistance() missing required arguments: 'a' and 'b' " ++
          "(both arrays)")
  else
    a ← ArrayToVector (arg info 0);
    b ← ArrayToVector (arg info 1);
    distance ← try_engine (Index_getDistance (index_ self) a b);
    Returned (Number (double_of_float distance)).

(** [IndexWrapper::Has] *)
Definition Has (self : t) (info : list Value) : JsResult Value :=
  id ← size_t_arg info "has() missing required argument: 'id' (a number)";
  map ← try_engine (Index_getIDsMap (index_ self));
  Returned (Boolean (bool_decide (is_Some (map !! id)))).

(** [IndexWrapper::GetSpace] *)
Definition GetSpace (self : t) (info : list Value) : Value :=
  Number (double_of_Z (int_of_SpaceType (Index_getSpace (index_ self)))).

(** [IndexWrapper::GetNumDimensions] *)
Definition GetNumDimensions (self : t) (info : list Value) : Value :=
  Number (double_of_Z (Index_getNumDimensions (index_ self))).

End Updating.

End Methods.
End IndexWrapper.

(** ** The enumerations the module exports *)

(** [static_cast<uint32_t>] of an enumerator: the 32 low bits of its
    value, which [static_cast<int>] has too. *)
Definition uint32_of_SpaceType {En : Enums} (s : SpaceType) : Z :=
  CInt.to_u32 (int_of_SpaceType s).
Definition uint32_of_StorageDataType {En : Enums} (s : StorageDataType) : Z :=
  CInt.to_u32 (int_of_StorageDataType s).

(** [InitSpace] *)
Definition InitSpace {En : Enums} : Napi.Value :=
  Napi.Object
    (<["InnerProduct" :=
         Napi.Number (Napi.double_of_Z (uint32_of_SpaceType InnerProduct))]>
     (<["Cosine" :=
          Napi.Number (Napi.double_of_Z (uint32_of_SpaceType Cosine))]>
      (<["Euclidean" :=
           Napi.Number (Napi.double_of_Z (uint32_of_SpaceType Euclidean))]>
       ∅))).

(** [InitStorageDataType] *)
Definition InitStorageDataType {En : Enums} : Napi.Value :=
  Napi.Object
    (<["E4M3" :=
         Napi.Number (Napi.double_of_Z (uint32_of_StorageDataType E4M3))]>
     (<["Float32" :=
          Napi.Number (Napi.double_of_Z (uint32_of_StorageDataType Float32))]>
      (<["Float8" :=
           Napi.Number (Napi.double_of_Z (uint32_of_StorageDataType Float8))]>
       ∅))).

(** ** Vocabulary of the statements about loading *)

Section LoadVocabulary.
Context {En : Enums} {Eng : Engine}.
Import Napi IndexWrapper.

(** A disagreement between an option of the caller and the header: the
    value the binding read from the option, and the stored one. *)
Inductive Mismatch :=
| StorageMismatch (provided stored : StorageDataType)
| SpaceMismatch (provided stored : SpaceType)
| DimensionsMismatch (provided stored : Z).

(** The option a mismatch is about. *)
Definition Mismatch_parameter (m : Mismatch) : string :=
  match m with
  | StorageMismatch _ _ => "storageDataType"
  | SpaceMismatch _ _ => "space"
  | DimensionsMismatch _ _ => "numDimensions"
  end.

(** The message the binding throws for it. *)
Definition Mismatch_message (m : Mismatch) : string :=
  match m with
  | StorageMismatch provided stored => storage_mismatch provided stored
  | SpaceMismatch provided stored => space_mismatch provided stored
  | DimensionsMismatch provided stored => dimensions_mismatch provided stored
  end.

(** [conflict info metadata m]: the caller supplied the option [m] is
    about, the binding reads [provided] from it, the header holds
    [stored], and the two differ. *)
Definition conflict (info : list Value) (metadata : Metadata) (m : Mismatch)
  : Prop :=
  has_options info = true /\
  Has (arg info 1) (Mismatch_parameter m) = true /\
  match m with
  | StorageMismatch provided stored =>
      StorageDataType_option (Get (arg info 1) "storageDataType")
        = Returned provided /\
      stored = Metadata_getStorageDataType metadata /\
      provided <> stored
  | SpaceMismatch provided stored =>
      SpaceType_option (Get (arg info 1) "space") = Returned provided /\
      stored = Metadata_getSpaceType metadata /\
      provided <> stored
  | DimensionsMismatch provided stored =>
      providedDims_option (Get (arg info 1) "numDimensions")
        = Returned provided /\
      stored = Metadata_getNumDimensions metadata /\
      provided <> stored
  end.

(** The caller supplied the option [key]. *)
Definition supplied (info : list Value) (key : string) : bool :=
  has_options info && Has (arg info 1) key.

(** What a load does once it has accepted the header: the engine loads
    the index from the stored metadata and the result is wrapped. *)
Definition proceed_with_metadata (metadata : Metadata)
    (inputStream : InputStream) : JsResult t :=
  loadedIndex ← try_engine (loadTypedIndexFromMetadata metadata inputStream);
  wrap loadedIndex.

(** What a legacy load does once it has accepted the options. *)
Definition proceed_legacy (kind : TypedIndexKind) (inputStream : InputStream)
    (space : SpaceType) (numDimensions : Z) : JsResult t :=
  loadedIndex ←
    try_engine (TypedIndex_load kind inputStream space numDimensions);
  wrap loadedIndex.

End LoadVocabulary.

(** Options that hold nothing but [numDimensions: -1]. *)
Definition negative_dimensions : Napi.Value :=
  Napi.Object (<["numDimensions" := Napi.Number (Napi.double_of_Z (-1))]> ∅).

(** ** Vocabulary of the statements about [query] *)

Section QueryVocabulary.
Import Napi IndexWrapper.

(** What the single-vector branch returns for the engine's answer: an
    empty array that holds, as named properties, the labels passed
    through [float] and the distances. *)
Definition single_answer (answer : list Z * list spec_float) : Value :=
  ArrayWith []
    (<["neighbors" := VectorToArray (float_of_Z <$> fst answer)]>
     (<["distances" := VectorToArray (snd answer)]> ∅)).

(** What the branch for several vectors returns for the engine's answer:
    an object that holds the two arrays of rows. *)
Definition batch_answer (answer : NDArray Z * NDArray spec_float) : Value :=
  let neighborIds := fst answer in
  let distances := snd answer in
  let rows := Z.to_nat (fst (nd_shape neighborIds)) in
  let cols := Z.to_nat (snd (nd_shape neighborIds)) in
  let drows := Z.to_nat (fst (nd_shape distances)) in
  let dcols := Z.to_nat (snd (nd_shape distances)) in
  Object
    (<["neighbors" :=
         Array ((fun i => result_row double_of_Z 0 (nd_data neighborIds)
                            i cols cols cols) <$> seq 0 rows)]>
     (<["distances" :=
          Array (((fun i => result_row double_of_float (S754_zero false)
                              (nd_data distances) i cols dcols dcols)
                    <$> seq 0 rows)
                 ++ replicate (drows - rows) Undefined)]> ∅)).

End QueryVocabulary.

(** ** The engine, modelled from the specification

    The engine itself ([Index.h], [TypedIndex.h], [Metadata.h], [Enums.h],
    [StreamUtils.h]) is not among the sources. What follows models, from the
    specification, the part of it that saving and loading involve: the
    persistent state of an index, the storage codec, and the serializer. *)

Module SpecModel.
Import CInt.

Definition space_name (s : Z) : string :=
  if s =? 0 then "Euclidean" else if s =? 1 then "InnerProduct"
  else if s =? 2 then "Cosine" else "Unknown".

Definition storage_name (s : Z) : string :=
  if s =? 16 then "Float8" else if s =? 32 then "Float32"
  else if s =? 48 then "E4M3" else "Unknown".

(** Modelled from the spec: [Enums.h] is missing. The three metrics and
    the three storage types of sections 1 and 4, each enumeration held in
    one byte; the numbering is this model's. *)
#[export] Instance enums : Enums := {|
  SpaceType := Z;
  StorageDataType := Z;
  Euclidean := 0;
  InnerProduct := 1;
  Cosine := 2;
  Float8 := 16;
  Float32 := 32;
  E4M3 := 48;
  SpaceType_of_uint32 n := n mod 256;
  int_of_SpaceType s := s;
  StorageDataType_of_uint32 n := n mod 256;
  int_of_StorageDataType s := s;
  SpaceType_toString := space_name;
  StorageDataType_toString := storage_name;
|}.

(** *** Bytes and little-endian integers *)

Definition byte_of_Z (z : Z) : byte :=
  default x00 (Byte.of_N (Z.to_N (z mod 256))).

Definition Z_of_byte (b : byte) : Z := Z.of_N (Byte.to_N b).

Fixpoint put_uint (width : nat) (z : Z) : list byte :=
  match width with
  | O => []
  | S w => byte_of_Z z :: put_uint w (z / 256)
  end.

Definition uint_of_bytes (bs : list byte) : Z :=
  fold_right (fun b acc => Z_of_byte b + 256 * acc) 0 bs.

(** *** Reading from a stream *)

(** Modelled from the spec: section 6, "sequential read of N bytes" and
    "a 4-byte peek without advancing position", over the stream of the
    binding: a reader takes a stream and returns a value and the stream
    after it, or throws. *)
Definition Reader (A : Type) : Type :=
  MemoryInputStream.t -> outcome (A * MemoryInputStream.t).

#[export] Instance Reader_ret : MRet Reader := fun _ a s => Ok (a, s).

#[export] Instance Reader_bind : MBind Reader := fun _ _ f r s =>
  match r s with
  | Ok (a, s') => f a s'
  | Throw what => Throw what
  end.

Definition fail {A} (what : string) : Reader A := fun _ => Throw what.

(** [n] bytes, or an error when the stream ends before. *)
Definition read_exact (n : Z) : Reader (list byte) := fun s =>
  let '(count, buffer, s') :=
    MemoryInputStream.read s (replicate (Z.to_nat n) x00) n in
  if count =? n then Ok (buffer, s')
  else Throw "Failed to read from the stream.".

Definition peek : Reader Z := fun s =>
  match MemoryInputStream.peek LittleEndian s with
  | (Ok v, s') => Ok (v, s')
  | (Throw what, _) => Throw what
  end.

Definition get_uint (width : nat) : Reader Z :=
  bs ← read_exact (Z.of_nat width); mret (uint_of_bytes bs).

Fixpoint get_n {A} (get : Reader A) (n : nat) : Reader (list A) :=
  match n with
  | O => mret []
  | S n' => a ← get; l ← get_n get n'; mret (a :: l)
  end.

(** A list is written as its length and its elements. *)
Definition put_list {A} (put : A -> list byte) (l : list A) : list byte :=
  put_uint 8 (Z.of_nat (length l)) ++ concat (put <$> l).

Definition get_list {A} (get : Reader A) : Reader (list A) :=
  n ← get_uint 8; get_n get (Z.to_nat n).

Definition put_option {A} (put : A -> list byte) (o : option A) : list byte :=
  match o with
  | None => put_uint 1 0
  | Some a => put_uint 1 1 ++ put a
  end.

Definition get_option {A} (get : Reader A) : Reader (option A) :=
  tag ← get_uint 1;
  if tag =? 0 then mret None else a ← get; mret (Some a).

(** *** The persistent state of an index *)

(** Modelled from the spec: the index behind [Index.h], after section 3. Vectors are held in their stored
    representation; the label map is the list of the labels by internal
    index; the graph is the neighbour lists by internal index and layer,
    with the entry point and the deleted set. *)
Record IndexState := {
  space : Z;
  storageDataType : Z;
  numDimensions : Z;
  M : Z;
  efConstruction : Z;
  maxElements : Z;
  vectors : list (list byte);
  entryPoint : option Z;
  deleted : gset Z;
  links : list (list (list Z));
  labels : list Z;
}.

(** Modelled from the spec: the "Metadata Header" of section 3:
    "capacity, current count, dimensionality, metric, storage type, M,
    efConstruction, format version". *)
Record Header := {
  md_space : Z;
  md_storageDataType : Z;
  md_numDimensions : Z;
  md_M : Z;
  md_efConstruction : Z;
  md_maxElements : Z;
  md_count : Z;
}.

Definition metadata_of (i : IndexState) : Header :=
  {| md_space := space i; md_storageDataType := storageDataType i;
     md_numDimensions := numDimensions i; md_M := M i;
     md_efConstruction := efConstruction i;
     md_maxElements := maxElements i;
     md_count := Z.of_nat (length (labels i)) |}.

(** Bytes per stored component. *)
Definition width_of (storage : Z) : option Z :=
  if storage =? 32 then Some 4
  else if (storage =? 16) || (storage =? 48) then Some 1
  else None.

(** *** The storage codec *)

(** Modelled from the spec: section 4.2, "Full precision: identity": a
    stored component is the 32 bits of the binary32 value. *)
Definition float_of_bits (w : Z) : spec_float :=
  let s := Z.testbit w 31 in
  let e := (w / 2 ^ 23) mod 256 in
  let m := w mod 2 ^ 23 in
  if e =? 0 then
    if m =? 0 then S754_zero s else S754_finite s (Z.to_pos m) (-149)
  else if e =? 255 then
    if m =? 0 then S754_infinity s else S754_nan
  else S754_finite s (Z.to_pos (m + 2 ^ 23)) (e - 150).

(** Modelled from the spec: section 4.2, "Linear 8-bit": a signed byte,
    and "decode multiplies back" by the ratio [1/127]. *)
Definition float_of_linear8 (b : byte) : spec_float :=
  let v := Z_of_byte b in
  let signed := if v <? 128 then v else v - 256 in
  SFmul 24 128 (Napi.float_of_Z signed)
    (SFdiv 24 128 (Napi.float_of_Z 1) (Napi.float_of_Z 127)).

(** Modelled from the spec: section 4.2, "Float8 (E4M3-style)": 4
    exponent bits, 3 mantissa bits, expanded to full precision. *)
Definition float_of_e4m3 (b : byte) : spec_float :=
  let v := Z_of_byte b in
  let s := 128 <=? v in
  let e := (v / 8) mod 16 in
  let m := v mod 8 in
  let sign (z : Z) := if s then - z else z in
  if (e =? 15) && (m =? 7) then S754_nan
  else if e =? 0 then binary_normalize 24 128 (sign m) (-9) s
  else binary_normalize 24 128 (sign (8 + m)) (e - 10) s.

Fixpoint words (bs : list byte) : list (list byte) :=
  match bs with
  | a :: b :: c :: d :: rest => [a; b; c; d] :: words rest
  | _ => []
  end.

Definition decode (storage : Z) (stored : list byte) : list spec_float :=
  if storage =? 32 then (fun w => float_of_bits (uint_of_bytes w)) <$> words stored
  else if storage =? 16 then float_of_linear8 <$> stored
  else float_of_e4m3 <$> stored.

(** *** The serializer

    The layout follows section 6, "[metadata header][vector storage
    block][graph adjacency block][label map block]", and section 9, the
    two-path loader. The spec fixes neither the widths nor the magic:
    integers are little-endian, 8 bytes wide unless said otherwise, the
    enumerations take one byte, and a file without the header starts
    with the parameters that follow the header's self-describing
    fields. *)

(** Modelled from the spec: section 9, the "fixed epoch/magic field": the
    bytes "VOYA", and the number [peek] reads from them. *)
Definition magic : list byte := [x56; x4f; x59; x41].
Definition magic_number : Z := 0x41594f56.
Definition version : Z := 1.

(** Modelled from the spec: section 3, the fields "M, efConstruction",
    "capacity, current count" of the header. *)
Definition put_parameters (md : Header) : list byte :=
  put_uint 8 (md_M md) ++ put_uint 8 (md_efConstruction md) ++
  put_uint 8 (md_maxElements md) ++ put_uint 8 (md_count md).

(** Modelled from the spec: section 3, the header, "written first in any
    serialized file". *)
Definition put_metadata (md : Header) : list byte :=
  magic ++ put_uint 4 version ++
  put_uint 1 (md_space md) ++ put_uint 1 (md_storageDataType md) ++
  put_uint 4 (md_numDimensions md) ++
  put_parameters md.

(** Modelled from the spec: section 6, the three blocks; the entry point
    and the deleted set go with the graph. *)
Definition put_blocks (i : IndexState) : list byte :=
  concat (vectors i) ++
  (put_option (put_uint 8) (entryPoint i) ++
   put_list (put_uint 8) (elements (deleted i)) ++
   concat (put_list (put_list (put_uint 8)) <$> links i)) ++
  concat (put_uint 8 <$> labels i).

(** Modelled from the spec: [saveIndex] is missing; section 6, the header
    followed by the three blocks. *)
Definition serialize (i : IndexState) : list byte :=
  put_metadata (metadata_of i) ++ put_blocks i.

(** Modelled from the spec: section 6, "a file lacking this header is a
    legacy file": the same index without the self-describing fields. *)
Definition serialize_legacy (i : IndexState) : list byte :=
  put_parameters (metadata_of i) ++ put_blocks i.

(** The parameters [M], [efConstruction], capacity and count, given the
    three self-describing fields. *)
Definition get_parameters (space storage dimensions : Z) : Reader Header :=
  M ← get_uint 8;
  efConstruction ← get_uint 8;
  maxElements ← get_uint 8;
  count ← get_uint 8;
  mret {| md_space := space; md_storageDataType := storage;
          md_numDimensions := dimensions; md_M := M;
          md_efConstruction := efConstruction;
          md_maxElements := maxElements; md_count := count |}.

(** Modelled from the spec: section 9, "cross-check the version field
    before trusting the rest of the header": the header, once [peek] has
    seen the magic. *)
Definition get_metadata : Reader Header :=
  _ ← read_exact 4;
  v ← get_uint 4;
  if v =? version then
    space ← get_uint 1;
    storage ← get_uint 1;
    dimensions ← get_uint 4;
    get_parameters space storage (to_i32 dimensions)
  else fail "Unsupported format version.".

(** Modelled from the spec: [voyager::Metadata::loadFromStream] is
    missing; section 9, "attempt to parse a header; on failure (bytes don't
    match the header's fixed magic field) fall back". *)
Definition loadFromStream : Reader (option Header) :=
  header ← peek;
  if header =? magic_number then md ← get_metadata; mret (Some md)
  else mret None.

(** Modelled from the spec: [loadTypedIndexFromMetadata] is missing;
    section 6, the vector storage block, the graph adjacency block and the
    label map block, read with the parameters of the header. *)
Definition get_blocks (md : Header) : Reader IndexState :=
  match width_of (md_storageDataType md) with
  | None => fail "Unsupported storage data type."
  | Some width =>
      let count := Z.to_nat (md_count md) in
      vectors ← get_n (read_exact (md_numDimensions md * width)) count;
      entryPoint ← get_option (get_uint 8);
      deleted ← get_list (get_uint 8);
      links ← get_n (get_list (get_list (get_uint 8))) count;
      labels ← get_n (get_uint 8) count;
      mret {| space := md_space md;
              storageDataType := md_storageDataType md;
              numDimensions := md_numDimensions md; M := md_M md;
              efConstruction := md_efConstruction md;
              maxElements := md_maxElements md;
              vectors := vectors; entryPoint := entryPoint;
              deleted := list_to_set deleted;
              links := links; labels := labels |}
  end.

(** Modelled from the spec: the [TypedIndex] constructor from a stream is
    missing; section 6, a legacy file is loaded with the metric,
    dimensionality and storage type of the caller. *)
Definition get_legacy (space storage dimensions : Z) : Reader IndexState :=
  md ← get_parameters space storage dimensions; get_blocks md.

(** *** The operations the binding calls *)

Definition storage_of (kind : TypedIndexKind) : Z :=
  match kind with
  | TypedIndex_float => 32
  | TypedIndex_int8 => 16
  | TypedIndex_E4M3 => 48
  end.

(** Modelled from the spec: section 6, "construct ... new empty index". *)
Definition construct (kind : TypedIndexKind)
    (space numDimensions M efConstruction maxElements : Z) : IndexState :=
  {| space := space; storageDataType := storage_of kind;
     numDimensions := numDimensions; M := M;
     efConstruction := efConstruction; maxElements := maxElements;
     vectors := []; entryPoint := None; deleted := ∅;
     links := []; labels := [] |}.

(** The internal index of a label. *)
Fixpoint slot_of (label : Z) (labels : list Z) : option nat :=
  match labels with
  | [] => None
  | l :: rest => if l =? label then Some O else S <$> slot_of label rest
  end.

(** Modelled from the spec: section 4.3, "Vector retrieval": the decoded
    stored vector of a label of the label map, deleted or not. *)
Definition getVector (i : IndexState) (label : Z) : outcome (list spec_float) :=
  match slot_of label (labels i) with
  | Some slot =>
      match vectors i !! slot with
      | Some stored => Ok (decode (storageDataType i) stored)
      | None => Throw "Corrupt index."
      end
  | None => Throw "Unknown label."
  end.

(** A reader applied to whichever stream the binding made. *)
Definition on_stream {A} (r : Reader A)
    (stream : MemoryInputStream.t + MemoryInputStream.t)
  : outcome (A * (MemoryInputStream.t + MemoryInputStream.t)) :=
  match stream with
  | inl s => match r s with
             | Ok (a, s') => Ok (a, inl s')
             | Throw what => Throw what
             end
  | inr s => match r s with
             | Ok (a, s') => Ok (a, inr s')
             | Throw what => Throw what
             end
  end.

Definition result_of {A S} (o : outcome (A * S)) : outcome A :=
  match o with
  | Ok (a, _) => Ok a
  | Throw what => Throw what
  end.

(** Modelled from the spec: the engine over a file system [files];
    [FileInputStream] is missing and, after section 6 ("for both file-backed
    and in-memory streams"), is a stream over the bytes of the file. *)
Definition engine (files : string -> option (list byte)) : Engine := {|
  Index := IndexState;
  Metadata := Header;
  Metadata_getStorageDataType := md_storageDataType;
  Metadata_getSpaceType := md_space;
  Metadata_getNumDimensions := md_numDimensions;
  FileInputStream := MemoryInputStream.t;
  FileInputStream_new path :=
    match files path with
    | Some bytes => Ok (MemoryInputStream.new bytes)
    | None => Throw "Failed to open file for reading."
    end;
  Metadata_loadFromStream := on_stream loadFromStream;
  loadTypedIndexFromMetadata md stream :=
    result_of (on_stream (get_blocks md) stream);
  TypedIndex_new kind space numDimensions M efConstruction maxElements _ :=
    Ok (construct kind space numDimensions M efConstruction maxElements);
  TypedIndex_load kind stream space numDimensions :=
    result_of
      (on_stream (get_legacy space (storage_of kind) numDimensions) stream);
  Index_getSpace := space;
  Index_getNumDimensions := numDimensions;
  Index_saveIndex i := Ok (serialize i);
  Index_getIDs i := Ok (labels i);
  Index_getVector := getVector;
|}.

(** A stand-in for the search, which the specification describes as
    approximate: it answers the first [k] labels, at distance zero. It
    serves to run [query] on concrete inputs. *)
Definition first_labels_query (i : IndexState) (_ : list spec_float)
    (k _ : Z) : outcome (list Z * list spec_float) :=
  let found := take (Z.to_nat k) (labels i) in
  Ok (found, (fun _ => S754_zero false) <$> found).

Definition first_labels_query_batch (i : IndexState)
    (queries : list (list spec_float)) (k _ _ : Z)
  : outcome (NDArray Z * NDArray spec_float) :=
  let found := take (Z.to_nat k) (labels i) in
  let rows := Z.of_nat (length queries) in
  let cols := Z.of_nat (length found) in
  Ok ({| nd_data := mjoin ((fun _ => found) <$> queries);
         nd_shape := (rows, cols) |},
      {| nd_data :=
           mjoin ((fun _ => (fun _ => S754_zero false) <$> found)
                    <$> queries);
         nd_shape := (rows, cols) |}).

Definition first_labels (files : string -> option (list byte))
  : @Search enums (engine files) :=
  @Build_Search enums (engine files)
    first_labels_query first_labels_query_batch.

(** *** Well-formed indexes

    Every number of the state fits the field it is written to, every
    stored vector has [numDimensions] components, and vectors, neighbour
    lists and labels are as many as the points. *)

Definition u64 (z : Z) : Prop := 0 <= z < 2 ^ 64.

Definition u64_list (l : list Z) : Prop :=
  u64 (Z.of_nat (length l)) /\ Forall u64 l.

Record valid (i : IndexState) : Prop := {
  valid_space : 0 <= space i < 256;
  valid_storage : is_Some (width_of (storageDataType i));
  valid_numDimensions : 0 <= numDimensions i < 2 ^ 31;
  valid_M : u64 (M i);
  valid_efConstruction : u64 (efConstruction i);
  valid_maxElements : u64 (maxElements i);
  valid_count : u64 (Z.of_nat (length (labels i)));
  valid_labels : Forall u64 (labels i);
  valid_vectors : length (vectors i) = length (labels i);
  valid_vector_size :
    Forall (fun stored =>
              Some (Z.of_nat (length stored))
                = Z.mul (numDimensions i) <$> width_of (storageDataType i))
           (vectors i);
  valid_entryPoint : from_option u64 True (entryPoint i);
  valid_deleted : u64_list (elements (deleted i));
  valid_links : length (links i) = length (labels i);
  valid_neighbours :
    Forall (fun layers =>
              u64 (Z.of_nat (length layers)) /\ Forall u64_list layers)
           (links i);
}.

(** The header of a well-formed index. *)
Definition valid_header (md : Header) : Prop :=
  0 <= md_space md < 256 /\ 0 <= md_storageDataType md < 256 /\
  0 <= md_numDimensions md < 2 ^ 31 /\
  u64 (md_M md) /\ u64 (md_efConstruction md) /\
  u64 (md_maxElements md) /\ u64 (md_count md).

(** *** Reading what was written *)

(** The stream [n] bytes further. *)
Definition advance (s : MemoryInputStream.t) (n : nat) : MemoryInputStream.t :=
  {| MemoryInputStream.data := MemoryInputStream.data s;
     MemoryInputStream.position :=
       MemoryInputStream.position s + Z.of_nat n |}.

(** [reads get bs a]: on any stream that holds [bs] at its position,
    [get] returns [a] and leaves the stream just after [bs]. *)
Definition reads {A} (get : Reader A) (bs : list byte) (a : A) : Prop :=
  forall s rest,
    MemoryInputStream.wf s ->
    MemoryInputStream.from_position s = bs ++ rest ->
    get s = Ok (a, advance s (length bs)).

End SpecModel.

(** ** A small index, to run the binding on *)

Module Example.
Import SpecModel.

(** Two points of dimension 2 in full precision, [(1, 0)] under the label
    [16777217] and [(0, 1)] under the label [7], the second one marked
    deleted. *)
Definition index : IndexState :=
  {| space := 0; storageDataType := 32; numDimensions := 2; M := 12;
     efConstruction := 200; maxElements := 100;
     vectors := [[x00; x00; x80; x3f; x00; x00; x00; x00];
                 [x00; x00; x00; x00; x00; x00; x80; x3f]];
     entryPoint := Some 0;
     deleted := {[ 1 ]};
     links := [[[1]]; [[0]]];
     labels := [16777217; 7] |}.

(** A file system with that index saved twice, with and without
    header. *)
Definition files (path : string) : option (list byte) :=
  if String.eqb path "index.voy" then Some (serialize index)
  else if String.eqb path "legacy.voy" then Some (serialize_legacy index)
  else None.

Definition engine : Engine := SpecModel.engine files.
Definition search : Search := SpecModel.first_labels files.

Definition number (z : Z) : Napi.Value := Napi.Number (Napi.double_of_Z z).

(** [{space: 0, numDimensions: 2}] *)
Definition required_options : Napi.Value :=
  Napi.Object (<["space" := number 0]> (<["numDimensions" := number 2]> ∅)).

(** [{storageDataType: 16}], the linear 8-bit storage. *)
Definition float8_options : Napi.Value :=
  Napi.Object (<["storageDataType" := number 16]> ∅).

(** The query vector [[1, 0]]. *)
Definition query_vector : Napi.Value := Napi.Array [number 1; number 0].

End Example.

(** ** A stand-in for the rest of the engine

    The specification describes insertion, deletion marks, resizing and
    distances in outline only. What follows stands in for them over the
    modelled state, for full-precision storage and the Euclidean space; it
    serves to run the remaining methods on concrete inputs. *)

Module StandIn.
Import CInt SpecModel.

(** Modelled from the spec: section 4.2, "Full precision: identity": the
    32 bits of a binary32 value, which [float_of_bits] reads back. *)
Definition bits_of_float (f : spec_float) : Z :=
  let sign (s : bool) := if s then 2 ^ 31 else 0 in
  match f with
  | S754_zero s => sign s
  | S754_infinity s => sign s + 255 * 2 ^ 23
  | S754_nan => 255 * 2 ^ 23 + 2 ^ 22
  | S754_finite s m e =>
      if Zpos m <? 2 ^ 23 then sign s + Zpos m
      else sign s + (e + 150) * 2 ^ 23 + (Zpos m - 2 ^ 23)
  end.

Definition encode (vector : list spec_float) : list byte :=
  mjoin ((fun f => put_uint 4 (bits_of_float f)) <$> vector).

Definition with_point (i : IndexState) (label : Z) (stored : list byte)
  : IndexState :=
  {| space := space i; storageDataType := storageDataType i;
     numDimensions := numDimensions i; M := M i;
     efConstruction := efConstruction i; maxElements := maxElements i;
     vectors := vectors i ++ [stored];
     entryPoint := Some (default 0 (entryPoint i));
     deleted := deleted i;
     links := links i ++ [[[]]];
     labels := labels i ++ [label] |}.

Definition with_deleted (i : IndexState) (d : gset Z) : IndexState :=
  {| space := space i; storageDataType := storageDataType i;
     numDimensions := numDimensions i; M := M i;
     efConstruction := efConstruction i; maxElements := maxElements i;
     vectors := vectors i; entryPoint := entryPoint i; deleted := d;
     links := links i; labels := labels i |}.

Definition with_maxElements (i : IndexState) (n : Z) : IndexState :=
  {| space := space i; storageDataType := storageDataType i;
     numDimensions := numDimensions i; M := M i;
     efConstruction := efConstruction i; maxElements := n;
     vectors := vectors i; entryPoint := entryPoint i;
     deleted := deleted i; links := links i; labels := labels i |}.

(** Modelled from the spec: section 4.3, "Insertion", section 6,
    "optional label", and the scenario of section 8, where the labels that
    were not given are 0 and 1: the number of points so far. *)
Definition addItem (i : IndexState) (vector : list spec_float)
    (id : option Z) : outcome Z * IndexState :=
  if negb (storageDataType i =? 32)
  then (Throw "Only full-precision storage is modelled.", i)
  else if negb (Z.of_nat (length vector) =? numDimensions i)
  then (Throw "Wrong number of dimensions.", i)
  else if maxElements i <=? Z.of_nat (length (labels i))
  then (Throw "The index is full.", i)
  else
    let label := default (Z.of_nat (length (labels i))) id in
    (Ok label, with_point i label (encode vector)).

Fixpoint addItems_from (i : IndexState) (vectors : list (list spec_float))
    (ids : list Z) : outcome (list Z) * IndexState :=
  match vectors with
  | [] => (Ok [], i)
  | vector :: rest =>
      match addItem i vector (head ids) with
      | (Ok label, i') =>
          match addItems_from i' rest (tail ids) with
          | (Ok found, i'') => (Ok (label :: found), i'')
          | (Throw what, i'') => (Throw what, i'')
          end
      | (Throw what, i') => (Throw what, i')
      end
  end.

(** Modelled from the spec: section 4.3, the batch insertion, here one
    point after the other; the labels are all given or all left out. *)
Definition addItems (i : IndexState) (vectors : list (list spec_float))
    (ids : list Z) (numThreads : Z) : outcome (list Z) * IndexState :=
  if negb (Nat.eqb (length ids) 0)
     && negb (Nat.eqb (length ids) (length vectors))
  then (Throw "As many labels as vectors are expected.", i)
  else addItems_from i vectors ids.

(** Modelled from the spec: section 4.3, "Vector retrieval" for several
    labels, the vectors one after the other. *)
Fixpoint getVectors_from (i : IndexState) (ids : list Z)
  : outcome (list spec_float) :=
  match ids with
  | [] => Ok []
  | id :: rest =>
      match getVector i id, getVectors_from i rest with
      | Ok vector, Ok found => Ok (vector ++ found)
      | Throw what, _ | _, Throw what => Throw what
      end
  end.

(** The vectors of several labels as one array, a row for each. *)
Definition getVectors (i : IndexState) (ids : list Z)
  : outcome (NDArray spec_float) :=
  match getVectors_from i ids with
  | Ok data =>
      Ok {| nd_data := data;
            nd_shape := (Z.of_nat (length ids), numDimensions i) |}
  | Throw what => Throw what
  end.

(** Modelled from the spec: section 4.3, "toggle of a point's membership
    in the Deleted Set"; "fails ... if the label is not present". *)
Definition markDeleted (i : IndexState) (label : Z)
  : outcome unit * IndexState :=
  match slot_of label (labels i) with
  | Some slot => (Ok (), with_deleted i (deleted i ∪ {[ Z.of_nat slot ]}))
  | None => (Throw "Unknown label.", i)
  end.

(** Modelled from the spec: section 4.3, "A point may be unmarked and
    become live again". *)
Definition unmarkDeleted (i : IndexState) (label : Z)
  : outcome unit * IndexState :=
  match slot_of label (labels i) with
  | Some slot => (Ok (), with_deleted i (deleted i ∖ {[ Z.of_nat slot ]}))
  | None => (Throw "Unknown label.", i)
  end.

(** Modelled from the spec: section 4.3, "changes capacity"; "fails ...
    if shrinking below current live count". *)
Definition resizeIndex (i : IndexState) (newSize : Z)
  : outcome unit * IndexState :=
  if newSize <? Z.of_nat (length (labels i))
  then (Throw "Cannot shrink below the number of points.", i)
  else (Ok (), with_maxElements i newSize).

(** Modelled from the spec: section 4.3, where [ef] is a parameter of a
    search; it is no part of the persistent state. *)
Definition setEF (i : IndexState) (ef : Z) : outcome unit * IndexState :=
  (Ok (), i).

(** Modelled from the spec: section 4.3, "Distance query", with the
    squared Euclidean distance of the scenario of section 8. *)
Definition getDistance (i : IndexState) (a b : list spec_float)
  : outcome spec_float :=
  if negb (Z.of_nat (length a) =? numDimensions i)
     || negb (Z.of_nat (length b) =? numDimensions i)
  then Throw "Wrong number of dimensions."
  else
    Ok (fold_right
          (fun '(x, y) sum =>
             SFadd 24 128
               (SFmul 24 128 (SFsub 24 128 x y) (SFsub 24 128 x y)) sum)
          (S754_zero false) (zip a b)).

(** Modelled from the spec: section 3, the label map, each label with
    its internal index. *)
Definition getIDsMap (i : IndexState) : outcome (gmap Z Z) :=
  Ok (list_to_map
        (zip (labels i) (Z.of_nat <$> seq 0 (length (labels i))))).

(** The stand-in as the rest of the engine modelled above. *)
Definition updates (files : string -> option (list byte))
  : @Updates enums (engine files) :=
  @Build_Updates enums (engine files)
    addItem addItems getVectors markDeleted unmarkDeleted resizeIndex
    setEF getDistance getIDsMap.

(** Modelled from the spec: section 7 names an error kind for an invalid
    parameter. The same engine with a constructor that can fail: it
    refuses a number of dimensions below 1. *)
Definition strict_engine (files : string -> option (list byte)) : Engine := {|
  Index := IndexState;
  Metadata := Header;
  Metadata_getStorageDataType := md_storageDataType;
  Metadata_getSpaceType := md_space;
  Metadata_getNumDimensions := md_numDimensions;
  FileInputStream := MemoryInputStream.t;
  FileInputStream_new := FileInputStream_new (Engine := engine files);
  Metadata_loadFromStream := on_stream loadFromStream;
  loadTypedIndexFromMetadata md stream :=
    result_of (on_stream (get_blocks md) stream);
  TypedIndex_new kind space numDimensions M efConstruction maxElements _ :=
    if numDimensions <? 1
    then Throw "The number of dimensions must be positive."
    else Ok (construct kind space numDimensions M efConstruction maxElements);
  TypedIndex_load kind stream space numDimensions :=
    result_of
      (on_stream (get_legacy space (storage_of kind) numDimensions) stream);
  Index_getSpace := space;
  Index_getNumDimensions := numDimensions;
  Index_saveIndex i := Ok (serialize i);
  Index_getIDs i := Ok (labels i);
  Index_getVector := getVector;
|}.

End StandIn.

Module ExampleUpdates.

Definition updates : @Updates SpecModel.enums Example.engine :=
  StandIn.updates Example.files.

(** A wrapper around the small index. *)
Definition wrapper : @IndexWrapper.t SpecModel.enums Example.engine :=
  @IndexWrapper.Build SpecModel.enums Example.engine Example.index.

(** The small index after [addItem([1, 0])]. *)
Definition index_after_addItem : SpecModel.IndexState :=
  snd (StandIn.addItem Example.index
         [Napi.float_of_Z 1; Napi.float_of_Z 0] None).

Definition strict_engine : Engine := StandIn.strict_engine Example.files.

(** [{space: 0, numDimensions: 0}] *)
Definition no_dimensions : Napi.Value :=
  Napi.Object
    (<["space" := Example.number 0]>
     (<["numDimensions" := Example.number 0]> ∅)).

(** A new index of dimension 2 after [addItem([1, 0])] and
    [addItem([1, 0], 5)]. *)
Definition two_points : SpecModel.IndexState :=
  snd (StandIn.addItem
         (snd (StandIn.addItem
                 (SpecModel.construct TypedIndex_float 0 2 12 200 100)
                 [Napi.float_of_Z 1; Napi.float_of_Z 0] None))
         [Napi.float_of_Z 1; Napi.float_of_Z 0] (Some 5)).

(** An empty index of dimension 0. *)
Definition no_dimensions_index : SpecModel.IndexState :=
  SpecModel.construct TypedIndex_float 0 0 12 200 1.

(** [{space: 0, numDimensions: 2, storageDataType: 99}] *)
Definition unknown_storage : Napi.Value :=
  Napi.Object
    (<["space" := Example.number 0]>
     (<["numDimensions" := Example.number 2]>
      (<["storageDataType" := Example.number 99]> ∅))).

(** [{space: 2, numDimensions: 3, storageDataType: 16}] and
    [{space: 2, numDimensions: 3}], at odds with the small index in
    every parameter they give. *)
Definition all_wrong : Napi.Value :=
  Napi.Object
    (<["space" := Example.number 2]>
     (<["numDimensions" := Example.number 3]>
      (<["storageDataType" := Example.number 16]> ∅))).

Definition wrong_space_and_dimensions : Napi.Value :=
  Napi.Object
    (<["space" := Example.number 2]>
     (<["numDimensions" := Example.number 3]> ∅)).

End ExampleUpdates.

(** * Properties *)

(** ** The in-memory stream *)

Section StreamProperties.
Import CInt MemoryInputStream.

Lemma to_i64_small z : - 2 ^ 63 <= z < 2 ^ 63 -> to_i64 z = z.
Proof. intros H. unfold to_i64. rewrite Z.mod_small by lia. lia. Qed.

Lemma to_u64_small z : 0 <= z < 2 ^ 64 -> to_u64 z = z.
Proof. intros H. unfold to_u64. now rewrite Z.mod_small. Qed.

(** What [read] computes for its byte count on a well-formed stream. *)
Lemma bytesAvailable_wf s :
  wf s -> to_i64 (to_u64 (size s - position s)) = size s - position s.
Proof.
  intros [Hpos Hsz]. rewrite to_u64_small by lia. apply to_i64_small. lia.
Qed.

Lemma wf_new d : Z.of_nat (length d) < 2 ^ 63 -> wf (new d).
Proof. intros H. unfold wf, new, size; simpl. lia. Qed.

Lemma wf_read s buffer n : wf s -> wf (snd (read s buffer n)).
Proof.
  intros Hwf. unfold read. rewrite (bytesAvailable_wf s Hwf).
  destruct (Z.ltb_spec 0 (Z.min n (size s - position s))) as [Hk|Hk];
    simpl; [|exact Hwf].
  destruct Hwf as [Hpos Hsz]. unfold wf, size in *; simpl.
  rewrite to_i64_small by lia. lia.
Qed.

Lemma wf_setPosition s p : wf s -> wf (snd (setPosition s p)).
Proof.
  intros Hwf. unfold setPosition.
  destruct Hwf as [Hpos Hsz]. rewrite to_i64_small by (unfold size in *; lia).
  destruct (Z.ltb_spec p 0); simpl; [split; assumption|].
  destruct (Z.ltb_spec (size s) p); simpl; [split; assumption|].
  unfold wf, size in *; simpl. lia.
Qed.

Lemma wf_peek bo s : wf s -> wf (snd (peek bo s)).
Proof. intros Hwf. unfold peek. now destruct (_ <? _). Qed.

(** The class invariant: [0 <= position <= data.size()]. *)
Lemma reachable_wf s : reachable s -> wf s.
Proof.
  induction 1;
    auto using wf_new, wf_read, wf_setPosition, wf_peek.
Qed.

Lemma length_from_position s :
  wf s -> Z.of_nat (length (from_position s)) = size s - position s.
Proof.
  intros [Hpos Hsz]. unfold from_position, size in *.
  rewrite length_drop. lia.
Qed.

(** [read] on a well-formed stream. *)
Lemma read_wf s buffer n :
  wf s -> 0 <= n ->
  let k := Z.min n (size s - position s) in
  read s buffer n =
    (k, take (Z.to_nat k) (from_position s) ++ drop (Z.to_nat k) buffer,
     {| data := data s; position := position s + k |}).
Proof.
  intros Hwf Hn k. unfold read.
  rewrite (bytesAvailable_wf s Hwf). fold k.
  destruct Hwf as [Hpos Hsz].
  destruct (Z.ltb_spec 0 k) as [Hk|Hk].
  - unfold memcpy. rewrite to_i64_small by lia. reflexivity.
  - assert (k = 0) as -> by lia. rewrite Z.add_0_r.
    destruct s; reflexivity.
Qed.

End StreamProperties.

(** C7. On every stream state, [peek] leaves the stream as it is; when at
    least four bytes remain from the current position it returns those four
    bytes read as a 32-bit integer in the byte order of the host, and when
    fewer remain it throws. *)
Theorem peek_spec (bo : byte_order) (s : MemoryInputStream.t) :
  MemoryInputStream.reachable s ->
  snd (MemoryInputStream.peek bo s) = s /\
  (MemoryInputStream.position s + 4 <= MemoryInputStream.size s ->
   exists b0 b1 b2 b3,
     take 4 (MemoryInputStream.from_position s) = [b0; b1; b2; b3] /\
     fst (MemoryInputStream.peek bo s) =
       Ok (MemoryInputStream.uint32_of_bytes bo [b0; b1; b2; b3])) /\
  (MemoryInputStream.size s < MemoryInputStream.position s + 4 ->
   fst (MemoryInputStream.peek bo s) =
     Throw (MemoryInputStream.peek_error s)).
Proof.
  intros Hr. pose proof (reachable_wf s Hr) as Hwf.
  pose proof (length_from_position s Hwf) as Hlen.
  destruct Hwf as [Hpos Hsz]. unfold MemoryInputStream.peek.
  rewrite (to_u64_small (MemoryInputStream.position s)) by lia.
  rewrite to_u64_small by lia.
  split; [now destruct (_ <? _)|]. split; intros H.
  - destruct (Z.ltb_spec (MemoryInputStream.size s)
                (MemoryInputStream.position s + 4)); [lia|]. simpl.
    destruct (MemoryInputStream.from_position s) as [|b0 [|b1 [|b2 [|b3 l]]]];
      simpl in Hlen; try lia.
    now exists b0, b1, b2, b3.
  - destruct (Z.ltb_spec (MemoryInputStream.size s)
                (MemoryInputStream.position s + 4)); [reflexivity|lia].
Qed.

Lemma peek_spec_witness :
  let s := snd (MemoryInputStream.setPosition
                  (MemoryInputStream.new [x01; x02; x03; x04; x05]%byte) 1) in
  MemoryInputStream.reachable s /\
  snd (MemoryInputStream.peek LittleEndian s) = s /\
  fst (MemoryInputStream.peek LittleEndian s) = Ok 0x05040302.
Proof.
  intros s.
  assert (Hr : MemoryInputStream.reachable s).
  { apply MemoryInputStream.reach_setPosition, MemoryInputStream.reach_new.
    reflexivity. }
  split; [exact Hr|].
  destruct (peek_spec LittleEndian s Hr) as [Hsame _].
  split; [exact Hsame|reflexivity].
Defined.

(** C8. For every stream state and every requested count [n >= 0], [read]
    copies the [min n (length - position)] bytes that start at the current
    position to the front of the buffer, advances the position by that
    amount and returns it. *)
Theorem read_spec (s : MemoryInputStream.t) (buffer : list byte) (n : Z) :
  MemoryInputStream.reachable s ->
  0 <= n ->
  let k := Z.min n (MemoryInputStream.size s - MemoryInputStream.position s) in
  MemoryInputStream.read s buffer n =
    (k,
     take (Z.to_nat k) (MemoryInputStream.from_position s)
       ++ drop (Z.to_nat k) buffer,
     {| MemoryInputStream.data := MemoryInputStream.data s;
        MemoryInputStream.position := MemoryInputStream.position s + k |})
  /\ length (take (Z.to_nat k) (MemoryInputStream.from_position s))
     = Z.to_nat k.
Proof.
  intros Hr Hn k. pose proof (reachable_wf s Hr) as Hwf.
  pose proof (length_from_position s Hwf) as Hlen.
  split; [exact (read_wf s buffer n Hwf Hn)|].
  destruct Hwf as [Hpos Hsz]. rewrite length_take. lia.
Qed.

Lemma read_spec_witness :
  let s := MemoryInputStream.new [x0a; x0b; x0c]%byte in
  MemoryInputStream.reachable s /\ 0 <= 5 /\
  MemoryInputStream.read s [x00; x00; x00; x00; x00; x00]%byte 5 =
    (3, [x0a; x0b; x0c; x00; x00; x00]%byte,
     {| MemoryInputStream.data := [x0a; x0b; x0c]%byte;
        MemoryInputStream.position := 3 |}).
Proof.
  intros s.
  assert (Hr : MemoryInputStream.reachable s)
    by (apply MemoryInputStream.reach_new; reflexivity).
  assert (Hn : 0 <= 5) by discriminate.
  split; [exact Hr|]. split; [exact Hn|].
  exact (proj1 (read_spec s [x00; x00; x00; x00; x00; x00]%byte 5 Hr Hn)).
Defined.

(** C9. For every stream state and every target offset [p], [setPosition p]
    returns [true] exactly when [0 <= p <= data.size()]; it then sets the
    position to [p], and otherwise leaves the stream as it is. *)
Theorem setPosition_spec (s : MemoryInputStream.t) (p : Z) :
  MemoryInputStream.reachable s ->
  (fst (MemoryInputStream.setPosition s p) = true
     <-> 0 <= p <= MemoryInputStream.size s) /\
  (0 <= p <= MemoryInputStream.size s ->
     snd (MemoryInputStream.setPosition s p) =
       {| MemoryInputStream.data := MemoryInputStream.data s;
          MemoryInputStream.position := p |}) /\
  (~ 0 <= p <= MemoryInputStream.size s ->
     MemoryInputStream.setPosition s p = (false, s)).
Proof.
  intros Hr. destruct (reachable_wf s Hr) as [Hpos Hsz].
  unfold MemoryInputStream.setPosition. rewrite to_i64_small by lia.
  destruct (Z.ltb_spec p 0); destruct (Z.ltb_spec (MemoryInputStream.size s) p);
    simpl; (split; [split; [discriminate || lia | lia || reflexivity]|]);
    (split; [intros; lia || reflexivity | intros; lia || reflexivity]).
Qed.

Lemma setPosition_spec_witness :
  let s := MemoryInputStream.new [x0a; x0b; x0c]%byte in
  MemoryInputStream.reachable s /\
  MemoryInputStream.setPosition s 3 =
    (true, {| MemoryInputStream.data := [x0a; x0b; x0c]%byte;
              MemoryInputStream.position := 3 |}) /\
  MemoryInputStream.setPosition s 4 = (false, s).
Proof.
  intros s.
  assert (Hr : MemoryInputStream.reachable s)
    by (apply MemoryInputStream.reach_new; reflexivity).
  split; [exact Hr|].
  destruct (setPosition_spec s 4 Hr) as (_ & _ & Hout).
  split; [reflexivity|]. apply Hout. intros [_ H]. exact (H eq_refl).
Defined.

(** ** The constructor *)

Section ConstructorProperties.
Context {En : Enums} {Eng : Engine}.
Import Napi IndexWrapper.

Lemma Has_props_of (v : Value) (key : string) :
  Has v key = true <-> is_Some (props_of v !! key).
Proof. unfold Has. apply bool_decide_eq_true. Qed.

Lemma Length_cons (v : Value) (rest : list Value) :
  (Length (v :: rest) <? 1) = false.
Proof. apply Z.ltb_ge. unfold Length. simpl length. lia. Qed.

Lemma kind_of_Float32 : kind_of Float32 = Some TypedIndex_float.
Proof. unfold kind_of. now rewrite decide_True. Qed.

Lemma optional_absent {A} options key (read : Value -> JsResult A) dflt :
  Has options key = false -> optional options key read dflt = Returned dflt.
Proof. intros H. unfold optional. now rewrite H. Qed.

Lemma optional_present {A} options key (read : Value -> JsResult A) dflt :
  Has options key = true ->
  optional options key read dflt = read (Get options key).
Proof. intros H. unfold optional. now rewrite H. Qed.

(** What [read_Options] leaves in each local when it returns. *)
Lemma read_Options_fields options o :
  read_Options options = Returned o ->
  SpaceType_option (Get options "space") = Returned (space o) /\
  Int32Value (Get options "numDimensions") = Returned (numDimensions o) /\
  optional options "M" size_t_option 12 = Returned (M o) /\
  optional options "efConstruction" size_t_option 200
    = Returned (efConstruction o) /\
  optional options "randomSeed" size_t_option 1 = Returned (randomSeed o) /\
  optional options "maxElements" size_t_option 1 = Returned (maxElements o) /\
  optional options "storageDataType" StorageDataType_option Float32
    = Returned (storageDataType o).
Proof.
  unfold read_Options.
  destruct (negb (Has options "space") || negb (Has options "numDimensions"));
    [discriminate|].
  destruct (SpaceType_option _) as [sp|]; [|discriminate].
  destruct (Int32Value _) as [nd|]; [|discriminate].
  destruct (optional options "M" _ _) as [m|]; [|discriminate].
  destruct (optional options "efConstruction" _ _) as [ef|]; [|discriminate].
  destruct (optional options "randomSeed" _ _) as [rs|]; [|discriminate].
  destruct (optional options "maxElements" _ _) as [me|]; [|discriminate].
  destruct (optional options "storageDataType" _ _) as [sd|]; [|discriminate].
  simpl. intros [= <-]. simpl. repeat split; reflexivity.
Qed.

(** The constructor on an options object, and on anything else. *)
Lemma new_object info :
  IsObject (arg info 0) = true ->
  new info = (o ← read_Options (arg info 0); create o).
Proof.
  intros Hobj. unfold new. rewrite Hobj.
  destruct info as [|options rest]; [discriminate|].
  now rewrite Length_cons.
Qed.

Lemma new_not_object info :
  IsObject (arg info 0) = false ->
  new info = Thrown JsTypeError
               "Index() missing required argument: 'options' (an object)".
Proof.
  intros Hobj. unfold new. rewrite Hobj. now rewrite orb_true_r.
Qed.

End ConstructorProperties.

(** C4. Construction throws when [space] or [numDimensions] is absent from
    the options; otherwise each optional option that is absent takes its
    default, [M = 12], [efConstruction = 200], [randomSeed = 1],
    [maxElements = 1], [storageDataType = Float32], and these are the values
    the engine's constructor receives. *)
Theorem constructor_required_and_defaults {En : Enums} {Eng : Engine}
    (info : list Napi.Value) :
  let options := Napi.arg info 0 in
  (Napi.Has options "space" = false \/ Napi.Has options "numDimensions" = false ->
   exists message, IndexWrapper.new info = Thrown JsTypeError message) /\
  (Napi.IsObject options = true ->
   Napi.Has options "space" = false \/ Napi.Has options "numDimensions" = false ->
   IndexWrapper.new info = Thrown JsTypeError IndexWrapper.missing_required) /\
  (forall o,
     Napi.IsObject options = true ->
     IndexWrapper.read_Options options = Returned o ->
     IndexWrapper.new info = IndexWrapper.create o /\
     (Napi.Has options "M" = false -> IndexWrapper.M o = 12) /\
     (Napi.Has options "efConstruction" = false ->
      IndexWrapper.efConstruction o = 200) /\
     (Napi.Has options "randomSeed" = false -> IndexWrapper.randomSeed o = 1) /\
     (Napi.Has options "maxElements" = false -> IndexWrapper.maxElements o = 1) /\
     (Napi.Has options "storageDataType" = false ->
      IndexWrapper.storageDataType o = Float32)) /\
  (forall o,
     Napi.IsObject options = true ->
     IndexWrapper.read_Options options = Returned o ->
     Napi.Has options "M" = false ->
     Napi.Has options "efConstruction" = false ->
     Napi.Has options "randomSeed" = false ->
     Napi.Has options "maxElements" = false ->
     Napi.Has options "storageDataType" = false ->
     IndexWrapper.new info =
       index ← try_engine
         (TypedIndex_new TypedIndex_float (IndexWrapper.space o)
            (IndexWrapper.numDimensions o) 12 200 1 1);
       Returned (IndexWrapper.Build index)).
Proof.
  intros options.
  assert (Hmiss : Napi.IsObject options = true ->
            Napi.Has options "space" = false \/
            Napi.Has options "numDimensions" = false ->
            IndexWrapper.new info = Thrown JsTypeError IndexWrapper.missing_required).
  { intros Hobj Habs. rewrite (new_object info Hobj). fold options.
    unfold IndexWrapper.read_Options.
    destruct Habs as [-> | ->]; simpl; [reflexivity|].
    now rewrite orb_true_r. }
  assert (Hfields : forall o,
            Napi.IsObject options = true ->
            IndexWrapper.read_Options options = Returned o ->
            IndexWrapper.new info = IndexWrapper.create o /\
            (Napi.Has options "M" = false -> IndexWrapper.M o = 12) /\
            (Napi.Has options "efConstruction" = false ->
             IndexWrapper.efConstruction o = 200) /\
            (Napi.Has options "randomSeed" = false ->
             IndexWrapper.randomSeed o = 1) /\
            (Napi.Has options "maxElements" = false ->
             IndexWrapper.maxElements o = 1) /\
            (Napi.Has options "storageDataType" = false ->
             IndexWrapper.storageDataType o = Float32)).
  { intros o Hobj Hread.
    destruct (read_Options_fields options o Hread)
      as (_ & _ & HM & Hef & Hrs & Hme & Hsd).
    split.
    - rewrite (new_object info Hobj). fold options. now rewrite Hread.
    - repeat split; intros Habs.
      + rewrite optional_absent in HM by exact Habs. congruence.
      + rewrite optional_absent in Hef by exact Habs. congruence.
      + rewrite optional_absent in Hrs by exact Habs. congruence.
      + rewrite optional_absent in Hme by exact Habs. congruence.
      + rewrite optional_absent in Hsd by exact Habs. congruence. }
  split; [|split; [exact Hmiss|split; [exact Hfields|]]].
  - intros Habs. destruct (Napi.IsObject options) eqn:Hobj.
    + eexists. now apply Hmiss.
    + eexists. now apply new_not_object.
  - intros o Hobj Hread HM Hef Hrs Hme Hsd.
    destruct (Hfields o Hobj Hread) as (-> & EM & Eef & Ers & Eme & Esd).
    unfold IndexWrapper.create.
    rewrite (Esd Hsd), kind_of_Float32, (EM HM), (Eef Hef), (Ers Hrs), (Eme Hme).
    reflexivity.
Qed.

Lemma constructor_required_and_defaults_witness :
  IndexWrapper.new (Eng := Example.engine) [Example.required_options] =
    Returned
      (IndexWrapper.Build (Eng := Example.engine)
         (SpecModel.construct TypedIndex_float 0 2 12 200 1)) /\
  IndexWrapper.new (Eng := Example.engine) [Example.float8_options] =
    Thrown JsTypeError IndexWrapper.missing_required.
Proof.
  destruct (constructor_required_and_defaults (Eng := Example.engine)
              [Example.required_options]) as (_ & _ & _ & Hall).
  destruct (constructor_required_and_defaults (Eng := Example.engine)
              [Example.float8_options]) as (_ & Hmiss & _).
  split.
  - exact (Hall (@IndexWrapper.Build_Options SpecModel.enums 0 2 12 200 1 1 32)
             eq_refl eq_refl eq_refl eq_refl eq_refl eq_refl eq_refl).
  - exact (Hmiss eq_refl (or_introl eq_refl)).
Defined.

(** ** [query] *)

Section QueryProperties.
Context {En : Enums} {Eng : Engine} {Srch : Search}.
Import Napi IndexWrapper.

(** An argument the caller left out reads as [undefined]. *)
Lemma arg_past_the_end (info : list Value) (i : nat) :
  (length info <= i)%nat -> arg info i = Undefined.
Proof. intros H. unfold arg. now rewrite lookup_ge_None_2. Qed.

Lemma number_arg_total info i read dflt :
  (forall d, exists z, read (Number d) = Returned z) ->
  exists z, number_arg info i read dflt = Returned z /\
            (IsNumber (arg info i) = false -> z = dflt).
Proof.
  intros Hread. unfold number_arg.
  destruct (arg info i) as [| | |d| | | | |] eqn:E; simpl;
    rewrite ?andb_false_r;
    try (exists dflt; split; [reflexivity|reflexivity]).
  destruct (Hread d) as [z Hz].
  destruct (_ <=? _); simpl.
  - exists z. split; [exact Hz|discriminate].
  - exists dflt. split; [reflexivity|reflexivity].
Qed.

Lemma Int32Value_Number d : exists z, Int32Value (Number d) = Returned z.
Proof. eexists. reflexivity. Qed.

Lemma Int64Value_Number d : exists z, Int64Value (Number d) = Returned z.
Proof. eexists. reflexivity. Qed.

(** [read_QueryArgs] never throws, and an argument that is not a number
    leaves its local at the initial value. *)
Lemma read_QueryArgs_total info :
  exists a, read_QueryArgs info = Returned a /\
    (IsNumber (arg info 1) = false -> k a = 1) /\
    (IsNumber (arg info 2) = false -> numThreads a = -1) /\
    (IsNumber (arg info 3) = false -> queryEf a = -1).
Proof.
  destruct (number_arg_total info 1 Int32Value 1 Int32Value_Number)
    as (k0 & Hk & Dk).
  destruct (number_arg_total info 2 Int32Value (-1) Int32Value_Number)
    as (n0 & Hn & Dn).
  destruct (number_arg_total info 3 Int64Value (-1) Int64Value_Number)
    as (e0 & He & De).
  exists {| k := k0; numThreads := n0; queryEf := e0 |}.
  unfold read_QueryArgs. rewrite Hk, Hn, He. simpl. auto.
Qed.

(** A call with the vector alone, on one vector and on several. *)
Lemma Query_vector_alone_single self first elems :
  IsNumber first = true ->
  Query self [Array (first :: elems)] =
    query_single self (Array (first :: elems)) query_initial.
Proof. intros Hnum. unfold Query. simpl. now rewrite Hnum. Qed.

Lemma Query_vector_alone_batch self elems :
  (forall first rest, elems = first :: rest -> IsNumber first = false) ->
  Query self [Array elems] = query_batch self (Array elems) query_initial.
Proof.
  intros Hfirst. unfold Query. simpl.
  destruct elems as [|first rest]; [reflexivity|].
  now rewrite (Hfirst first rest eq_refl).
Qed.

Lemma Query_Array (self : t) (elems rest : list Value) (a : QueryArgs) :
  read_QueryArgs (Array elems :: rest) = Returned a ->
  Query self (Array elems :: rest) =
    if match elems with first :: _ => IsNumber first | [] => false end
    then query_single self (Array elems) a
    else query_batch self (Array elems) a.
Proof.
  intros Hargs. unfold Query. rewrite Length_cons.
  change (arg (Array elems :: rest) 0) with (Array elems).
  cbn [IsArray negb orb]. rewrite Hargs. reflexivity.
Qed.

(** With a vector that converts, the single-vector branch is the call of
    the engine's single-vector [query] with [k] and [queryEf]. *)
Lemma query_single_call (self : t) (input : Value) (a : QueryArgs)
    (queryVector : list spec_float) :
  ArrayToVector input = Returned queryVector ->
  query_single self input a =
    (answer ← try_engine
                (Index_query (index_ self) queryVector (k a) (queryEf a));
     Returned (single_answer answer)).
Proof.
  intros Hvector. unfold query_single. rewrite Hvector.
  cbn [catch_std mbind JsResult_bind].
  destruct (Index_query _ _ _ _) as [[neighborIds distances]|what];
    reflexivity.
Qed.

(** With vectors that convert, the branch for several vectors is the
    call of the engine's [query] for several vectors with [k],
    [numThreads] and [queryEf]. *)
Lemma query_batch_call (self : t) (input : Value) (a : QueryArgs)
    (queryVectors : list (list spec_float)) :
  query_vectors (elems_of input) = Returned queryVectors ->
  query_batch self input a =
    (answer ← try_engine
                (Index_query_batch (index_ self) queryVectors (k a)
                   (numThreads a) (queryEf a));
     Returned (batch_answer answer)).
Proof.
  intros Hvectors. unfold query_batch. rewrite Hvectors.
  cbn [mbind JsResult_bind].
  destruct (Index_query_batch _ _ _ _ _) as [[neighborIds distances]|what];
    reflexivity.
Qed.

End QueryProperties.

(** C5. In every [query] call, each of the optional arguments [k],
    [numThreads] and [ef] that was left out has the value [1], [-1] and [-1]
    respectively, and these are the values the engine's [query] is called
    with. Whatever the call, the single-vector overload of the engine
    receives the vector with the [k] and the [queryEf] read from the
    arguments, the overload for several vectors the vectors with [k],
    [numThreads] and [queryEf]; with all three left out these are
    [k = 1], [queryEf = -1] and [k = 1], [numThreads = -1],
    [queryEf = -1]. *)
Theorem query_defaults {En : Enums} {Eng : Engine} {Srch : Search}
    (self : IndexWrapper.t) (input : Napi.Value) (rest : list Napi.Value) :
  let info := input :: rest in
  let defaults :=
    {| IndexWrapper.k := 1; IndexWrapper.numThreads := -1;
       IndexWrapper.queryEf := -1 |} in
  (exists a,
     IndexWrapper.read_QueryArgs info = Returned a /\
     (Napi.arg info 1 = Napi.Undefined -> IndexWrapper.k a = 1) /\
     (Napi.arg info 2 = Napi.Undefined -> IndexWrapper.numThreads a = -1) /\
     (Napi.arg info 3 = Napi.Undefined -> IndexWrapper.queryEf a = -1) /\
     (Napi.IsArray input = true ->
      IndexWrapper.Query self info = IndexWrapper.query_single self input a \/
      IndexWrapper.Query self info = IndexWrapper.query_batch self input a) /\
     (forall first elems queryVector,
        input = Napi.Array (first :: elems) ->
        Napi.IsNumber first = true ->
        IndexWrapper.ArrayToVector input = Returned queryVector ->
        IndexWrapper.Query self info =
          (answer ← try_engine
                      (Index_query (IndexWrapper.index_ self) queryVector
                         (IndexWrapper.k a) (IndexWrapper.queryEf a));
           Returned (single_answer answer))) /\
     (forall elems queryVectors,
        input = Napi.Array elems ->
        (forall first rest',
           elems = first :: rest' -> Napi.IsNumber first = false) ->
        IndexWrapper.query_vectors elems = Returned queryVectors ->
        IndexWrapper.Query self info =
          (answer ← try_engine
                      (Index_query_batch (IndexWrapper.index_ self)
                         queryVectors (IndexWrapper.k a)
                         (IndexWrapper.numThreads a) (IndexWrapper.queryEf a));
           Returned (batch_answer answer)))) /\
  (forall first elems,
     input = Napi.Array (first :: elems) ->
     Napi.IsNumber first = true ->
     IndexWrapper.Query self [input] =
       IndexWrapper.query_single self input defaults) /\
  (forall elems,
     input = Napi.Array elems ->
     (forall first rest', elems = first :: rest' -> Napi.IsNumber first = false) ->
     IndexWrapper.Query self [input] =
       IndexWrapper.query_batch self input defaults) /\
  (forall first elems queryVector,
     input = Napi.Array (first :: elems) ->
     Napi.IsNumber first = true ->
     IndexWrapper.ArrayToVector input = Returned queryVector ->
     IndexWrapper.Query self [input] =
       (answer ← try_engine
                   (Index_query (IndexWrapper.index_ self) queryVector
                      1 (-1));
        Returned (single_answer answer))) /\
  (forall elems queryVectors,
     input = Napi.Array elems ->
     (forall first rest', elems = first :: rest' -> Napi.IsNumber first = false) ->
     IndexWrapper.query_vectors elems = Returned queryVectors ->
     IndexWrapper.Query self [input] =
       (answer ← try_engine
                   (Index_query_batch (IndexWrapper.index_ self)
                      queryVectors 1 (-1) (-1));
        Returned (batch_answer answer))).
Proof.
  intros info defaults. split; [|split; [|split; [|split]]].
  - destruct (read_QueryArgs_total info) as (a & Ha & Dk & Dn & De).
    exists a. split; [exact Ha|].
    split; [intros E; apply Dk; now rewrite E|].
    split; [intros E; apply Dn; now rewrite E|].
    split; [intros E; apply De; now rewrite E|].
    split; [|split].
    + intros Harr.
      assert (HQ : IndexWrapper.Query self info =
                   if match IndexWrapper.elems_of input with
                      | [] => false
                      | first :: _ => Napi.IsNumber first
                      end
                   then IndexWrapper.query_single self input a
                   else IndexWrapper.query_batch self input a).
      { unfold IndexWrapper.Query. rewrite Ha.
        unfold info. rewrite Length_cons. unfold Napi.arg. simpl.
        now rewrite Harr. }
      rewrite HQ.
      destruct (IndexWrapper.elems_of input) as [|first ?];
        [now right|]. destruct (Napi.IsNumber first); [now left|now right].
    + intros first elems queryVector -> Hnum Hvector.
      unfold info in *. rewrite (Query_Array self _ _ a Ha), Hnum.
      now apply query_single_call.
    + intros elems queryVectors -> Hfirst Hvectors.
      unfold info in *. rewrite (Query_Array self _ _ a Ha).
      assert (Hnot : match elems with
                     | first :: _ => Napi.IsNumber first
                     | [] => false
                     end = false).
      { destruct elems as [|first more]; [reflexivity|].
        exact (Hfirst first more eq_refl). }
      rewrite Hnot. now apply query_batch_call.
  - intros first elems -> Hnum. now apply Query_vector_alone_single.
  - intros elems -> Hfirst. now apply Query_vector_alone_batch.
  - intros first elems queryVector -> Hnum Hvector.
    rewrite (Query_vector_alone_single self first elems Hnum).
    exact (query_single_call self _ IndexWrapper.query_initial _ Hvector).
  - intros elems queryVectors -> Hfirst Hvectors.
    rewrite (Query_vector_alone_batch self elems Hfirst).
    exact (query_batch_call self (Napi.Array elems)
             IndexWrapper.query_initial _ Hvectors).
Qed.

Lemma query_defaults_witness :
  IndexWrapper.Query (Srch := Example.search)
    (IndexWrapper.Build (Eng := Example.engine) Example.index)
    [Example.query_vector] =
  (answer ← try_engine
              (SpecModel.first_labels_query Example.index
                 [Napi.float_of_Z 1; Napi.float_of_Z 0] 1 (-1));
   Returned (single_answer answer)) /\
  IndexWrapper.Query (Srch := Example.search)
    (IndexWrapper.Build (Eng := Example.engine) Example.index)
    [Napi.Array [Example.query_vector]] =
  (answer ← try_engine
              (SpecModel.first_labels_query_batch Example.index
                 [[Napi.float_of_Z 1; Napi.float_of_Z 0]] 1 (-1) (-1));
   Returned (batch_answer answer)).
Proof.
  split.
  - destruct (query_defaults (Srch := Example.search)
                (IndexWrapper.Build (Eng := Example.engine) Example.index)
                Example.query_vector []) as (_ & _ & _ & Hsingle & _).
    exact (Hsingle _ _ _ eq_refl eq_refl eq_refl).
  - destruct (query_defaults (Srch := Example.search)
                (IndexWrapper.Build (Eng := Example.engine) Example.index)
                (Napi.Array [Example.query_vector]) [])
      as (_ & _ & _ & _ & Hbatch).
    apply (Hbatch [Example.query_vector]
             [[Napi.float_of_Z 1; Napi.float_of_Z 0]] eq_refl).
    + intros first more Heq. injection Heq as <- _. reflexivity.
    + reflexivity.
Defined.

(** ** [loadIndex] and [fromBuffer] *)

Section LoadProperties.
Context {En : Enums} {Eng : Engine}.
Import Napi IndexWrapper.

Lemma As_Number_Returned v d : As_Number v = Returned d -> v = Number d.
Proof. destruct v; simpl; congruence. Qed.

Lemma Int32Value_Uint32Value v z :
  Int32Value v = Returned z -> exists n, Uint32Value v = Returned n.
Proof.
  unfold Int32Value, Uint32Value.
  destruct (As_Number v); simpl; [eauto|discriminate].
Qed.

(** When the options of a load could be read, each supplied option holds
    a number. *)
Lemma read_LoadOptions_supplied info o :
  read_LoadOptions info = Returned o ->
  has_options info = true ->
  (Has (arg info 1) "space" = true ->
   SpaceType_option (Get (arg info 1) "space") = Returned (load_space o)) /\
  (Has (arg info 1) "numDimensions" = true ->
   Int32Value (Get (arg info 1) "numDimensions")
     = Returned (load_numDimensions o)) /\
  (Has (arg info 1) "storageDataType" = true ->
   StorageDataType_option (Get (arg info 1) "storageDataType")
     = Returned (load_storageDataType o)).
Proof.
  unfold read_LoadOptions. intros Hread Hopt. rewrite Hopt in Hread.
  revert Hread. unfold optional.
  destruct (Has (arg info 1) "space");
    [destruct (SpaceType_option _) as [sp|]; [|discriminate]|];
  (destruct (Has (arg info 1) "numDimensions");
    [destruct (Int32Value _) as [nd|]; [|discriminate]|]);
  (destruct (Has (arg info 1) "storageDataType");
    [destruct (StorageDataType_option _) as [sd|]; [|discriminate]|]);
  simpl; intros [= <-]; simpl; repeat split; intros; congruence.
Qed.

(** What is left in the locals when an option is absent. *)
Lemma read_LoadOptions_absent info o :
  read_LoadOptions info = Returned o ->
  (supplied info "space" = false -> load_space o = Euclidean) /\
  (supplied info "numDimensions" = false -> load_numDimensions o = 0) /\
  (supplied info "storageDataType" = false ->
   load_storageDataType o = Float32).
Proof.
  unfold read_LoadOptions, supplied.
  destruct (has_options info); simpl;
    [|intros [= <-]; simpl; repeat split; reflexivity].
  unfold optional.
  destruct (Has (arg info 1) "space");
    [destruct (SpaceType_option _) as [sp|]; [|discriminate]|];
  (destruct (Has (arg info 1) "numDimensions");
    [destruct (Int32Value _) as [nd|]; [|discriminate]|]);
  (destruct (Has (arg info 1) "storageDataType");
    [destruct (StorageDataType_option _) as [sd|]; [|discriminate]|]);
  simpl; intros [= <-]; simpl; repeat split; intros; congruence.
Qed.

(** The validation block throws for a conflict it found, and returns
    only when there is none. *)
Lemma validate_spec info metadata o :
  read_LoadOptions info = Returned o ->
  (exists m, conflict info metadata m /\
             validate info metadata = Thrown JsError (Mismatch_message m)) \/
  ((forall m, ~ conflict info metadata m) /\
   validate info metadata = Returned ()).
Proof.
  intros Hread. unfold validate.
  destruct (has_options info) eqn:Hopt;
    [|right; split; [intros m (Habs & _); congruence|reflexivity]].
  destruct (read_LoadOptions_supplied info o Hread Hopt) as (Hsp & Hnd & Hsd).
  destruct (Has (arg info 1) "storageDataType") eqn:Esd;
    [pose proof (Hsd eq_refl) as Vsd; rewrite Vsd; simpl;
     destruct (decide (Metadata_getStorageDataType metadata
                       = load_storageDataType o)) as [Eq1|Ne1]; simpl;
     [|left; exists (StorageMismatch (load_storageDataType o)
                       (Metadata_getStorageDataType metadata));
       split; [repeat split; auto|reflexivity]]|];
  (destruct (Has (arg info 1) "space") eqn:Esp;
    [pose proof (Hsp eq_refl) as Vsp; rewrite Vsp; simpl;
     destruct (decide (Metadata_getSpaceType metadata = load_space o))
       as [Eq2|Ne2]; simpl;
     [|left; exists (SpaceMismatch (load_space o)
                       (Metadata_getSpaceType metadata));
       split; [repeat split; auto|reflexivity]]|]);
  (destruct (Has (arg info 1) "numDimensions") eqn:Edim;
    [destruct (Int32Value_Uint32Value _ _ (Hnd eq_refl)) as [n Hn];
     assert (Vdim : providedDims_option (Get (arg info 1) "numDimensions")
                    = Returned (CInt.to_i32 n))
       by (unfold providedDims_option; now rewrite Hn);
     rewrite Vdim; simpl;
     destruct (decide (Metadata_getNumDimensions metadata = CInt.to_i32 n))
       as [Eq3|Ne3]; simpl;
     [|left; exists (DimensionsMismatch (CInt.to_i32 n)
                       (Metadata_getNumDimensions metadata));
       split; [repeat split; auto|reflexivity]]|]);
  (right; split; [|reflexivity];
   intros [p s|p s|p s] (_ & Hhas & Hval & -> & Hne); simpl in Hhas;
   congruence).
Qed.

Lemma LoadIndex_unfold path rest o file metadata stream :
  read_LoadOptions (String path :: rest) = Returned o ->
  FileInputStream_new path = Ok file ->
  Metadata_loadFromStream (inl file) = Ok (metadata, stream) ->
  LoadIndex (String path :: rest) =
    load_from (String path :: rest) o metadata stream
      (fun numDimensions => numDimensions <=? 0) file_no_metadata.
Proof.
  intros Hread Hfile Hmeta. unfold LoadIndex.
  rewrite Length_cons, Hread. unfold arg. simpl.
  rewrite Hfile. simpl. rewrite Hmeta. reflexivity.
Qed.

Lemma FromBuffer_unfold data rest o metadata stream :
  read_LoadOptions (Buffer data :: rest) = Returned o ->
  Metadata_loadFromStream (inr (MemoryInputStream.new data))
    = Ok (metadata, stream) ->
  FromBuffer (Buffer data :: rest) =
    load_from (Buffer data :: rest) o metadata stream
      (fun numDimensions => numDimensions =? 0) buffer_no_metadata.
Proof.
  intros Hread Hmeta. unfold FromBuffer.
  rewrite Length_cons, Hread. unfold arg. simpl.
  rewrite Hmeta. reflexivity.
Qed.

(** With a header, a load is its validation followed by the engine's
    load from the stored metadata. *)
Lemma load_from_metadata info o metadata stream missing no_metadata :
  load_from info o (Some metadata) stream missing no_metadata =
    match validate info metadata with
    | Returned _ => proceed_with_metadata metadata stream
    | Thrown kind message => Thrown kind message
    end.
Proof.
  unfold load_from, proceed_with_metadata.
  destruct (validate info metadata); reflexivity.
Qed.

Lemma load_from_metadata_spec info o metadata stream missing no_metadata :
  read_LoadOptions info = Returned o ->
  ((exists m, conflict info metadata m) ->
   exists m, conflict info metadata m /\
     load_from info o (Some metadata) stream missing no_metadata
       = Thrown JsError (Mismatch_message m)) /\
  ((forall m, ~ conflict info metadata m) ->
   load_from info o (Some metadata) stream missing no_metadata
     = proceed_with_metadata metadata stream).
Proof.
  intros Hread. rewrite load_from_metadata.
  destruct (validate_spec info metadata o Hread)
    as [(m & Hm & ->)|(Hnone & ->)].
  - split; [intros _; now exists m|]. intros Hno. now destruct (Hno m).
  - split; [|reflexivity]. intros [m Hm]. now destruct (Hnone m).
Qed.

(** Without a header, a load is the test on [numDimensions] followed by
    the [switch] on the storage type. *)
Lemma load_from_legacy info o stream missing no_metadata :
  load_from info o None stream missing no_metadata =
    if missing (load_numDimensions o) then Thrown JsTypeError no_metadata
    else match kind_of (load_storageDataType o) with
         | Some kind =>
             proceed_legacy kind stream (load_space o) (load_numDimensions o)
         | None => Thrown JsTypeError "Unknown storage data type received."
         end.
Proof.
  unfold load_from, load_legacy, proceed_legacy.
  destruct (missing _); [reflexivity|].
  destruct (kind_of _); reflexivity.
Qed.

(** A legacy load that went past its checks ends in a wrapper or in a
    plain [Error], never in a [TypeError]. *)
Lemma proceed_legacy_not_TypeError kind stream space numDimensions message :
  proceed_legacy kind stream space numDimensions <> Thrown JsTypeError message.
Proof.
  unfold proceed_legacy.
  destruct (TypedIndex_load _ _ _ _); simpl; [|discriminate].
  unfold wrap. destruct (new _); simpl; discriminate.
Qed.

End LoadProperties.

(** The message of a mismatch tells which option it is about. *)
Lemma Mismatch_message_identifies {En : Enums} (m m' : Mismatch) :
  Mismatch_message m = Mismatch_message m' ->
  Mismatch_parameter m = Mismatch_parameter m'.
Proof.
  destruct m, m'; simpl; try reflexivity;
    unfold IndexWrapper.storage_mismatch, IndexWrapper.space_mismatch,
      IndexWrapper.dimensions_mismatch; simpl; discriminate.
Qed.

(** C1. When the file or buffer carries a header, every option of the
    caller that conflicts with it ([storageDataType], [space] or
    [numDimensions]) makes the load throw an error whose message names a
    conflicting option with the provided and the stored value; when no
    supplied option conflicts, the index is loaded from the stored metadata,
    which the options never replace. *)
Theorem load_checks_options_against_metadata {En : Enums} {Eng : Engine}
    (rest : list Napi.Value) (metadata : Metadata) (stream : InputStream) :
  (forall path o file,
     let info := Napi.String path :: rest in
     IndexWrapper.read_LoadOptions info = Returned o ->
     FileInputStream_new path = Ok file ->
     Metadata_loadFromStream (inl file) = Ok (Some metadata, stream) ->
     ((exists m, conflict info metadata m) ->
      exists m, conflict info metadata m /\
        IndexWrapper.LoadIndex info = Thrown JsError (Mismatch_message m)) /\
     ((forall m, ~ conflict info metadata m) ->
      IndexWrapper.LoadIndex info = proceed_with_metadata metadata stream)) /\
  (forall data o,
     let info := Napi.Buffer data :: rest in
     IndexWrapper.read_LoadOptions info = Returned o ->
     Metadata_loadFromStream (inr (MemoryInputStream.new data))
       = Ok (Some metadata, stream) ->
     ((exists m, conflict info metadata m) ->
      exists m, conflict info metadata m /\
        IndexWrapper.FromBuffer info = Thrown JsError (Mismatch_message m)) /\
     ((forall m, ~ conflict info metadata m) ->
      IndexWrapper.FromBuffer info = proceed_with_metadata metadata stream)).
Proof.
  split.
  - intros path o file info Hread Hfile Hmeta.
    unfold info. rewrite (LoadIndex_unfold _ _ _ _ _ _ Hread Hfile Hmeta).
    now apply load_from_metadata_spec.
  - intros data o info Hread Hmeta.
    unfold info. rewrite (FromBuffer_unfold _ _ _ _ _ Hread Hmeta).
    now apply load_from_metadata_spec.
Qed.

(** C2, as the code has it. For every load of a file or buffer without a
    header in which [numDimensions] is absent, the load throws the
    missing-parameters error; an absent [storageDataType] is no error: with
    a positive [numDimensions] the load goes on with [Float32]. *)
Theorem legacy_load_requires_numDimensions {En : Enums} {Eng : Engine}
    (rest : list Napi.Value) (stream : InputStream) :
  (forall path o file,
     let info := Napi.String path :: rest in
     IndexWrapper.read_LoadOptions info = Returned o ->
     FileInputStream_new path = Ok file ->
     Metadata_loadFromStream (inl file) = Ok (None, stream) ->
     (supplied info "numDimensions" = false ->
      IndexWrapper.LoadIndex info
        = Thrown JsTypeError IndexWrapper.file_no_metadata) /\
     (supplied info "storageDataType" = false ->
      0 < IndexWrapper.load_numDimensions o ->
      IndexWrapper.LoadIndex info =
        proceed_legacy TypedIndex_float stream (IndexWrapper.load_space o)
          (IndexWrapper.load_numDimensions o))) /\
  (forall data o,
     let info := Napi.Buffer data :: rest in
     IndexWrapper.read_LoadOptions info = Returned o ->
     Metadata_loadFromStream (inr (MemoryInputStream.new data))
       = Ok (None, stream) ->
     (supplied info "numDimensions" = false ->
      IndexWrapper.FromBuffer info
        = Thrown JsTypeError IndexWrapper.buffer_no_metadata) /\
     (supplied info "storageDataType" = false ->
      0 < IndexWrapper.load_numDimensions o ->
      IndexWrapper.FromBuffer info =
        proceed_legacy TypedIndex_float stream (IndexWrapper.load_space o)
          (IndexWrapper.load_numDimensions o))).
Proof.
  split.
  - intros path o file info Hread Hfile Hmeta.
    destruct (read_LoadOptions_absent info o Hread) as (_ & Hnd & Hsd).
    unfold info. rewrite (LoadIndex_unfold _ _ _ _ _ _ Hread Hfile Hmeta).
    rewrite load_from_legacy. split.
    + intros Habs. now rewrite (Hnd Habs).
    + intros Habs Hpos. rewrite (Hsd Habs), kind_of_Float32.
      destruct (Z.leb_spec (IndexWrapper.load_numDimensions o) 0);
        [lia|reflexivity].
  - intros data o info Hread Hmeta.
    destruct (read_LoadOptions_absent info o Hread) as (_ & Hnd & Hsd).
    unfold info. rewrite (FromBuffer_unfold _ _ _ _ _ Hread Hmeta).
    rewrite load_from_legacy. split.
    + intros Habs. now rewrite (Hnd Habs).
    + intros Habs Hpos. rewrite (Hsd Habs), kind_of_Float32.
      destruct (Z.eqb_spec (IndexWrapper.load_numDimensions o) 0);
        [lia|reflexivity].
Qed.

Section Wrapping.
Context {En : Enums} {Eng : Engine}.
Import Napi IndexWrapper.

(** The options [loadIndex] and [fromBuffer] construct the wrapper
    from. *)
Lemma dummyOptions_read (a b : spec_float) :
  let options :=
    Object (<["space" := Number a]> (<["numDimensions" := Number b]> ∅)) in
  IsObject options = true /\
  Has options "space" = true /\ Has options "numDimensions" = true /\
  Has options "M" = false /\ Has options "efConstruction" = false /\
  Has options "randomSeed" = false /\ Has options "maxElements" = false /\
  Has options "storageDataType" = false /\
  Get options "space" = Number a /\ Get options "numDimensions" = Number b.
Proof. repeat split; vm_compute; reflexivity. Qed.

(** The wrapper is constructed with the defaults of the constructor; the
    index it creates is replaced by the loaded one. *)
Lemma wrap_unfold (loadedIndex : Index) :
  exists space numDimensions,
    wrap loadedIndex =
      (_ ← catch_std
             (index ← try_engine
                (TypedIndex_new TypedIndex_float space numDimensions
                   12 200 1 1);
              Returned (Build index));
       Returned (Build loadedIndex)).
Proof.
  unfold wrap.
  set (a := double_of_Z (int_of_SpaceType (Index_getSpace loadedIndex))).
  set (b := double_of_Z (Index_getNumDimensions loadedIndex)).
  destruct (dummyOptions_read a b)
    as (Hobj & Hsp & Hnd & HM & Hef & Hrs & Hme & Hsd & Gsp & Gnd).
  set (options := Object _) in *.
  exists (SpaceType_of_uint32 (CInt.to_u32 (default 0 (truncate a)))),
         (CInt.to_i32 (default 0 (truncate b))).
  do 2 f_equal. unfold new. rewrite Length_cons.
  change (arg [options] 0) with options. rewrite Hobj. cbn [negb orb].
  unfold read_Options. rewrite Hsp, Hnd. cbn [negb orb].
  rewrite !optional_absent by assumption. rewrite Gsp, Gnd.
  cbn. unfold create. cbn. rewrite kind_of_Float32. reflexivity.
Qed.

End Wrapping.

(** ** Where the two loaders and the two query branches differ *)

Section Divergences.
Import Napi IndexWrapper.

Lemma negative_dimensions_read :
  Int32Value (Get negative_dimensions "numDimensions") = Returned (-1) /\
  Has negative_dimensions "numDimensions" = true /\
  Has negative_dimensions "space" = false /\
  Has negative_dimensions "storageDataType" = false /\
  IsObject negative_dimensions = true.
Proof. repeat split; vm_compute; reflexivity. Qed.

Lemma read_LoadOptions_negative_dimensions {En : Enums} (source : Value) :
  read_LoadOptions [source; negative_dimensions] =
    Returned {| load_space := Euclidean; load_numDimensions := -1;
                load_storageDataType := Float32 |}.
Proof.
  destruct negative_dimensions_read as (Hval & Hnd & Hsp & Hsd & Hobj).
  unfold read_LoadOptions, has_options, optional.
  change (arg [source; negative_dimensions] 1) with negative_dimensions.
  change (2 <=? Length [source; negative_dimensions]) with true.
  rewrite Hobj, Hsp, Hnd, Hsd, Hval. reflexivity.
Qed.

End Divergences.

(** C10, at the input on which the two loaders part. With the options
    [{numDimensions: -1}] and no header, [loadIndex] throws the
    missing-parameters error ([numDimensions <= 0]) while [fromBuffer]
    ([numDimensions == 0]) goes on to load the index with [-1] dimensions. *)
Theorem legacy_validation_differs {En : Enums} {Eng : Engine}
    (path : string) (data : list byte) (file : FileInputStream)
    (stream stream' : InputStream) :
  FileInputStream_new path = Ok file ->
  Metadata_loadFromStream (inl file) = Ok (None, stream) ->
  Metadata_loadFromStream (inr (MemoryInputStream.new data))
    = Ok (None, stream') ->
  IndexWrapper.LoadIndex [Napi.String path; negative_dimensions]
    = Thrown JsTypeError IndexWrapper.file_no_metadata /\
  IndexWrapper.FromBuffer [Napi.Buffer data; negative_dimensions]
    = proceed_legacy TypedIndex_float stream' Euclidean (-1) /\
  (forall message,
     IndexWrapper.FromBuffer [Napi.Buffer data; negative_dimensions]
       <> Thrown JsTypeError message).
Proof.
  intros Hfile Hmeta Hmeta'.
  pose proof (read_LoadOptions_negative_dimensions (Napi.String path)) as Hf.
  pose proof (read_LoadOptions_negative_dimensions (Napi.Buffer data)) as Hb.
  rewrite (LoadIndex_unfold _ _ _ _ _ _ Hf Hfile Hmeta).
  rewrite (FromBuffer_unfold _ _ _ _ _ Hb Hmeta').
  rewrite !load_from_legacy. simpl. rewrite kind_of_Float32.
  split; [reflexivity|]. split; [reflexivity|].
  intros message. apply proceed_legacy_not_TypeError.
Qed.

(** C6, at a label the single-vector branch does not return. The branch
    hands the labels to [VectorToArray] as a vector of [float]: a point whose
    label is [16777217 = 2^24 + 1] comes back as [16777216]. The branch for
    several vectors converts the same label to a number without loss. *)
Theorem query_single_rounds_label {En : Enums} {Eng : Engine} {Srch : Search}
    (self : IndexWrapper.t) (first : Napi.Value) (elems : list Napi.Value)
    (queryVector distances : list spec_float) :
  let input := Napi.Array (first :: elems) in
  Napi.IsNumber first = true ->
  IndexWrapper.ArrayToVector input = Returned queryVector ->
  Index_query (IndexWrapper.index_ self) queryVector 1 (-1)
    = Ok ([16777217], distances) ->
  IndexWrapper.Query self [input] =
    Returned (Napi.ArrayWith []
      (<["neighbors" := Napi.Array [Napi.Number (Napi.double_of_Z 16777216)]]>
       (<["distances" := IndexWrapper.VectorToArray distances]> ∅))) /\
  Napi.truncate (Napi.double_of_Z 16777216) = Some 16777216 /\
  IndexWrapper.result_row Napi.double_of_Z 0 [16777217] 0 1 1 1 =
    Napi.Array [Napi.Number (Napi.double_of_Z 16777217)] /\
  Napi.truncate (Napi.double_of_Z 16777217) = Some 16777217.
Proof.
  intros input Hnum Hvec Hquery.
  split; [|repeat split; vm_compute; reflexivity].
  unfold input. rewrite (Query_vector_alone_single self first elems Hnum).
  unfold IndexWrapper.query_single. fold input. rewrite Hvec.
  unfold IndexWrapper.query_initial, catch_std, mbind, JsResult_bind.
  cbn [IndexWrapper.k IndexWrapper.queryEf]. rewrite Hquery.
  cbn [try_engine].
  assert (E : IndexWrapper.VectorToArray (Napi.float_of_Z <$> [16777217])
              = Napi.Array [Napi.Number (Napi.double_of_Z 16777216)])
    by (vm_compute; reflexivity).
  now rewrite E.
Qed.

(** ** Saving and loading, on the engine modelled from the specification *)

Section ReadWrite.
Import CInt SpecModel.

Lemma Z_of_byte_of_Z z : Z_of_byte (byte_of_Z z) = z mod 256.
Proof.
  unfold Z_of_byte, byte_of_Z.
  assert (Hlt : 0 <= z mod 256 < 256) by (apply Z.mod_pos_bound; lia).
  destruct (Byte.of_N (Z.to_N (z mod 256))) as [b|] eqn:E; simpl.
  - apply Byte.to_of_N in E. rewrite E. lia.
  - apply Byte.of_N_None_iff in E. lia.
Qed.

Lemma length_put_uint width z : length (put_uint width z) = width.
Proof. revert z. induction width; intros z; simpl; auto. Qed.

Lemma uint_of_bytes_put_uint width z :
  0 <= z < 256 ^ Z.of_nat width ->
  uint_of_bytes (put_uint width z) = z.
Proof.
  revert z. induction width as [|w IH]; intros z Hz.
  - simpl in *. lia.
  - cbn [put_uint uint_of_bytes fold_right].
    fold (uint_of_bytes (put_uint w (z / 256))).
    rewrite Z_of_byte_of_Z, IH.
    + pose proof (Z.div_mod z 256). lia.
    + rewrite Nat2Z.inj_succ, Z.pow_succ_r in Hz by lia.
      split; [apply Z.div_pos; lia|].
      apply Z.div_lt_upper_bound; lia.
Qed.

Lemma advance_0 s : advance s 0 = s.
Proof. destruct s. unfold advance. simpl. f_equal. lia. Qed.

Lemma advance_advance s a b : advance (advance s a) b = advance s (a + b).
Proof. unfold advance. simpl. f_equal. lia. Qed.

(** After reading [bs] the stream is well formed and holds the rest. *)
Lemma advance_wf s bs rest :
  MemoryInputStream.wf s ->
  MemoryInputStream.from_position s = bs ++ rest ->
  MemoryInputStream.wf (advance s (length bs)) /\
  MemoryInputStream.from_position (advance s (length bs)) = rest.
Proof.
  intros Hwf Hfrom. pose proof (length_from_position s Hwf) as Hlen.
  rewrite Hfrom, length_app in Hlen.
  destruct Hwf as [Hpos Hsz]. split.
  - unfold MemoryInputStream.wf, advance, MemoryInputStream.size in *.
    simpl. lia.
  - unfold MemoryInputStream.from_position, advance in *. simpl.
    replace (Z.to_nat (MemoryInputStream.position s + Z.of_nat (length bs)))
      with (Z.to_nat (MemoryInputStream.position s) + length bs)%nat by lia.
    rewrite <- drop_drop, Hfrom. apply drop_app_length.
Qed.

Lemma reads_ret {A} (a : A) : reads (mret a) [] a.
Proof. intros s rest _ _. simpl. now rewrite advance_0. Qed.

Lemma reads_bind {A B} (r : Reader A) (f : A -> Reader B) b1 b2 a c :
  reads r b1 a -> reads (f a) b2 c -> reads (r ≫= f) (b1 ++ b2) c.
Proof.
  intros Hr Hf s rest Hwf Hfrom. rewrite <- app_assoc in Hfrom.
  unfold mbind, Reader_bind. rewrite (Hr s _ Hwf Hfrom).
  destruct (advance_wf s b1 _ Hwf Hfrom) as [Hwf' Hfrom'].
  rewrite (Hf _ _ Hwf' Hfrom'), advance_advance, length_app. reflexivity.
Qed.

(** The last step of a reader: a value computed from what was read. *)
Lemma reads_bind_ret {A B} (r : Reader A) (g : A -> B) bs a :
  reads r bs a -> reads (r ≫= fun x => mret (g x)) bs (g a).
Proof.
  intros Hr. rewrite <- (app_nil_r bs).
  eapply reads_bind; [exact Hr|apply reads_ret].
Qed.

Lemma reads_read_exact bs :
  Z.of_nat (length bs) < 2 ^ 63 ->
  reads (read_exact (Z.of_nat (length bs))) bs bs.
Proof.
  intros Hsmall s rest Hwf Hfrom. unfold read_exact.
  pose proof (length_from_position s Hwf) as Hlen.
  rewrite Hfrom, length_app in Hlen.
  rewrite (read_wf s _ _ Hwf) by lia.
  replace (Z.min (Z.of_nat (length bs))
             (MemoryInputStream.size s - MemoryInputStream.position s))
    with (Z.of_nat (length bs)) by lia.
  rewrite Z.eqb_refl, Nat2Z.id, Hfrom.
  rewrite take_app_length, drop_ge, app_nil_r
    by (rewrite length_replicate; lia).
  reflexivity.
Qed.

Lemma reads_uint width z :
  (width <= 8)%nat ->
  0 <= z < 256 ^ Z.of_nat width ->
  reads (get_uint width) (put_uint width z) z.
Proof.
  intros Hw Hz. unfold get_uint.
  rewrite <- (uint_of_bytes_put_uint width z Hz) at 2.
  apply (reads_bind_ret _ uint_of_bytes).
  rewrite <- (length_put_uint width z) at 1.
  apply reads_read_exact. rewrite length_put_uint. lia.
Qed.

Lemma reads_u64 z : u64 z -> reads (get_uint 8) (put_uint 8 z) z.
Proof. intros Hz. apply reads_uint; [lia|exact Hz]. Qed.

Lemma reads_n {A} (get : Reader A) (put : A -> list byte) (l : list A) :
  Forall (fun a => reads get (put a) a) l ->
  reads (get_n get (length l)) (concat (put <$> l)) l.
Proof.
  induction 1 as [|a l Ha Hl IH]; simpl.
  - apply reads_ret.
  - eapply reads_bind; [exact Ha|].
    apply (reads_bind_ret _ (cons a)), IH.
Qed.

Lemma reads_list {A} (get : Reader A) (put : A -> list byte) (l : list A) :
  u64 (Z.of_nat (length l)) ->
  Forall (fun a => reads get (put a) a) l ->
  reads (get_list get) (put_list put l) l.
Proof.
  intros Hlen Hl. unfold get_list, put_list.
  eapply reads_bind; [apply reads_u64, Hlen|].
  rewrite Nat2Z.id. now apply reads_n.
Qed.

Lemma reads_u64_list (l : list Z) :
  u64_list l -> reads (get_list (get_uint 8)) (put_list (put_uint 8) l) l.
Proof.
  intros [Hlen Hl]. apply reads_list; [exact Hlen|].
  eapply Forall_impl; [exact Hl|]. intros z Hz. now apply reads_u64.
Qed.

Lemma reads_option {A} (get : Reader A) (put : A -> list byte) (o : option A) :
  from_option (fun a => reads get (put a) a) True o ->
  reads (get_option get) (put_option put o) o.
Proof.
  intros Ho. unfold get_option, put_option. destruct o as [a|]; simpl in Ho.
  - eapply reads_bind; [apply (reads_uint 1 1); [lia|split; lia]|].
    simpl. apply (reads_bind_ret _ Some), Ho.
  - rewrite <- (app_nil_r (put_uint 1 0)).
    eapply reads_bind; [apply (reads_uint 1 0); [lia|split; lia]|].
    simpl. apply reads_ret.
Qed.

Lemma reads_eq {A} (get : Reader A) bs (a b : A) :
  reads get bs a -> a = b -> reads get bs b.
Proof. now intros H <-. Qed.

Lemma to_i32_small z : - 2 ^ 31 <= z < 2 ^ 31 -> to_i32 z = z.
Proof. intros H. unfold to_i32. rewrite Z.mod_small by lia. lia. Qed.

(** *** The header *)

Lemma reads_parameters md :
  u64 (md_M md) -> u64 (md_efConstruction md) ->
  u64 (md_maxElements md) -> u64 (md_count md) ->
  reads (get_parameters (md_space md) (md_storageDataType md)
           (md_numDimensions md))
        (put_parameters md) md.
Proof.
  intros HM Hef Hmax Hcount. unfold get_parameters, put_parameters.
  eapply reads_eq.
  - eapply reads_bind; [apply reads_u64, HM|]. cbv beta.
    eapply reads_bind; [apply reads_u64, Hef|]. cbv beta.
    eapply reads_bind; [apply reads_u64, Hmax|]. cbv beta.
    eapply reads_bind_ret. apply reads_u64, Hcount.
  - now destruct md.
Qed.

Lemma reads_metadata md :
  valid_header md -> reads get_metadata (put_metadata md) md.
Proof.
  intros (Hsp & Hst & Hdim & HM & Hef & Hmax & Hcount).
  unfold get_metadata, put_metadata.
  eapply reads_bind.
  { change 4 with (Z.of_nat (length magic)).
    apply reads_read_exact. simpl. lia. }
  cbv beta.
  eapply reads_bind.
  { apply (reads_uint 4 version); [lia|].
    change (256 ^ Z.of_nat 4) with (2 ^ 32). unfold version. lia. }
  cbv beta. rewrite Z.eqb_refl.
  eapply reads_bind; [apply (reads_uint 1); [lia|exact Hsp]|]. cbv beta.
  eapply reads_bind; [apply (reads_uint 1); [lia|exact Hst]|]. cbv beta.
  eapply reads_bind.
  { apply (reads_uint 4); [lia|].
    change (256 ^ Z.of_nat 4) with (2 ^ 32). lia. }
  cbv beta. rewrite to_i32_small by lia.
  now apply reads_parameters.
Qed.

Lemma valid_header_metadata_of i : valid i -> valid_header (metadata_of i).
Proof.
  intros V. destruct (valid_storage i V) as [w Hw].
  unfold valid_header, metadata_of; simpl.
  repeat split; try apply V.
  - unfold width_of in Hw. destruct (Z.eqb_spec (storageDataType i) 32); [lia|].
    destruct (Z.eqb_spec (storageDataType i) 16); [lia|].
    destruct (Z.eqb_spec (storageDataType i) 48); [lia|discriminate].
  - unfold width_of in Hw. destruct (Z.eqb_spec (storageDataType i) 32); [lia|].
    destruct (Z.eqb_spec (storageDataType i) 16); [lia|].
    destruct (Z.eqb_spec (storageDataType i) 48); [lia|discriminate].
Qed.

Lemma width_of_bound storage w : width_of storage = Some w -> 0 < w <= 4.
Proof.
  unfold width_of. destruct (storage =? 32); [intros [= <-]; lia|].
  destruct ((storage =? 16) || (storage =? 48)); [intros [= <-]; lia|].
  discriminate.
Qed.

(** [peek] on a stream that holds the magic. *)
Lemma peek_magic s rest :
  MemoryInputStream.wf s ->
  MemoryInputStream.from_position s = magic ++ rest ->
  peek s = Ok (magic_number, s).
Proof.
  intros Hwf Hfrom. pose proof (length_from_position s Hwf) as Hlen.
  rewrite Hfrom, length_app in Hlen. simpl length in Hlen.
  destruct Hwf as [Hpos Hsz].
  unfold peek, MemoryInputStream.peek.
  rewrite (to_u64_small (MemoryInputStream.position s)) by lia.
  rewrite to_u64_small by lia.
  destruct (Z.ltb_spec (MemoryInputStream.size s)
              (MemoryInputStream.position s + 4)); [lia|].
  rewrite Hfrom. reflexivity.
Qed.

Lemma reads_loadFromStream md :
  valid_header md -> reads loadFromStream (put_metadata md) (Some md).
Proof.
  intros V s rest Hwf Hfrom. unfold loadFromStream, mbind, Reader_bind.
  assert (Hmagic : MemoryInputStream.from_position s
                   = magic ++ (drop 4 (put_metadata md) ++ rest))
    by (rewrite Hfrom; reflexivity).
  rewrite (peek_magic s _ Hwf Hmagic), Z.eqb_refl.
  pose proof (reads_metadata md V s rest Hwf Hfrom) as Hmd.
  unfold mbind, Reader_bind in Hmd. now rewrite Hmd.
Qed.

(** *** The blocks *)

Lemma reads_blocks i :
  valid i -> reads (get_blocks (metadata_of i)) (put_blocks i) i.
Proof.
  intros V. destruct (valid_storage i V) as [w Hw].
  pose proof (width_of_bound _ _ Hw) as Hwb.
  pose proof (valid_numDimensions i V) as Hdim.
  unfold get_blocks, put_blocks, metadata_of.
  cbn [md_storageDataType md_count md_numDimensions md_space md_M
       md_efConstruction md_maxElements].
  rewrite Hw. cbv zeta. rewrite Nat2Z.id, <- !app_assoc.
  eapply reads_eq.
  - (* the vectors *)
    eapply reads_bind.
    { rewrite <- (valid_vectors i V).
      replace (concat (vectors i)) with (concat (id <$> vectors i))
        by (now rewrite list_fmap_id).
      apply (reads_n _ id). eapply Forall_impl; [apply (valid_vector_size i V)|].
      intros stored Hstored. rewrite Hw in Hstored. simpl in Hstored.
      injection Hstored as Hstored. rewrite <- Hstored.
      apply reads_read_exact. nia. }
    cbv beta.
    (* the graph *)
    eapply reads_bind.
    { apply reads_option. pose proof (valid_entryPoint i V) as He.
      destruct (entryPoint i); simpl in *; [now apply reads_u64|exact I]. }
    cbv beta.
    eapply reads_bind; [apply reads_u64_list, (valid_deleted i V)|].
    cbv beta.
    eapply reads_bind.
    { rewrite <- (valid_links i V).
      apply reads_n. eapply Forall_impl; [apply (valid_neighbours i V)|].
      intros layers [Hlen Hlayers]. apply reads_list; [exact Hlen|].
      eapply Forall_impl; [exact Hlayers|].
      intros l Hl. now apply reads_u64_list. }
    cbv beta.
    (* the labels *)
    eapply reads_bind_ret. apply reads_n.
    eapply Forall_impl; [apply (valid_labels i V)|].
    intros z Hz. now apply reads_u64.
  - cbv beta. rewrite list_to_set_elements_L. now destruct i.
Qed.

End ReadWrite.

Section RoundTrip.
Import SpecModel.
Variable files : string -> option (list byte).

(** The engine finds the header it wrote and loads the index it saved. *)
Lemma serialize_loads (i : IndexState) :
  valid i ->
  Z.of_nat (length (serialize i)) < 2 ^ 63 ->
  exists stream,
    Metadata_loadFromStream (Engine := engine files)
      (inr (MemoryInputStream.new (serialize i)))
      = Ok (Some (metadata_of i), stream) /\
    loadTypedIndexFromMetadata (Engine := engine files) (metadata_of i) stream
      = Ok i.
Proof.
  intros V Hsize.
  set (s := MemoryInputStream.new (serialize i)).
  assert (Hwf : MemoryInputStream.wf s) by now apply wf_new.
  assert (Hfrom : MemoryInputStream.from_position s
                  = put_metadata (metadata_of i) ++ (put_blocks i ++ []))
    by (unfold s, serialize; now rewrite app_nil_r).
  exists (inr (advance s (length (put_metadata (metadata_of i))))).
  cbn [Metadata_loadFromStream loadTypedIndexFromMetadata engine on_stream].
  rewrite (reads_loadFromStream _ (valid_header_metadata_of i V) s _ Hwf Hfrom).
  split; [reflexivity|].
  destruct (advance_wf s _ _ Hwf Hfrom) as [Hwf' Hfrom'].
  now rewrite (reads_blocks i V _ _ Hwf' Hfrom').
Qed.

End RoundTrip.

(** C3, on the engine modelled from the specification. For every
    well-formed index whose serialization fits a buffer, [fromBuffer] applied
    without options to the bytes of [toBuffer] returns an index with the same
    ids and, for every label, the same stored and decoded vector: nothing is
    lost to quantization on the way, the stored representations being
    equal. *)
Theorem buffer_round_trip (files : string -> option (list byte))
    (i : SpecModel.IndexState) :
  SpecModel.valid i ->
  Z.of_nat (length (SpecModel.serialize i)) < 2 ^ 63 ->
  let self := IndexWrapper.Build (Eng := SpecModel.engine files) i in
  exists (bytes : list byte)
         (loaded : @IndexWrapper.t SpecModel.enums (SpecModel.engine files)),
    IndexWrapper.ToBuffer self [] = Returned (Napi.Buffer bytes) /\
    IndexWrapper.FromBuffer [Napi.Buffer bytes] = Returned loaded /\
    SpecModel.labels (IndexWrapper.index_ loaded) = SpecModel.labels i /\
    SpecModel.vectors (IndexWrapper.index_ loaded) = SpecModel.vectors i /\
    IndexWrapper.GetIds loaded [] = IndexWrapper.GetIds self [] /\
    (forall info,
       IndexWrapper.GetVector loaded info = IndexWrapper.GetVector self info).
Proof.
  intros V Hsize self.
  exists (SpecModel.serialize i), self.
  split; [reflexivity|].
  split; [|repeat split; reflexivity].
  destruct (serialize_loads files i V Hsize) as (stream & Hmeta & Hload).
  assert (Hread : IndexWrapper.read_LoadOptions
                    (En := SpecModel.enums) [Napi.Buffer (SpecModel.serialize i)]
                  = Returned
                      {| IndexWrapper.load_space := Euclidean;
                         IndexWrapper.load_numDimensions := 0;
                         IndexWrapper.load_storageDataType := Float32 |})
    by reflexivity.
  rewrite (FromBuffer_unfold _ _ _ _ _ Hread Hmeta).
  etransitivity;
    [apply (load_from_metadata (Eng := SpecModel.engine files))|].
  assert (Hval : @IndexWrapper.validate SpecModel.enums (SpecModel.engine files)
                    [Napi.Buffer (SpecModel.serialize i)]
                    (SpecModel.metadata_of i) = Returned ()) by reflexivity.
  rewrite Hval.
  unfold proceed_with_metadata. rewrite Hload. cbn [try_engine mbind JsResult_bind].
  destruct (wrap_unfold (Eng := SpecModel.engine files) i)
    as (space & numDimensions & ->).
  reflexivity.
Qed.

(** ** The properties on the example index *)

Lemma load_checks_options_against_metadata_witness :
  exists m,
    conflict (Eng := Example.engine)
      [Napi.String "index.voy"; Example.float8_options]
      (SpecModel.metadata_of Example.index) m /\
    IndexWrapper.LoadIndex (Eng := Example.engine)
      [Napi.String "index.voy"; Example.float8_options]
    = Thrown JsError (Mismatch_message m).
Proof.
  destruct (load_checks_options_against_metadata (Eng := Example.engine)
              [Example.float8_options] (SpecModel.metadata_of Example.index)
              (inl {| MemoryInputStream.data := SpecModel.serialize Example.index;
                      MemoryInputStream.position := 46 |}))
    as (Hfile & _).
  destruct (Hfile "index.voy"
              (@IndexWrapper.Build_LoadOptions SpecModel.enums 0 0 16)
              (MemoryInputStream.new (SpecModel.serialize Example.index))
              eq_refl eq_refl eq_refl) as (Hconflict & _).
  apply Hconflict.
  exists (@StorageMismatch SpecModel.enums 16 32).
  repeat split; try reflexivity. discriminate.
Defined.

Example LoadIndex_float8_on_float32 :
  IndexWrapper.LoadIndex (Eng := Example.engine)
    [Napi.String "index.voy"; Example.float8_options]
  = Thrown JsError
      ("Provided storage data type (Float8) does not match the data type " ++
       "used in this file (Float32).").
Proof. reflexivity. Qed.

Lemma legacy_load_requires_numDimensions_witness :
  IndexWrapper.LoadIndex (Eng := Example.engine)
    [Napi.String "legacy.voy"; Example.float8_options]
  = Thrown JsTypeError IndexWrapper.file_no_metadata /\
  IndexWrapper.FromBuffer (Eng := Example.engine)
    [Napi.Buffer (SpecModel.serialize_legacy Example.index);
     Example.required_options]
  = proceed_legacy (Eng := Example.engine) TypedIndex_float
      (inr (MemoryInputStream.new (SpecModel.serialize_legacy Example.index)))
      0 2.
Proof.
  destruct (legacy_load_requires_numDimensions (Eng := Example.engine)
              [Example.float8_options]
              (inl (MemoryInputStream.new
                      (SpecModel.serialize_legacy Example.index))))
    as (Hfile & _).
  destruct (legacy_load_requires_numDimensions (Eng := Example.engine)
              [Example.required_options]
              (inr (MemoryInputStream.new
                      (SpecModel.serialize_legacy Example.index))))
    as (_ & Hbuffer).
  split.
  - exact (proj1 (Hfile "legacy.voy"
                    (@IndexWrapper.Build_LoadOptions SpecModel.enums 0 0 16)
                    (MemoryInputStream.new
                       (SpecModel.serialize_legacy Example.index))
                    eq_refl eq_refl eq_refl) eq_refl).
  - exact (proj2 (Hbuffer (SpecModel.serialize_legacy Example.index)
                    (@IndexWrapper.Build_LoadOptions SpecModel.enums 0 2 32)
                    eq_refl eq_refl) eq_refl eq_refl).
Defined.

(** C2 as stated fails: this load of a buffer without header supplies no
    [storageDataType], and it returns the index, read as [Float32]. *)
Lemma legacy_load_without_storageDataType :
  Metadata_loadFromStream (Engine := Example.engine)
    (inr (MemoryInputStream.new (SpecModel.serialize_legacy Example.index)))
  = Ok (None,
        inr (MemoryInputStream.new (SpecModel.serialize_legacy Example.index))) /\
  supplied [Napi.Buffer (SpecModel.serialize_legacy Example.index);
            Example.required_options] "storageDataType" = false /\
  IndexWrapper.FromBuffer (Eng := Example.engine)
    [Napi.Buffer (SpecModel.serialize_legacy Example.index);
     Example.required_options]
  = Returned (IndexWrapper.Build (Eng := Example.engine) Example.index) /\
  IndexWrapper.FromBuffer (Eng := Example.engine)
    [Napi.Buffer (SpecModel.serialize_legacy Example.index);
     Example.required_options]
  <> Thrown JsTypeError IndexWrapper.buffer_no_metadata.
Proof.
  assert (H : IndexWrapper.FromBuffer (Eng := Example.engine)
                [Napi.Buffer (SpecModel.serialize_legacy Example.index);
                 Example.required_options]
              = Returned (IndexWrapper.Build (Eng := Example.engine)
                            Example.index))
    by reflexivity.
  split; [reflexivity|]. split; [reflexivity|].
  split; [exact H|]. rewrite H. discriminate.
Qed.

Lemma legacy_validation_differs_witness :
  IndexWrapper.LoadIndex (Eng := Example.engine)
    [Napi.String "legacy.voy"; negative_dimensions]
  = Thrown JsTypeError IndexWrapper.file_no_metadata /\
  IndexWrapper.FromBuffer (Eng := Example.engine)
    [Napi.Buffer (SpecModel.serialize_legacy Example.index);
     negative_dimensions]
  <> Thrown JsTypeError IndexWrapper.buffer_no_metadata.
Proof.
  destruct (legacy_validation_differs (Eng := Example.engine)
              "legacy.voy" (SpecModel.serialize_legacy Example.index)
              (MemoryInputStream.new (SpecModel.serialize_legacy Example.index))
              (inl (MemoryInputStream.new
                      (SpecModel.serialize_legacy Example.index)))
              (inr (MemoryInputStream.new
                      (SpecModel.serialize_legacy Example.index)))
              eq_refl eq_refl eq_refl) as (Hfile & _ & Hbuffer).
  split; [exact Hfile|apply Hbuffer].
Defined.

Lemma query_single_rounds_label_witness :
  IndexWrapper.Query (Srch := Example.search)
    (IndexWrapper.Build (Eng := Example.engine) Example.index)
    [Example.query_vector] =
  Returned (Napi.ArrayWith []
    (<["neighbors" := Napi.Array [Example.number 16777216]]>
     (<["distances" :=
          IndexWrapper.VectorToArray [S754_zero false]]> ∅))).
Proof.
  exact (proj1 (query_single_rounds_label (Srch := Example.search)
                  (IndexWrapper.Build (Eng := Example.engine) Example.index)
                  (Example.number 1) [Example.number 0]
                  [Napi.float_of_Z 1; S754_zero false] [S754_zero false]
                  eq_refl eq_refl eq_refl)).
Defined.

Lemma buffer_round_trip_witness :
  SpecModel.valid Example.index /\
  Z.of_nat (length (SpecModel.serialize Example.index)) < 2 ^ 63 /\
  exists (bytes : list byte)
         (loaded : @IndexWrapper.t SpecModel.enums Example.engine),
    IndexWrapper.ToBuffer
      (IndexWrapper.Build (Eng := Example.engine) Example.index) []
      = Returned (Napi.Buffer bytes) /\
    IndexWrapper.FromBuffer [Napi.Buffer bytes] = Returned loaded /\
    SpecModel.labels (IndexWrapper.index_ loaded) = [16777217; 7] /\
    SpecModel.vectors (IndexWrapper.index_ loaded)
      = SpecModel.vectors Example.index.
Proof.
  assert (V : SpecModel.valid Example.index).
  { constructor; simpl.
    - lia.
    - now exists 4.
    - lia.
    - unfold SpecModel.u64; lia.
    - unfold SpecModel.u64; lia.
    - unfold SpecModel.u64; lia.
    - unfold SpecModel.u64; lia.
    - repeat constructor; lia.
    - reflexivity.
    - repeat constructor.
    - unfold SpecModel.u64; lia.
    - change (elements (SpecModel.deleted Example.index)) with [1].
      repeat constructor; simpl; lia.
    - reflexivity.
    - repeat constructor; simpl; lia. }
  assert (B : Z.of_nat (length (SpecModel.serialize Example.index)) < 2 ^ 63)
    by reflexivity.
  split; [exact V|]. split; [exact B|].
  destruct (buffer_round_trip Example.files Example.index V B)
    as (bytes & loaded & Hto & Hfrom & Hids & Hvec & _).
  exists bytes, loaded. auto.
Defined.

(** * Further properties *)

(** ** The in-memory stream, operation by operation *)

Section StreamComposition.
Import CInt MemoryInputStream.

(** The bytes [read] leaves at the front of the buffer. *)
Lemma take_read_buffer (src buffer : list byte) (k : nat) :
  (k <= length src)%nat -> take k (take k src ++ drop k buffer) = take k src.
Proof.
  intros Hk. rewrite take_app_le by (rewrite length_take; lia).
  rewrite take_take. f_equal. lia.
Qed.

Lemma from_position_lookup s (i : nat) :
  0 <= position s ->
  from_position s !! i = data s !! (Z.to_nat (position s) + i)%nat.
Proof. intros _. unfold from_position. apply lookup_drop. Qed.

(** A successful [setPosition]. *)
Lemma setPosition_in_range s p :
  reachable s -> 0 <= p <= size s ->
  snd (setPosition s p) = {| data := data s; position := p |} /\
  wf {| data := data s; position := p |}.
Proof.
  intros Hr Hp. destruct (reachable_wf s Hr) as [Hpos Hsz].
  unfold setPosition. rewrite to_i64_small by lia.
  destruct (Z.ltb_spec p 0); [lia|].
  destruct (Z.ltb_spec (size s) p); [lia|].
  split; [reflexivity|]. unfold wf, size in *. simpl. lia.
Qed.

End StreamComposition.

(** X1. The class invariant. In every state a stream can reach, the
    position lies between [0] and the length of the data; no operation
    changes the data, and [getTotalLength] answers their length. *)
Theorem stream_invariant (s : MemoryInputStream.t) :
  MemoryInputStream.reachable s ->
  0 <= MemoryInputStream.position s <= MemoryInputStream.size s /\
  fst (MemoryInputStream.getTotalLength s) = MemoryInputStream.size s /\
  (forall buffer n,
     MemoryInputStream.data (snd (MemoryInputStream.read s buffer n))
       = MemoryInputStream.data s) /\
  (forall p,
     MemoryInputStream.data (snd (MemoryInputStream.setPosition s p))
       = MemoryInputStream.data s) /\
  (forall bo,
     MemoryInputStream.data (snd (MemoryInputStream.peek bo s))
       = MemoryInputStream.data s).
Proof.
  intros Hr. destruct (reachable_wf s Hr) as [Hpos Hsz].
  split; [exact Hpos|]. split.
  { unfold MemoryInputStream.getTotalLength. simpl.
    apply to_i64_small. lia. }
  split; [|split].
  - intros buffer n. unfold MemoryInputStream.read.
    now destruct (0 <? _).
  - intros p. unfold MemoryInputStream.setPosition.
    now destruct (_ || _).
  - intros bo. unfold MemoryInputStream.peek. now destruct (_ <? _).
Qed.

Lemma stream_invariant_witness :
  let s := snd (MemoryInputStream.read
                  (MemoryInputStream.new [x0a; x0b; x0c]%byte) [] 2) in
  MemoryInputStream.reachable s /\
  0 <= MemoryInputStream.position s <= MemoryInputStream.size s.
Proof.
  intros s.
  assert (Hr : MemoryInputStream.reachable s).
  { apply MemoryInputStream.reach_read, MemoryInputStream.reach_new.
    reflexivity. }
  split; [exact Hr|]. exact (proj1 (stream_invariant s Hr)).
Defined.

(** X2. A stream reports itself exhausted exactly when its position is at
    the end of the data; an exhausted stream delivers nothing to any read,
    and a stream that is not exhausted delivers at least one byte to every
    read of a positive count. *)
Theorem isExhausted_spec (s : MemoryInputStream.t) :
  MemoryInputStream.reachable s ->
  snd (MemoryInputStream.isExhausted s) = s /\
  (fst (MemoryInputStream.isExhausted s) = true
     <-> MemoryInputStream.position s = MemoryInputStream.size s) /\
  (fst (MemoryInputStream.isExhausted s) = true ->
   forall buffer n, 0 <= n ->
     MemoryInputStream.read s buffer n = (0, buffer, s)) /\
  (fst (MemoryInputStream.isExhausted s) = false ->
   forall buffer n, 0 < n ->
     0 < fst (fst (MemoryInputStream.read s buffer n))).
Proof.
  intros Hr. pose proof (reachable_wf s Hr) as Hwf.
  destruct Hwf as [Hpos Hsz].
  assert (Hex : fst (MemoryInputStream.isExhausted s) = true
                <-> MemoryInputStream.position s = MemoryInputStream.size s).
  { unfold MemoryInputStream.isExhausted. simpl.
    rewrite to_u64_small by lia. rewrite Z.leb_le. lia. }
  split; [reflexivity|]. split; [exact Hex|]. split.
  - intros Htrue buffer n Hn. apply Hex in Htrue.
    rewrite (read_wf s buffer n (conj Hpos Hsz) Hn).
    replace (Z.min n (MemoryInputStream.size s - MemoryInputStream.position s))
      with 0 by lia.
    simpl. rewrite drop_0, Z.add_0_r. now destruct s.
  - intros Hfalse buffer n Hn.
    assert (MemoryInputStream.position s <> MemoryInputStream.size s)
      by (intros E; apply Hex in E; congruence).
    rewrite (read_wf s buffer n (conj Hpos Hsz)) by lia. simpl. lia.
Qed.

Lemma isExhausted_spec_witness :
  let s := snd (MemoryInputStream.setPosition
                  (MemoryInputStream.new [x0a; x0b; x0c]%byte) 3) in
  MemoryInputStream.reachable s /\
  fst (MemoryInputStream.isExhausted s) = true /\
  MemoryInputStream.read s [x00; x00]%byte 2 = (0, [x00; x00]%byte, s).
Proof.
  intros s.
  assert (Hr : MemoryInputStream.reachable s).
  { apply MemoryInputStream.reach_setPosition, MemoryInputStream.reach_new.
    reflexivity. }
  destruct (isExhausted_spec s Hr) as (_ & _ & Hread & _).
  split; [exact Hr|]. split; [reflexivity|].
  apply (Hread eq_refl). discriminate.
Defined.

(** X3. A read with a negative count copies nothing and moves nothing, and
    it returns that negative count, not zero. *)
Theorem read_negative_count (s : MemoryInputStream.t) (buffer : list byte)
    (n : Z) :
  MemoryInputStream.reachable s ->
  n < 0 ->
  MemoryInputStream.read s buffer n = (n, buffer, s).
Proof.
  intros Hr Hn. pose proof (reachable_wf s Hr) as Hwf.
  unfold MemoryInputStream.read. rewrite (bytesAvailable_wf s Hwf).
  destruct Hwf as [Hpos Hsz].
  replace (Z.min n (MemoryInputStream.size s - MemoryInputStream.position s))
    with n by lia.
  destruct (Z.ltb_spec 0 n); [lia|reflexivity].
Qed.

Lemma read_negative_count_witness :
  let s := MemoryInputStream.new [x0a; x0b; x0c]%byte in
  MemoryInputStream.reachable s /\ -5 < 0 /\
  MemoryInputStream.read s [x00]%byte (-5) = (-5, [x00]%byte, s).
Proof.
  intros s.
  assert (Hr : MemoryInputStream.reachable s)
    by (apply MemoryInputStream.reach_new; reflexivity).
  assert (Hn : -5 < 0) by reflexivity.
  split; [exact Hr|]. split; [exact Hn|].
  exact (read_negative_count s [x00]%byte (-5) Hr Hn).
Defined.

(** X4. Reads compose. Reading [a] bytes and then [b] bytes delivers the
    same bytes, returns the same total and leaves the stream in the same
    state as one read of [a + b] bytes, also when the data run out in
    between. *)
Theorem read_read (s : MemoryInputStream.t)
    (buffer1 buffer2 buffer : list byte) (a b : Z) :
  MemoryInputStream.reachable s ->
  0 <= a -> 0 <= b ->
  let r1 := MemoryInputStream.read s buffer1 a in
  let r2 := MemoryInputStream.read (snd r1) buffer2 b in
  let r := MemoryInputStream.read s buffer (a + b) in
  fst (fst r) = fst (fst r1) + fst (fst r2) /\
  snd r = snd r2 /\
  take (Z.to_nat (fst (fst r))) (snd (fst r)) =
    take (Z.to_nat (fst (fst r1))) (snd (fst r1)) ++
    take (Z.to_nat (fst (fst r2))) (snd (fst r2)).
Proof.
  intros Hr Ha Hb r1 r2 r.
  pose proof (reachable_wf s Hr) as Hwf.
  pose proof (length_from_position s Hwf) as Hlen.
  assert (Hwf1 : MemoryInputStream.wf (snd r1)) by now apply wf_read.
  pose proof (length_from_position _ Hwf1) as Hlen1.
  unfold r, r2. unfold r1 in *. clear r r1 r2.
  rewrite (read_wf (snd (MemoryInputStream.read s buffer1 a)) buffer2 b Hwf1 Hb).
  rewrite (read_wf s buffer (a + b) Hwf) by lia.
  revert Hwf1 Hlen1. rewrite (read_wf s buffer1 a Hwf Ha).
  cbn [fst snd MemoryInputStream.position MemoryInputStream.data
       MemoryInputStream.size].
  set (avail := MemoryInputStream.size s - MemoryInputStream.position s).
  set (k1 := Z.min a avail).
  intros Hwf1 Hlen1.
  unfold MemoryInputStream.size in *.
  cbn [MemoryInputStream.data MemoryInputStream.position] in *.
  fold (MemoryInputStream.size s) in *. fold avail in Hlen.
  destruct Hwf as [Hpos Hsz].
  set (k2 := Z.min b (MemoryInputStream.size s
                      - (MemoryInputStream.position s + k1))) in *.
  assert (Hk : Z.min (a + b) avail = k1 + k2) by (unfold k1, k2, avail; lia).
  rewrite Hk. split; [reflexivity|]. split; [f_equal; lia|].
  assert (Hfrom1 :
    MemoryInputStream.from_position
      {| MemoryInputStream.data := MemoryInputStream.data s;
         MemoryInputStream.position := MemoryInputStream.position s + k1 |}
    = drop (Z.to_nat k1) (MemoryInputStream.from_position s)).
  { unfold MemoryInputStream.from_position. simpl. rewrite drop_drop.
    f_equal. unfold k1, avail. lia. }
  rewrite Hfrom1 in *.
  rewrite !take_read_buffer by (unfold k1, k2, avail in *; lia).
  replace (Z.to_nat (k1 + k2)) with (Z.to_nat k1 + Z.to_nat k2)%nat
    by (unfold k1, k2, avail; lia).
  symmetry. apply take_take_drop.
Qed.

Lemma read_read_witness :
  let s := MemoryInputStream.new [x0a; x0b; x0c; x0d]%byte in
  MemoryInputStream.reachable s /\ 0 <= 1 /\ 0 <= 2 /\
  snd (MemoryInputStream.read s [] (1 + 2)) =
    snd (MemoryInputStream.read
           (snd (MemoryInputStream.read s [] 1)) [] 2).
Proof.
  intros s.
  assert (Hr : MemoryInputStream.reachable s)
    by (apply MemoryInputStream.reach_new; reflexivity).
  assert (Ha : 0 <= 1) by discriminate.
  assert (Hb : 0 <= 2) by discriminate.
  split; [exact Hr|]. split; [exact Ha|]. split; [exact Hb|].
  exact (proj1 (proj2 (read_read s [] [] [] 1 2 Hr Ha Hb))).
Defined.

(** X5. [peek] looks ahead of [read]: it returns a number exactly when a
    read of four bytes would deliver four, and the number is the one those
    four bytes hold; it throws exactly when such a read would come short.
    Either way [peek] leaves the stream where it was. *)
Theorem peek_agrees_with_read (bo : byte_order) (s : MemoryInputStream.t)
    (buffer : list byte) :
  MemoryInputStream.reachable s ->
  let r := MemoryInputStream.read s buffer 4 in
  snd (MemoryInputStream.peek bo s) = s /\
  ((exists v, fst (MemoryInputStream.peek bo s) = Ok v)
     <-> fst (fst r) = 4) /\
  (fst (fst r) = 4 ->
   fst (MemoryInputStream.peek bo s)
     = Ok (MemoryInputStream.uint32_of_bytes bo (take 4 (snd (fst r))))) /\
  ((exists what, fst (MemoryInputStream.peek bo s) = Throw what)
     <-> fst (fst r) < 4).
Proof.
  intros Hr r. split.
  { unfold MemoryInputStream.peek. now destruct (_ <? _). }
  pose proof (reachable_wf s Hr) as Hwf.
  pose proof (length_from_position s Hwf) as Hlen.
  assert (H4 : 0 <= 4) by discriminate.
  unfold r. rewrite (read_wf s buffer 4 Hwf H4). cbn [fst snd].
  destruct Hwf as [Hpos Hsz]. unfold MemoryInputStream.peek.
  rewrite (to_u64_small (MemoryInputStream.position s)) by lia.
  rewrite to_u64_small by lia.
  destruct (Z.ltb_spec (MemoryInputStream.size s)
              (MemoryInputStream.position s + 4)) as [Hshort|Hlong];
    cbn [fst].
  - split; [split; [intros [v Hv]; discriminate|lia]|].
    split; [lia|]. split; [lia|]. intros _. eauto.
  - replace (Z.min 4 (MemoryInputStream.size s - MemoryInputStream.position s))
      with 4 by lia.
    split; [split; [reflexivity|eauto]|].
    split; [|split; [intros [what Hw]; discriminate|lia]].
    intros _. change (Z.to_nat 4) with 4%nat.
    rewrite take_read_buffer by lia. reflexivity.
Qed.

Lemma peek_agrees_with_read_witness :
  let s := MemoryInputStream.new [x01; x02; x03; x04; x05]%byte in
  MemoryInputStream.reachable s /\
  MemoryInputStream.peek BigEndian s = (Ok 0x01020304, s).
Proof.
  intros s.
  assert (Hr : MemoryInputStream.reachable s)
    by (apply MemoryInputStream.reach_new; reflexivity).
  split; [exact Hr|].
  destruct (peek_agrees_with_read BigEndian s [] Hr)
    as (Hsame & _ & Hvalue & _).
  rewrite (surjective_pairing (MemoryInputStream.peek BigEndian s)).
  rewrite Hsame, (Hvalue eq_refl). reflexivity.
Defined.

(** X6. Random access. After a successful [setPosition p], a read of [n]
    bytes puts into the buffer the bytes of the data at the offsets [p],
    [p + 1], ... up to the end of the data, and leaves the rest of the
    buffer as it was. *)
Theorem read_after_setPosition (s : MemoryInputStream.t)
    (buffer : list byte) (p n : Z) :
  MemoryInputStream.reachable s ->
  0 <= p <= MemoryInputStream.size s ->
  0 <= n ->
  let k := Z.min n (MemoryInputStream.size s - p) in
  let r := MemoryInputStream.read
             (snd (MemoryInputStream.setPosition s p)) buffer n in
  fst (fst r) = k /\
  MemoryInputStream.position (snd r) = p + k /\
  (forall i : nat,
     Z.of_nat i < k ->
     snd (fst r) !! i = MemoryInputStream.data s !! (Z.to_nat p + i)%nat) /\
  (forall i : nat,
     k <= Z.of_nat i -> snd (fst r) !! i = buffer !! i).
Proof.
  intros Hr Hp Hn k r.
  destruct (setPosition_in_range s p Hr Hp) as [Hset Hwf'].
  unfold r. rewrite Hset.
  rewrite (read_wf _ buffer n Hwf' Hn).
  pose proof (length_from_position _ Hwf') as Hlen.
  unfold MemoryInputStream.size in *.
  cbn [fst snd MemoryInputStream.position MemoryInputStream.data] in *.
  fold (MemoryInputStream.size s) in *. fold k. fold k in Hlen.
  split; [reflexivity|]. split; [reflexivity|]. split.
  - intros i Hi. rewrite lookup_app_l by (rewrite length_take; lia).
    rewrite lookup_take_lt by lia.
    unfold MemoryInputStream.from_position. simpl. apply lookup_drop.
  - intros i Hi.
    assert (Hk : length (take (Z.to_nat k)
                   (MemoryInputStream.from_position
                      {| MemoryInputStream.data := MemoryInputStream.data s;
                         MemoryInputStream.position := p |}))
                 = Z.to_nat k)
      by (rewrite length_take; unfold k in *; lia).
    rewrite lookup_app_r by (rewrite Hk; unfold k in *; lia).
    rewrite Hk, lookup_drop. f_equal. unfold k in *. lia.
Qed.

Lemma read_after_setPosition_witness :
  let s := MemoryInputStream.new [x0a; x0b; x0c; x0d]%byte in
  MemoryInputStream.reachable s /\ 0 <= 2 <= MemoryInputStream.size s /\
  0 <= 5 /\
  fst (fst (MemoryInputStream.read
              (snd (MemoryInputStream.setPosition s 2)) [x00; x00; x00]%byte 5))
    = 2.
Proof.
  intros s.
  assert (Hr : MemoryInputStream.reachable s)
    by (apply MemoryInputStream.reach_new; reflexivity).
  assert (Hp : 0 <= 2 <= MemoryInputStream.size s)
    by (split; discriminate).
  assert (Hn : 0 <= 5) by discriminate.
  split; [exact Hr|]. split; [exact Hp|]. split; [exact Hn|].
  exact (proj1 (read_after_setPosition s [x00; x00; x00]%byte 2 5 Hr Hp Hn)).
Defined.

(** X7. A stream gives back what it was made of. Reading a fresh stream
    to the end, with any count that covers the data, delivers the data
    unchanged and complete, returns their length and leaves the stream
    exhausted; a rewind to [0] makes the same read possible again from any
    state. *)
Theorem read_all (d buffer : list byte) (n : Z) :
  Z.of_nat (length d) < 2 ^ 63 ->
  Z.of_nat (length d) <= n ->
  let r := MemoryInputStream.read (MemoryInputStream.new d) buffer n in
  fst (fst r) = Z.of_nat (length d) /\
  take (length d) (snd (fst r)) = d /\
  drop (length d) (snd (fst r)) = drop (length d) buffer /\
  fst (MemoryInputStream.isExhausted (snd r)) = true /\
  (forall s, MemoryInputStream.reachable s ->
     MemoryInputStream.data s = d ->
     snd (MemoryInputStream.setPosition s 0) = MemoryInputStream.new d).
Proof.
  intros Hsize Hn r.
  assert (Hwf : MemoryInputStream.wf (MemoryInputStream.new d))
    by now apply wf_new.
  unfold r. rewrite (read_wf _ buffer n Hwf) by lia.
  unfold MemoryInputStream.size, MemoryInputStream.from_position.
  cbn [fst snd MemoryInputStream.new MemoryInputStream.data
       MemoryInputStream.position].
  replace (Z.min n (Z.of_nat (length d) - 0)) with (Z.of_nat (length d)) by lia.
  rewrite Nat2Z.id. change (Z.to_nat 0) with 0%nat. rewrite drop_0, firstn_all.
  split; [reflexivity|]. split; [apply take_app_length|].
  split; [apply drop_app_length|]. split.
  - unfold MemoryInputStream.isExhausted, MemoryInputStream.size. simpl.
    rewrite to_u64_small by lia. apply Z.leb_refl.
  - intros s Hr Hd.
    assert (H0 : 0 <= 0 <= MemoryInputStream.size s).
    { destruct (reachable_wf s Hr) as [Hpos _]. lia. }
    destruct (setPosition_in_range s 0 Hr H0) as [-> _].
    unfold MemoryInputStream.new. now rewrite Hd.
Qed.

Lemma read_all_witness :
  Z.of_nat (length [x0a; x0b; x0c]%byte) < 2 ^ 63 /\
  Z.of_nat (length [x0a; x0b; x0c]%byte) <= 10 /\
  take 3 (snd (fst (MemoryInputStream.read
                      (MemoryInputStream.new [x0a; x0b; x0c]%byte)
                      [x00; x00; x00; x00]%byte 10)))
    = [x0a; x0b; x0c]%byte.
Proof.
  assert (Hsize : Z.of_nat (length [x0a; x0b; x0c]%byte) < 2 ^ 63)
    by reflexivity.
  assert (Hn : Z.of_nat (length [x0a; x0b; x0c]%byte) <= 10) by discriminate.
  split; [exact Hsize|]. split; [exact Hn|].
  exact (proj1 (proj2 (read_all [x0a; x0b; x0c]%byte
                         [x00; x00; x00; x00]%byte 10 Hsize Hn))).
Defined.

(** ** Numbers that cross the boundary unchanged *)

Section Rounding.

Lemma iter_xO_value (m d : positive) :
  Zpos (Pos.iter xO m d) = Zpos m * 2 ^ Zpos d.
Proof.
  induction d as [|d IH] using Pos.peano_ind.
  - simpl. lia.
  - rewrite Pos.iter_succ, Pos2Z.inj_xO, IH, Pos2Z.inj_succ, Z.pow_succ_r by lia.
    lia.
Qed.

Lemma iter_xO_digits (m d : positive) :
  Zpos (digits2_pos (Pos.iter xO m d)) = Zpos (digits2_pos m) + Zpos d.
Proof.
  induction d as [|d IH] using Pos.peano_ind.
  - simpl. lia.
  - rewrite Pos.iter_succ. cbn [digits2_pos]. rewrite Pos2Z.inj_succ, IH. lia.
Qed.

Lemma digits2_pos_bounds (p : positive) :
  2 ^ (Zpos (digits2_pos p) - 1) <= Zpos p < 2 ^ Zpos (digits2_pos p).
Proof.
  induction p as [p IH|p IH|]; cbn [digits2_pos].
  - rewrite Pos2Z.inj_succ, (Pos2Z.inj_xI p).
    replace (Z.succ (Zpos (digits2_pos p)) - 1) with (Z.succ (Zpos (digits2_pos p) - 1)) by lia.
    rewrite !Z.pow_succ_r by lia. set (A := 2 ^ (Z.pos (digits2_pos p) - 1)) in *.
    set (B := 2 ^ Z.pos (digits2_pos p)) in *. clearbody A B. lia.
  - rewrite Pos2Z.inj_succ, (Pos2Z.inj_xO p).
    replace (Z.succ (Zpos (digits2_pos p)) - 1) with (Z.succ (Zpos (digits2_pos p) - 1)) by lia.
    rewrite !Z.pow_succ_r by lia. set (A := 2 ^ (Z.pos (digits2_pos p) - 1)) in *.
    set (B := 2 ^ Z.pos (digits2_pos p)) in *. clearbody A B. lia.
  - simpl. lia.
Qed.

Lemma shl_align_exact (m : positive) (e e' : Z) :
  e' <= e ->
  exists mz, shl_align m e e' = (mz, e') /\
             Zpos mz = Zpos m * 2 ^ (e - e') /\
             Zpos (digits2_pos mz) = Zpos (digits2_pos m) + (e - e').
Proof.
  intros He. unfold shl_align. destruct (e' - e) as [|d|d] eqn:Hd; [| lia |].
  - exists m. assert (e' = e) as -> by lia.
    rewrite Z.sub_diag, Z.mul_1_r, Z.add_0_r. repeat split.
  - exists (Pos.iter xO m d). rewrite iter_xO_value, iter_xO_digits.
    replace (e - e') with (Zpos d) by lia. repeat split.
Qed.

(** A number that fits the precision is rounded to itself. *)
Lemma binary_round_exact (prec emax : Z) (s : bool) (m : positive) (e e' : Z) :
  e' = Zpos (digits2_pos m) + e - prec ->
  emin prec emax <= e' -> e' <= e -> e' <= emax - prec ->
  binary_round prec emax s m e = S754_finite s (fst (shl_align m e e')) e'.
Proof.
  intros He' Hmin He Hmax. unfold binary_round.
  assert (Hfexp : fexp prec emax (Zpos (digits2_pos m) + e) = e')
    by (unfold fexp; lia).
  rewrite Hfexp.
  destruct (shl_align_exact m e e' He) as (mz & -> & Hval & Hdig).
  unfold binary_round_aux, shr_fexp.
  cbn [Zdigits2 shr_record_of_loc fst].
  assert (Hf : fexp prec emax (Zpos (digits2_pos mz) + e') - e' = 0)
    by (unfold fexp; lia).
  rewrite Hf. cbn [shr shr_m loc_of_shr_record round_nearest_even Zdigits2
                   shr_record_of_loc].
  rewrite Hf. cbn [shr shr_m].
  destruct (Z.leb_spec e' (emax - prec)); [reflexivity|lia].
Qed.

(** Shifting right the bits that a shift to the left has added gives the
    number back, and nothing is lost. *)
Lemma iter_pos_shr_1 (k m : positive) :
  SpecFloat.iter_pos shr_1 k (Build_shr_record (Zpos (Pos.iter xO m k)) false false)
    = Build_shr_record (Zpos m) false false.
Proof.
  revert m. induction k as [k IH|k IH|]; intros m; cbn [SpecFloat.iter_pos Pos.iter].
  - cbn [shr_1 orb]. rewrite !IH. reflexivity.
  - rewrite !IH. reflexivity.
  - reflexivity.
Qed.

(** A number of the format, written with a smaller exponent, is rounded
    to itself. *)
Lemma binary_round_shl_align (prec emax : Z) (s : bool) (m : positive)
    (e e' : Z) :
  e' <= e -> bounded prec emax m e = true ->
  binary_round prec emax s (fst (shl_align m e e')) e' = S754_finite s m e.
Proof.
  intros He Hb. unfold bounded, canonical_mantissa in Hb.
  apply andb_prop in Hb. destruct Hb as [Hc Hmax].
  apply Z.eqb_eq in Hc. apply Z.leb_le in Hmax.
  destruct (shl_align_exact m e e' He) as (mz & Hmz & Hval & Hdig).
  rewrite Hmz. cbn [fst]. unfold binary_round.
  assert (Hfexp : fexp prec emax (Zpos (digits2_pos mz) + e') = e).
  { rewrite Hdig. replace (_ + (e - e') + e') with (Zpos (digits2_pos m) + e) by lia.
    exact Hc. }
  rewrite Hfexp.
  assert (Hno : shl_align mz e' e = (mz, e')).
  { unfold shl_align. destruct (e - e') eqn:Hd; try reflexivity. lia. }
  rewrite Hno. unfold binary_round_aux, shr_fexp.
  cbn [Zdigits2 shr_record_of_loc]. rewrite Hfexp.
  assert (Hshr : shr (Build_shr_record (Zpos mz) false false) e' (e - e')
                 = (Build_shr_record (Zpos m) false false, e)).
  { unfold shl_align in Hmz. unfold shr.
    destruct (e' - e) as [|d|d] eqn:Hd; [| lia |].
    - injection Hmz as ->. replace (e - e') with 0 by lia.
      f_equal. lia.
    - injection Hmz as <-. replace (e - e') with (Zpos d) by lia.
      rewrite iter_pos_shr_1. f_equal. lia. }
  rewrite Hshr. cbn [shr_m loc_of_shr_record round_nearest_even Zdigits2
                     shr_record_of_loc].
  rewrite Hc, Z.sub_diag. cbn [shr shr_m].
  destruct (Z.leb_spec e (emax - prec)); [reflexivity|lia].
Qed.

End Rounding.

Section Conversions.
Import CInt Napi.

(** An integer of at most 53 bits is a JavaScript number, and its integer
    part is the integer. *)
Lemma truncate_double_of_Z (z : Z) :
  - 2 ^ 53 < z < 2 ^ 53 -> truncate (double_of_Z z) = Some z.
Proof.
  intros Hz. unfold double_of_Z, binary_normalize.
  assert (Hpos : forall (s : bool) (m : positive),
            Zpos m < 2 ^ 53 ->
            truncate (binary_round 53 1024 s m 0)
              = Some (if s then - Zpos m else Zpos m)).
  { intros s m Hm.
    pose proof (digits2_pos_bounds m) as [Hlo Hhi].
    assert (Hd : Zpos (digits2_pos m) <= 53).
    { destruct (Z.le_gt_cases (Zpos (digits2_pos m)) 53) as [|Hgt]; [assumption|].
      assert (2 ^ 53 <= 2 ^ (Zpos (digits2_pos m) - 1))
        by (apply Z.pow_le_mono_r; lia).
      lia. }
    set (e' := Zpos (digits2_pos m) + 0 - 53).
    rewrite (binary_round_exact 53 1024 s m 0 e') by (unfold emin, e'; lia).
    destruct (shl_align_exact m 0 e') as (mz & Hmz & Hval & _);
      [unfold e'; lia|].
    rewrite Hmz. cbn [fst truncate].
    destruct e' as [|p|p] eqn:He'; [| lia |].
    - rewrite Z.pow_0_r, Z.mul_1_r, Hval. change (0 - 0) with 0.
      rewrite Z.pow_0_r, Z.mul_1_r. reflexivity.
    - rewrite Hval. replace (0 - Zneg p) with (Zpos p) by lia.
      rewrite Z.div_mul by (apply Z.pow_nonzero; lia). reflexivity. }
  destruct z as [|m|m].
  - reflexivity.
  - apply (Hpos false). lia.
  - rewrite (Hpos true) by lia. reflexivity.
Qed.

Lemma Int64Value_double_of_Z (z : Z) :
  - 2 ^ 53 < z < 2 ^ 53 -> Int64Value (Number (double_of_Z z)) = Returned z.
Proof.
  intros Hz. unfold Int64Value. cbn [As_Number mbind JsResult_bind].
  rewrite truncate_double_of_Z by assumption. change (default 0 (Some z)) with z.
  destruct (Z.ltb_spec z (- 2 ^ 63)); [lia|].
  destruct (Z.leb_spec (2 ^ 63) z); [lia|]. reflexivity.
Qed.

Lemma Uint32Value_double_of_Z (z : Z) :
  0 <= z < 2 ^ 32 -> Uint32Value (Number (double_of_Z z)) = Returned z.
Proof.
  intros Hz. unfold Uint32Value. cbn [As_Number mbind JsResult_bind].
  rewrite truncate_double_of_Z by lia. change (default 0 (Some z)) with z.
  unfold to_u32. rewrite Z.mod_small by lia. reflexivity.
Qed.

Lemma Int32Value_double_of_Z (z : Z) :
  - 2 ^ 31 <= z < 2 ^ 31 -> Int32Value (Number (double_of_Z z)) = Returned z.
Proof.
  intros Hz. unfold Int32Value. cbn [As_Number mbind JsResult_bind].
  rewrite truncate_double_of_Z by lia. change (default 0 (Some z)) with z.
  rewrite to_i32_small by lia. reflexivity.
Qed.

(** An integer of at most 24 bits is a [float], and the [float] is the
    same JavaScript number as the integer. *)
Lemma double_of_float_of_Z (z : Z) :
  - 2 ^ 24 < z < 2 ^ 24 -> double_of_float (float_of_Z z) = double_of_Z z.
Proof.
  intros Hz. unfold float_of_Z, double_of_Z, binary_normalize.
  assert (Hpos : forall (s : bool) (m : positive),
            Zpos m < 2 ^ 24 ->
            double_of_float (binary_round 24 128 s m 0)
              = binary_round 53 1024 s m 0).
  { intros s m Hm.
    pose proof (digits2_pos_bounds m) as [Hlo Hhi].
    assert (Hd : Zpos (digits2_pos m) <= 24).
    { destruct (Z.le_gt_cases (Zpos (digits2_pos m)) 24) as [|Hgt]; [assumption|].
      assert (2 ^ 24 <= 2 ^ (Zpos (digits2_pos m) - 1))
        by (apply Z.pow_le_mono_r; lia).
      lia. }
    set (e1 := Zpos (digits2_pos m) + 0 - 24).
    set (e2 := Zpos (digits2_pos m) + 0 - 53).
    rewrite (binary_round_exact 24 128 s m 0 e1) by (unfold emin, e1; lia).
    rewrite (binary_round_exact 53 1024 s m 0 e2) by (unfold emin, e2; lia).
    destruct (shl_align_exact m 0 e1) as (m1 & Hm1 & Hv1 & Hd1);
      [unfold e1; lia|].
    destruct (shl_align_exact m 0 e2) as (m2 & Hm2 & Hv2 & Hd2);
      [unfold e2; lia|].
    rewrite Hm1, Hm2. cbn [fst double_of_float].
    rewrite (binary_round_exact 53 1024 s m1 e1 e2)
      by (unfold emin, e1, e2 in *; lia).
    destruct (shl_align_exact m1 e1 e2) as (m3 & Hm3 & Hv3 & _);
      [unfold e1, e2; lia|].
    rewrite Hm3. cbn [fst]. f_equal.
    apply Pos2Z.inj. rewrite Hv3, Hv1, Hv2, <- Z.mul_assoc.
    rewrite <- Z.pow_add_r by (unfold e1, e2; lia).
    f_equal. f_equal. lia. }
  destruct z as [|m|m].
  - reflexivity.
  - apply (Hpos false). lia.
  - apply (Hpos true). lia.
Qed.

(** A [float] is a JavaScript number, and that number narrowed is the
    [float]. *)
Lemma float_of_double_of_float (f : spec_float) :
  valid_binary 24 128 f = true -> float_of_double (double_of_float f) = f.
Proof.
  destruct f as [s|s| |s m e]; try reflexivity.
  cbn [valid_binary double_of_float]. intros Hb.
  pose proof Hb as Hb'. unfold bounded, canonical_mantissa in Hb'.
  apply andb_prop in Hb'. destruct Hb' as [Hc Hmax].
  apply Z.eqb_eq in Hc. apply Z.leb_le in Hmax.
  unfold fexp, emin in Hc.
  pose proof (Pos2Z.is_pos (digits2_pos m)) as Hd.
  set (e' := Zpos (digits2_pos m) + e - 53).
  rewrite (binary_round_exact 53 1024 s m e e') by (unfold emin, e'; lia).
  cbn [float_of_double].
  apply binary_round_shl_align; [unfold e'; lia | exact Hb].
Qed.

End Conversions.

(** ** Labels and sizes across the boundary *)

Section Labels.
Context {En : Enums} {Eng : Engine} {Upd : Updates}.
Import CInt Napi IndexWrapper IndexWrapper.Methods.

Lemma size_t_option_double_of_Z (z : Z) :
  0 <= z < 2 ^ 53 -> size_t_option (Number (double_of_Z z)) = Returned z.
Proof.
  intros Hz. unfold size_t_option.
  rewrite Int64Value_double_of_Z by lia. cbn [mbind JsResult_bind].
  rewrite to_u64_small by lia. reflexivity.
Qed.

Lemma size_t_option_negative (z : Z) :
  - 2 ^ 53 < z < 0 ->
  size_t_option (Number (double_of_Z z)) = Returned (2 ^ 64 + z).
Proof.
  intros Hz. unfold size_t_option.
  rewrite Int64Value_double_of_Z by lia. cbn [mbind JsResult_bind].
  f_equal. unfold to_u64.
  replace z with (2 ^ 64 + z + (-1) * 2 ^ 64) at 1 by lia.
  rewrite Z.mod_add by lia. apply Z.mod_small. lia.
Qed.

Lemma size_t_arg_Number (d : spec_float) (rest : list Value)
    (missing : string) :
  size_t_arg (Number d :: rest) missing = size_t_option (Number d).
Proof. unfold size_t_arg. now rewrite Length_cons. Qed.

Lemma size_t_arg_not_Number (info : list Value) (missing : string) :
  IsNumber (arg info 0) = false ->
  size_t_arg info missing = Thrown JsTypeError missing.
Proof.
  intros H. unfold size_t_arg. rewrite H.
  now rewrite orb_true_r.
Qed.

Lemma mapM_size_t_option (ids : list Z) :
  Forall (fun id => 0 <= id < 2 ^ 53) ids ->
  mapM size_t_option ((fun id => Number (double_of_Z id)) <$> ids)
    = Returned ids.
Proof.
  induction 1 as [|id ids Hid _ IH]; [reflexivity|].
  cbn [fmap list_fmap mapM]. rewrite size_t_option_double_of_Z by assumption.
  cbn [mbind JsResult_bind]. rewrite IH. reflexivity.
Qed.

End Labels.

(** X8. The numbers [ids] hands out name their points. For an index all
    of whose labels are below [2^53], the [i]-th number of [ids] is read
    back by [getVector] and [has] as the [i]-th label of the engine, and
    [getVectors] given the whole array asks the engine for exactly its
    labels. *)
Theorem ids_round_trip {En : Enums} {Eng : Engine} {Upd : Updates}
    (self : IndexWrapper.t) (info : list Napi.Value) (ids : list Z) :
  Index_getIDs (IndexWrapper.index_ self) = Ok ids ->
  Forall (fun id => 0 <= id < 2 ^ 53) ids ->
  exists values,
    IndexWrapper.GetIds self info = Returned (Napi.Array values) /\
    length values = length ids /\
    (forall i id v,
       ids !! i = Some id -> values !! i = Some v ->
       IndexWrapper.GetVector self [v] =
         (vector ← try_engine
                     (Index_getVector (IndexWrapper.index_ self) id);
          Returned (IndexWrapper.VectorToArray vector)) /\
       IndexWrapper.Methods.Has self [v] =
         (map ← try_engine (Index_getIDsMap (IndexWrapper.index_ self));
          Returned (Napi.Boolean (bool_decide (is_Some (map !! id)))))) /\
    IndexWrapper.Methods.GetVectors self [Napi.Array values] =
      (vectors ← try_engine
                   (Index_getVectors (IndexWrapper.index_ self) ids);
       Returned (IndexWrapper.Methods.rows_of vectors)).
Proof.
  intros Hids Hsmall.
  exists ((fun id => Napi.Number (Napi.double_of_Z id)) <$> ids).
  split; [|split; [|split]].
  - unfold IndexWrapper.GetIds. rewrite Hids. reflexivity.
  - apply length_fmap.
  - intros i id v Hi Hv. rewrite list_lookup_fmap, Hi in Hv.
    injection Hv as <-.
    assert (Hid : 0 <= id < 2 ^ 53).
    { rewrite Forall_lookup in Hsmall. exact (Hsmall i id Hi). }
    split.
    + unfold IndexWrapper.GetVector.
      rewrite Length_cons.
      change (Napi.arg [?v] 0) with v. cbn [Napi.IsNumber negb orb].
      rewrite size_t_option_double_of_Z by assumption. reflexivity.
    + unfold IndexWrapper.Methods.Has.
      rewrite size_t_arg_Number, size_t_option_double_of_Z by assumption.
      reflexivity.
  - unfold IndexWrapper.Methods.GetVectors.
    rewrite Length_cons.
    change (Napi.arg [Napi.Array ?l] 0) with (Napi.Array l).
    cbn [Napi.IsArray negb orb IndexWrapper.elems_of].
    rewrite mapM_size_t_option by assumption. reflexivity.
Qed.

Lemma ids_round_trip_witness :
  exists values,
    IndexWrapper.GetIds ExampleUpdates.wrapper []
      = Returned (Napi.Array values) /\
    length values = 2%nat /\
    (forall i id v,
       [16777217; 7] !! i = Some id -> values !! i = Some v ->
       IndexWrapper.GetVector ExampleUpdates.wrapper [v] =
         (vector ← try_engine (SpecModel.getVector Example.index id);
          Returned (IndexWrapper.VectorToArray vector)) /\
       IndexWrapper.Methods.Has (Upd := ExampleUpdates.updates)
           ExampleUpdates.wrapper [v] =
         (map ← try_engine (StandIn.getIDsMap Example.index);
          Returned (Napi.Boolean (bool_decide (is_Some (map !! id)))))) /\
    IndexWrapper.Methods.GetVectors (Upd := ExampleUpdates.updates)
        ExampleUpdates.wrapper [Napi.Array values] =
      (vectors ← try_engine
                   (StandIn.getVectors Example.index [16777217; 7]);
       Returned (IndexWrapper.Methods.rows_of vectors)).
Proof.
  apply (ids_round_trip (Upd := ExampleUpdates.updates)
           ExampleUpdates.wrapper [] [16777217; 7]).
  - reflexivity.
  - repeat constructor; lia.
Defined.

(** X9. The label [addItem] returns names the new point. When the engine
    assigns a label below [2^53], the number [addItem] returns is read by
    [markDeleted], [unmarkDeleted] and [getVector], called on the index
    as [addItem] left it, as that label. *)
Theorem addItem_label_round_trip {En : Enums} {Eng : Engine} {Upd : Updates}
    (self : IndexWrapper.t) (elems : list Napi.Value)
    (vector : list spec_float) (id : Z) (index' : Index) :
  IndexWrapper.ArrayToVector (Napi.Array elems) = Returned vector ->
  Index_addItem (IndexWrapper.index_ self) vector None = (Ok id, index') ->
  0 <= id < 2 ^ 53 ->
  exists v,
    let self' := IndexWrapper.Build index' in
    IndexWrapper.Methods.AddItem self [Napi.Array elems]
      = (Returned v, self') /\
    IndexWrapper.Methods.MarkDeleted self' [v] =
      IndexWrapper.Methods.try_update (Index_markDeleted index' id)
        (fun _ => Napi.Undefined) /\
    IndexWrapper.Methods.UnmarkDeleted self' [v] =
      IndexWrapper.Methods.try_update (Index_unmarkDeleted index' id)
        (fun _ => Napi.Undefined) /\
    IndexWrapper.GetVector self' [v] =
      (vector' ← try_engine (Index_getVector index' id);
       Returned (IndexWrapper.VectorToArray vector')).
Proof.
  intros Hvector Hadd Hid. exists (Napi.Number (Napi.double_of_Z id)).
  cbn zeta. split; [|split; [|split]].
  - unfold IndexWrapper.Methods.AddItem,
      IndexWrapper.Methods.read_AddItemArgs.
    rewrite Length_cons.
    change (Napi.arg [?v] 0) with v. cbn [Napi.IsArray negb orb].
    rewrite Hvector. cbn [mbind JsResult_bind].
    change (2 <=? Napi.Length [Napi.Array elems]) with false.
    cbn [andb mbind JsResult_bind IndexWrapper.Methods.before_engine].
    unfold IndexWrapper.Methods.try_update. rewrite Hadd. reflexivity.
  - unfold IndexWrapper.Methods.MarkDeleted.
    rewrite size_t_arg_Number, size_t_option_double_of_Z by assumption.
    reflexivity.
  - unfold IndexWrapper.Methods.UnmarkDeleted.
    rewrite size_t_arg_Number, size_t_option_double_of_Z by assumption.
    reflexivity.
  - unfold IndexWrapper.GetVector. rewrite Length_cons.
    change (Napi.arg [?v] 0) with v. cbn [Napi.IsNumber negb orb].
    rewrite size_t_option_double_of_Z by assumption. reflexivity.
Qed.

Lemma addItem_label_round_trip_witness :
  exists v,
    let self' :=
      IndexWrapper.Build (Eng := Example.engine)
        ExampleUpdates.index_after_addItem in
    IndexWrapper.Methods.AddItem (Upd := ExampleUpdates.updates)
        ExampleUpdates.wrapper [Example.query_vector]
      = (Returned v, self') /\
    IndexWrapper.Methods.MarkDeleted (Upd := ExampleUpdates.updates)
        self' [v] =
      IndexWrapper.Methods.try_update (Eng := Example.engine)
        (StandIn.markDeleted ExampleUpdates.index_after_addItem 2)
        (fun _ => Napi.Undefined) /\
    IndexWrapper.Methods.UnmarkDeleted (Upd := ExampleUpdates.updates)
        self' [v] =
      IndexWrapper.Methods.try_update (Eng := Example.engine)
        (StandIn.unmarkDeleted ExampleUpdates.index_after_addItem 2)
        (fun _ => Napi.Undefined) /\
    IndexWrapper.GetVector self' [v] =
      (vector' ← try_engine
                   (SpecModel.getVector ExampleUpdates.index_after_addItem 2);
       Returned (IndexWrapper.VectorToArray vector')).
Proof.
  apply (addItem_label_round_trip (Upd := ExampleUpdates.updates)
           ExampleUpdates.wrapper
           [Example.number 1; Example.number 0]
           [Napi.float_of_Z 1; Napi.float_of_Z 0] 2
           ExampleUpdates.index_after_addItem).
  - reflexivity.
  - reflexivity.
  - lia.
Defined.

(** X10. What [resize] asks of the engine. A non-negative integer below
    [2^53] is the new size as it stands; a negative integer [z] arrives
    as [2^64 + z], since the signed number is stored in a [size_t]; and
    [NaN] and the infinities arrive as [0]. *)
Theorem Resize_size {En : Enums} {Eng : Engine} {Upd : Updates}
    (self : IndexWrapper.t) :
  let resized (size : Z) :=
    IndexWrapper.Methods.try_update
      (Index_resizeIndex (IndexWrapper.index_ self) size)
      (fun _ => Napi.Undefined) in
  (forall z, 0 <= z < 2 ^ 53 ->
     IndexWrapper.Methods.Resize self [Napi.Number (Napi.double_of_Z z)]
       = resized z) /\
  (forall z, - 2 ^ 53 < z < 0 ->
     IndexWrapper.Methods.Resize self [Napi.Number (Napi.double_of_Z z)]
       = resized (2 ^ 64 + z)) /\
  (forall d,
     d = S754_nan \/ d = S754_infinity false \/ d = S754_infinity true ->
     IndexWrapper.Methods.Resize self [Napi.Number d] = resized 0).
Proof.
  intros resized. unfold IndexWrapper.Methods.Resize.
  split; [|split].
  - intros z Hz.
    rewrite size_t_arg_Number, size_t_option_double_of_Z by assumption.
    reflexivity.
  - intros z Hz.
    rewrite size_t_arg_Number, size_t_option_negative by assumption.
    reflexivity.
  - intros d [-> | [-> | ->]]; rewrite size_t_arg_Number; reflexivity.
Qed.

Lemma Resize_size_witness :
  IndexWrapper.Methods.Resize (Upd := ExampleUpdates.updates)
      ExampleUpdates.wrapper [Example.number 5] =
    (Returned Napi.Undefined,
     IndexWrapper.Build (Eng := Example.engine)
       (StandIn.with_maxElements Example.index 5)) /\
  IndexWrapper.Methods.Resize (Upd := ExampleUpdates.updates)
      ExampleUpdates.wrapper [Example.number (-1)] =
    (Returned Napi.Undefined,
     IndexWrapper.Build (Eng := Example.engine)
       (StandIn.with_maxElements Example.index (2 ^ 64 - 1))) /\
  IndexWrapper.Methods.Resize (Upd := ExampleUpdates.updates)
      ExampleUpdates.wrapper [Napi.Number S754_nan] =
    (Thrown JsError "Cannot shrink below the number of points.",
     ExampleUpdates.wrapper).
Proof.
  pose proof (Resize_size (Upd := ExampleUpdates.updates)
                ExampleUpdates.wrapper) as (Hpos & Hneg & Hnan).
  split; [|split].
  - etransitivity; [apply (Hpos 5); lia | reflexivity].
  - etransitivity; [apply (Hneg (-1)); lia | reflexivity].
  - etransitivity; [apply (Hnan S754_nan); left; reflexivity | reflexivity].
Defined.

(** X11. Setting [maxElements] is [resize] by another door. With a
    number, the setter and the method make the same call of the engine
    and leave the same index, and one throws what the other throws;
    with anything else, each throws its own [TypeError] and leaves the
    index alone. [ef] is read the same way. *)
Theorem SetMaxElements_is_Resize {En : Enums} {Eng : Engine} {Upd : Updates}
    (self : IndexWrapper.t) (info : list Napi.Value) (value : Napi.Value) :
  (Napi.IsNumber value = true ->
   snd (IndexWrapper.Methods.SetMaxElements self info value)
     = snd (IndexWrapper.Methods.Resize self [value]) /\
   fst (IndexWrapper.Methods.Resize self [value])
     = (_ ← fst (IndexWrapper.Methods.SetMaxElements self info value);
        Returned Napi.Undefined) /\
   exists size,
     IndexWrapper.size_t_option value = Returned size /\
     IndexWrapper.Methods.SetMaxElements self info value =
       IndexWrapper.Methods.try_update
         (Index_resizeIndex (IndexWrapper.index_ self) size) (fun _ => ()) /\
     IndexWrapper.Methods.SetEf self info value =
       IndexWrapper.Methods.try_update
         (Index_setEF (IndexWrapper.index_ self) size) (fun _ => ())) /\
  (Napi.IsNumber value = false ->
   IndexWrapper.Methods.SetMaxElements self info value
     = (Thrown JsTypeError "maxElements must be set to a number", self) /\
   IndexWrapper.Methods.SetEf self info value
     = (Thrown JsTypeError "ef must be set to a number", self) /\
   IndexWrapper.Methods.Resize self [value]
     = (Thrown JsTypeError
          "resize() missing required argument: 'newSize' (a number)",
        self)).
Proof.
  split.
  - intros Hnum. destruct value as [| | |d| | | | |]; try discriminate.
    unfold IndexWrapper.Methods.SetMaxElements, IndexWrapper.Methods.Resize,
      IndexWrapper.Methods.SetEf, IndexWrapper.Methods.size_t_value.
    rewrite size_t_arg_Number. cbn [Napi.IsNumber negb].
    destruct (Int64Value_Number d) as [z Hz].
    assert (Hsize : IndexWrapper.size_t_option (Napi.Number d)
                    = Returned (CInt.to_u64 z)).
    { unfold IndexWrapper.size_t_option. rewrite Hz. reflexivity. }
    rewrite Hsize. cbn [IndexWrapper.Methods.before_engine].
    unfold IndexWrapper.Methods.try_update. cbn [fst snd].
    split; [reflexivity|]. split.
    + destruct (fst (Index_resizeIndex (IndexWrapper.index_ self)
                       (CInt.to_u64 z))); reflexivity.
    + exists (CInt.to_u64 z). repeat split.
  - intros Hnum.
    unfold IndexWrapper.Methods.SetMaxElements, IndexWrapper.Methods.Resize,
      IndexWrapper.Methods.SetEf, IndexWrapper.Methods.size_t_value.
    rewrite size_t_arg_not_Number by exact Hnum. rewrite Hnum.
    repeat split.
Qed.

Lemma SetMaxElements_is_Resize_witness :
  IndexWrapper.Methods.SetMaxElements (Upd := ExampleUpdates.updates)
      ExampleUpdates.wrapper [] (Example.number 5) =
    (Returned (),
     IndexWrapper.Build (Eng := Example.engine)
       (StandIn.with_maxElements Example.index 5)) /\
  IndexWrapper.Methods.SetMaxElements (Upd := ExampleUpdates.updates)
      ExampleUpdates.wrapper [] (Napi.String "5") =
    (Thrown JsTypeError "maxElements must be set to a number",
     ExampleUpdates.wrapper).
Proof.
  pose proof (SetMaxElements_is_Resize (Upd := ExampleUpdates.updates)
                ExampleUpdates.wrapper [] (Example.number 5)) as [Hnum _].
  pose proof (SetMaxElements_is_Resize (Upd := ExampleUpdates.updates)
                ExampleUpdates.wrapper [] (Napi.String "5")) as [_ Hnot].
  split.
  - destruct (Hnum eq_refl) as (_ & _ & size & Hsize & Hset & _).
    etransitivity; [exact Hset|].
    assert (Hfive : IndexWrapper.size_t_option (Example.number 5)
                    = Returned 5)
      by (apply (size_t_option_double_of_Z 5); lia).
    rewrite Hfive in Hsize. injection Hsize as <-. reflexivity.
  - destruct (Hnot eq_refl) as (Hset & _). exact Hset.
Defined.

(** ** Vectors across the boundary *)

Section Vectors.
Context {En : Enums} {Eng : Engine}.
Import Napi IndexWrapper.

Lemma FloatValue_Number (d : spec_float) :
  FloatValue (Number d) = Returned (float_of_double d).
Proof. reflexivity. Qed.

Lemma FloatValue_not_Number (v : Value) :
  IsNumber v = false ->
  FloatValue v = Thrown JsTypeError "A number was expected".
Proof. destruct v; try reflexivity. discriminate. Qed.

(** [mapM] stops at the first element that throws. *)
Lemma mapM_Thrown {A B} (f : A -> JsResult B) (good : list A) (bad : A)
    (rest : list A) (found : list B) kind message :
  mapM f good = Returned found ->
  f bad = Thrown kind message ->
  mapM f (good ++ bad :: rest) = Thrown kind message.
Proof.
  revert found. induction good as [|a good IH]; intros found Hgood Hbad.
  - cbn [app mapM]. rewrite Hbad. reflexivity.
  - cbn [app mapM] in *. destruct (f a) as [b|k m]; [|discriminate].
    cbn [mbind JsResult_bind] in *.
    destruct (mapM f good) as [found'|k m] eqn:E; [|discriminate].
    rewrite (IH found' eq_refl Hbad). reflexivity.
Qed.

Lemma mapM_Returned_length {A B} (f : A -> JsResult B) (l : list A)
    (found : list B) :
  mapM f l = Returned found -> length found = length l.
Proof.
  revert found. induction l as [|a l IH]; intros found H; cbn [mapM] in H.
  - injection H as <-. reflexivity.
  - destruct (f a) as [b|k m]; [|discriminate].
    cbn [mbind JsResult_bind] in H.
    destruct (mapM f l) as [found'|k m]; [|discriminate].
    injection H as <-. cbn [length]. now rewrite (IH found' eq_refl).
Qed.

Lemma mapM_fmap_Returned {A B C} (f : A -> JsResult B) (g : C -> A)
    (h : C -> B) (l : list C) :
  (forall c, f (g c) = Returned (h c)) ->
  mapM f (g <$> l) = Returned (h <$> l).
Proof.
  intros H. induction l as [|c l IH]; [reflexivity|].
  cbn [fmap list_fmap mapM]. rewrite H. cbn [mbind JsResult_bind].
  fold (fmap g l). rewrite IH. reflexivity.
Qed.

Lemma ArrayToVector_Numbers (ds : list spec_float) :
  ArrayToVector (Array (Number <$> ds)) = Returned (float_of_double <$> ds).
Proof. apply mapM_fmap_Returned. intros d. reflexivity. Qed.

Lemma ArrayToVector_not_Number (elems : list Value) (v : Value) :
  v ∈ elems -> IsNumber v = false ->
  ArrayToVector (Array elems) = Thrown JsTypeError "A number was expected".
Proof.
  intros Hin Hv. unfold ArrayToVector. cbn [elems_of].
  induction elems as [|a elems IH]; [inversion Hin|].
  cbn [mapM]. destruct (IsNumber a) eqn:Ha.
  - destruct a; try discriminate. rewrite FloatValue_Number.
    cbn [mbind JsResult_bind]. rewrite IH; [reflexivity|].
    apply elem_of_cons in Hin. destruct Hin as [->|Hin]; [discriminate|].
    exact Hin.
  - rewrite (FloatValue_not_Number a Ha). reflexivity.
Qed.

Lemma ArrayToVector_Returned (elems : list Value) (vec : list spec_float) :
  ArrayToVector (Array elems) = Returned vec ->
  exists ds, elems = Number <$> ds /\ vec = float_of_double <$> ds.
Proof.
  unfold ArrayToVector. cbn [elems_of]. revert vec.
  induction elems as [|a elems IH]; intros vec H; cbn [mapM] in H.
  - injection H as <-. exists []. split; reflexivity.
  - destruct a as [| | |d| | | | |]; try discriminate.
    rewrite FloatValue_Number in H. cbn [mbind JsResult_bind] in H.
    destruct (mapM FloatValue elems) as [vec'|k m]; [|discriminate].
    injection H as <-. destruct (IH vec' eq_refl) as (ds & -> & ->).
    exists (d :: ds). split; reflexivity.
Qed.

Lemma ArrayToVector_VectorToArray (vec : list spec_float) :
  Forall (fun f => valid_binary 24 128 f = true) vec ->
  ArrayToVector (VectorToArray vec) = Returned vec.
Proof.
  intros Hvalid. unfold VectorToArray.
  rewrite (list_fmap_compose double_of_float Number vec
           : (fun f => Number (double_of_float f)) <$> vec
             = Number <$> (double_of_float <$> vec)).
  rewrite ArrayToVector_Numbers, <- list_fmap_compose.
  f_equal. induction Hvalid as [|f vec Hf _ IH]; [reflexivity|].
  cbn [fmap list_fmap compose]. rewrite float_of_double_of_float by exact Hf.
  f_equal. exact IH.
Qed.

End Vectors.

(** X12. What [ArrayToVector] makes of an array. An array of numbers
    becomes the vector of these numbers narrowed to [float], one for one
    and in order; an array with anything else in it makes the conversion
    throw the [TypeError] of the number accessor, and nothing but an array
    of numbers converts. *)
Theorem ArrayToVector_spec (elems : list Napi.Value) :
  (forall ds, elems = Napi.Number <$> ds ->
     IndexWrapper.ArrayToVector (Napi.Array elems)
       = Returned (Napi.float_of_double <$> ds)) /\
  (forall v, v ∈ elems -> Napi.IsNumber v = false ->
     IndexWrapper.ArrayToVector (Napi.Array elems)
       = Thrown JsTypeError "A number was expected") /\
  (forall vec,
     IndexWrapper.ArrayToVector (Napi.Array elems) = Returned vec ->
     length vec = length elems /\
     forall i v, elems !! i = Some v ->
       exists d, v = Napi.Number d /\
                 vec !! i = Some (Napi.float_of_double d)).
Proof.
  split; [|split].
  - intros ds ->. apply ArrayToVector_Numbers.
  - intros v. apply ArrayToVector_not_Number.
  - intros vec H. destruct (ArrayToVector_Returned elems vec H)
      as (ds & -> & ->).
    split; [now rewrite !length_fmap|].
    intros i v Hi. rewrite list_lookup_fmap in Hi.
    destruct (ds !! i) as [d|] eqn:Hd; [|discriminate].
    injection Hi as <-. exists d. split; [reflexivity|].
    now rewrite list_lookup_fmap, Hd.
Qed.

Lemma ArrayToVector_spec_witness :
  IndexWrapper.ArrayToVector Example.query_vector
    = Returned [Napi.float_of_Z 1; Napi.float_of_Z 0] /\
  IndexWrapper.ArrayToVector
      (Napi.Array [Example.number 1; Napi.String "0"])
    = Thrown JsTypeError "A number was expected".
Proof.
  split.
  - apply (proj1 (ArrayToVector_spec
                    [Example.number 1; Example.number 0])
             [Napi.double_of_Z 1; Napi.double_of_Z 0]).
    reflexivity.
  - apply (proj1 (proj2 (ArrayToVector_spec
                           [Example.number 1; Napi.String "0"]))
             (Napi.String "0")).
    + apply elem_of_cons. right. apply elem_of_cons. left. reflexivity.
    + reflexivity.
Defined.

(** X13. A vector survives the round trip. Every [float] is a JavaScript
    number, so an array made by [VectorToArray] converts back with
    [ArrayToVector] to the vector it was made from: what [getVector]
    returns can be handed to [addItem] or [query] as it is. *)
Theorem vector_round_trip (vec : list spec_float) :
  Forall (fun f => valid_binary 24 128 f = true) vec ->
  IndexWrapper.ArrayToVector (IndexWrapper.VectorToArray vec) = Returned vec /\
  length (IndexWrapper.elems_of (IndexWrapper.VectorToArray vec))
    = length vec.
Proof.
  intros Hvalid. split; [now apply ArrayToVector_VectorToArray|].
  unfold IndexWrapper.VectorToArray. cbn [IndexWrapper.elems_of].
  apply length_fmap.
Qed.

Lemma vector_round_trip_witness :
  IndexWrapper.ArrayToVector
    (IndexWrapper.VectorToArray
       [Napi.float_of_Z 1; S754_finite true 13421773 (-27); S754_nan;
        S754_infinity false; S754_finite false 1 (-149)])
  = Returned [Napi.float_of_Z 1; S754_finite true 13421773 (-27); S754_nan;
              S754_infinity false; S754_finite false 1 (-149)].
Proof.
  refine (proj1 (vector_round_trip
                   [Napi.float_of_Z 1; S754_finite true 13421773 (-27);
                    S754_nan; S754_infinity false;
                    S754_finite false 1 (-149)] _)).
  repeat constructor.
Defined.

(** ** The methods that change the index *)

Section Updates.
Context {En : Enums} {Eng : Engine} {Upd : Updates}.
Import CInt Napi IndexWrapper IndexWrapper.Methods.

(** An engine call inside [try] never ends in a [TypeError]. *)
Lemma try_update_not_TypeError {A B} (r : outcome A * Index)
    (value : A -> B) (message : string) :
  fst (try_update r value) <> Thrown JsTypeError message.
Proof.
  unfold try_update. cbn [fst]. destruct (fst r); discriminate.
Qed.

Lemma before_engine_TypeError {A B C} (self : t) (r : JsResult A)
    (call : A -> outcome B * Index) (value : A -> B -> C)
    (message : string) :
  fst (before_engine self r (fun a => try_update (call a) (value a)))
    = Thrown JsTypeError message ->
  snd (before_engine self r (fun a => try_update (call a) (value a)))
    = self.
Proof.
  destruct r as [a|kind m]; cbn [before_engine]; [|reflexivity].
  intros H. now apply try_update_not_TypeError in H.
Qed.

Lemma read_AddItemArgs_Array (elems : list Value) (rest : list Value) :
  read_AddItemArgs (Array elems :: rest) =
    (vector ← ArrayToVector (Array elems);
     id ← (if IsNumber (arg (Array elems :: rest) 1)
           then z ← size_t_option (arg (Array elems :: rest) 1);
                Returned (Some z)
           else Returned None);
     Returned (vector, id)).
Proof.
  unfold read_AddItemArgs. rewrite Length_cons.
  change (arg (Array elems :: rest) 0) with (Array elems).
  cbn [IsArray negb orb].
  destruct (ArrayToVector (Array elems)) as [vector|]; [|reflexivity].
  cbn [mbind JsResult_bind].
  destruct (2 <=? Length (Array elems :: rest)) eqn:Hlen; [reflexivity|].
  rewrite arg_past_the_end; [reflexivity|].
  apply Z.leb_gt in Hlen. unfold Length in Hlen. lia.
Qed.

End Updates.

(** X14. A [TypeError] means the index was not touched. Whatever the
    arguments, when one of the methods that change the index throws a
    [TypeError], the wrapper holds the index it held before the call: the
    arguments are checked before the engine is called, and what the
    engine throws is rethrown as a plain [Error]. *)
Theorem TypeError_leaves_index {En : Enums} {Eng : Engine} {Upd : Updates}
    (self : IndexWrapper.t) (info : list Napi.Value) (value : Napi.Value)
    (message : string) :
  let untouched {A} (call : JsResult A * IndexWrapper.t) :=
    fst call = Thrown JsTypeError message -> snd call = self in
  untouched (IndexWrapper.Methods.AddItem self info) /\
  untouched (IndexWrapper.Methods.AddItems self info) /\
  untouched (IndexWrapper.Methods.MarkDeleted self info) /\
  untouched (IndexWrapper.Methods.UnmarkDeleted self info) /\
  untouched (IndexWrapper.Methods.Resize self info) /\
  untouched (IndexWrapper.Methods.SetMaxElements self info value) /\
  untouched (IndexWrapper.Methods.SetEf self info value).
Proof.
  intros untouched. unfold untouched.
  repeat split.
  - unfold IndexWrapper.Methods.AddItem.
    destruct (IndexWrapper.Methods.read_AddItemArgs info)
      as [[vector id]|kind m];
      cbn [IndexWrapper.Methods.before_engine]; [|reflexivity].
    intros H. now apply try_update_not_TypeError in H.
  - unfold IndexWrapper.Methods.AddItems.
    destruct (IndexWrapper.Methods.read_AddItemsArgs info)
      as [[[vectors ids] numThreads]|kind m];
      cbn [IndexWrapper.Methods.before_engine]; [|reflexivity].
    intros H. now apply try_update_not_TypeError in H.
  - apply (before_engine_TypeError self _ _ (fun _ _ => Napi.Undefined)).
  - apply (before_engine_TypeError self _ _ (fun _ _ => Napi.Undefined)).
  - apply (before_engine_TypeError self _ _ (fun _ _ => Napi.Undefined)).
  - apply (before_engine_TypeError self _ _ (fun _ _ => ())).
  - apply (before_engine_TypeError self _ _ (fun _ _ => ())).
Qed.

Lemma TypeError_leaves_index_witness :
  IndexWrapper.Methods.AddItem (Upd := ExampleUpdates.updates)
      ExampleUpdates.wrapper
      [Napi.Array [Example.number 1; Napi.String "0"]]
    = (Thrown JsTypeError "A number was expected", ExampleUpdates.wrapper).
Proof.
  pose proof
    (TypeError_leaves_index (Upd := ExampleUpdates.updates)
       ExampleUpdates.wrapper
       [Napi.Array [Example.number 1; Napi.String "0"]] Napi.Undefined
       "A number was expected") as (Hadd & _).
  rewrite (surjective_pairing (IndexWrapper.Methods.AddItem _ _)).
  rewrite (Hadd eq_refl). reflexivity.
Defined.

(** X15. The optional label of [addItem]. With a vector that converts,
    the engine is asked to choose the label whenever the second argument
    is missing or is not a number, whatever else it is; a non-negative
    integer below [2^53] is passed as the label, and a negative one [z]
    as the label [2^64 + z]. The call returns the label the engine
    answers, as a number. *)
Theorem AddItem_optional_id {En : Enums} {Eng : Engine} {Upd : Updates}
    (self : IndexWrapper.t) (elems : list Napi.Value)
    (vector : list spec_float) :
  IndexWrapper.ArrayToVector (Napi.Array elems) = Returned vector ->
  let added (id : option Z) :=
    IndexWrapper.Methods.try_update
      (Index_addItem (IndexWrapper.index_ self) vector id)
      (fun resultId => Napi.Number (Napi.double_of_Z resultId)) in
  (forall rest,
     Napi.IsNumber (Napi.arg (Napi.Array elems :: rest) 1) = false ->
     IndexWrapper.Methods.AddItem self (Napi.Array elems :: rest)
       = added None) /\
  (forall z rest, 0 <= z < 2 ^ 53 ->
     IndexWrapper.Methods.AddItem self
         (Napi.Array elems :: Napi.Number (Napi.double_of_Z z) :: rest)
       = added (Some z)) /\
  (forall z rest, - 2 ^ 53 < z < 0 ->
     IndexWrapper.Methods.AddItem self
         (Napi.Array elems :: Napi.Number (Napi.double_of_Z z) :: rest)
       = added (Some (2 ^ 64 + z))).
Proof.
  intros Hvector added. unfold IndexWrapper.Methods.AddItem.
  split; [|split].
  - intros rest Hrest. rewrite read_AddItemArgs_Array, Hvector, Hrest.
    reflexivity.
  - intros z rest Hz. rewrite read_AddItemArgs_Array, Hvector.
    change (Napi.arg (_ :: ?v :: _) 1) with v.
    cbn [Napi.IsNumber mbind JsResult_bind].
    rewrite size_t_option_double_of_Z by assumption. reflexivity.
  - intros z rest Hz. rewrite read_AddItemArgs_Array, Hvector.
    change (Napi.arg (_ :: ?v :: _) 1) with v.
    cbn [Napi.IsNumber mbind JsResult_bind].
    rewrite size_t_option_negative by assumption. reflexivity.
Qed.

Lemma AddItem_optional_id_witness :
  IndexWrapper.Methods.AddItem (Upd := ExampleUpdates.updates)
      ExampleUpdates.wrapper [Example.query_vector; Napi.String "9"]
    = (Returned (Example.number 2),
       IndexWrapper.Build (Eng := Example.engine)
         ExampleUpdates.index_after_addItem) /\
  fst (IndexWrapper.Methods.AddItem (Upd := ExampleUpdates.updates)
         ExampleUpdates.wrapper [Example.query_vector; Example.number 9])
    = Returned (Example.number 9) /\
  fst (IndexWrapper.Methods.AddItem (Upd := ExampleUpdates.updates)
         ExampleUpdates.wrapper [Example.query_vector; Example.number (-1)])
    = Returned (Example.number (2 ^ 64 - 1)).
Proof.
  pose proof
    (AddItem_optional_id (Upd := ExampleUpdates.updates)
       ExampleUpdates.wrapper [Example.number 1; Example.number 0]
       [Napi.float_of_Z 1; Napi.float_of_Z 0] eq_refl)
    as (Hnone & Hsome & Hneg).
  split; [|split].
  - etransitivity; [apply (Hnone [Napi.String "9"]); reflexivity|].
    reflexivity.
  - etransitivity; [apply f_equal, (Hsome 9 []); lia|]. reflexivity.
  - etransitivity; [apply f_equal, (Hneg (-1) []); lia|]. reflexivity.
Defined.

(** X16. The optional arguments of [addItems]. In every call whose
    vectors convert, the engine receives no labels when the second
    argument is missing or is not an array, and otherwise the elements
    of that array as the label accessor reads them; it receives
    [numThreads = -1] unless the third argument is a number, and then
    what the 32-bit accessor reads from it. Non-negative integers below
    [2^53] are read as the labels they are, and an integer in the range
    of [int] as the thread count it is: so the full call
    [addItems(vectors, ids, n)] hands the engine [vectors], [ids] and
    [n]. *)
Theorem AddItems_arguments {En : Enums} {Eng : Engine} {Upd : Updates}
    (self : IndexWrapper.t) (elems rest : list Napi.Value)
    (vectors : list (list spec_float)) :
  IndexWrapper.Methods.addItems_vectors elems = Returned vectors ->
  let info := Napi.Array elems :: rest in
  let added (ids : list Z) (numThreads : Z) :=
    IndexWrapper.Methods.try_update
      (Index_addItems (IndexWrapper.index_ self) vectors ids numThreads)
      (fun resultIds =>
         Napi.Array
           ((fun id => Napi.Number (Napi.double_of_Z id)) <$> resultIds)) in
  let numbers (ids : list Z) :=
    Napi.Array ((fun id => Napi.Number (Napi.double_of_Z id)) <$> ids) in
  (forall ids numThreads,
     (Napi.IsArray (Napi.arg info 1) = false /\ ids = [] \/
      Napi.IsArray (Napi.arg info 1) = true /\
      mapM IndexWrapper.size_t_option
        (IndexWrapper.elems_of (Napi.arg info 1)) = Returned ids) ->
     (Napi.IsNumber (Napi.arg info 2) = false /\ numThreads = -1 \/
      Napi.IsNumber (Napi.arg info 2) = true /\
      Napi.Int32Value (Napi.arg info 2) = Returned numThreads) ->
     IndexWrapper.Methods.AddItems self info = added ids numThreads) /\
  (forall ids,
     Forall (fun id => 0 <= id < 2 ^ 53) ids ->
     mapM IndexWrapper.size_t_option (IndexWrapper.elems_of (numbers ids))
       = Returned ids) /\
  (forall n,
     - 2 ^ 31 <= n < 2 ^ 31 ->
     Napi.Int32Value (Napi.Number (Napi.double_of_Z n)) = Returned n) /\
  (forall ids n more,
     Forall (fun id => 0 <= id < 2 ^ 53) ids -> - 2 ^ 31 <= n < 2 ^ 31 ->
     IndexWrapper.Methods.AddItems self
         (Napi.Array elems :: numbers ids
            :: Napi.Number (Napi.double_of_Z n) :: more)
       = added ids n) /\
  IndexWrapper.Methods.AddItems self [Napi.Array elems] = added [] (-1).
Proof.
  intros Hvectors info added numbers.
  assert (Hgeneral : forall tail ids numThreads,
    (Napi.IsArray (Napi.arg (Napi.Array elems :: tail) 1) = false /\
     ids = [] \/
     Napi.IsArray (Napi.arg (Napi.Array elems :: tail) 1) = true /\
     mapM IndexWrapper.size_t_option
       (IndexWrapper.elems_of (Napi.arg (Napi.Array elems :: tail) 1))
       = Returned ids) ->
    (Napi.IsNumber (Napi.arg (Napi.Array elems :: tail) 2) = false /\
     numThreads = -1 \/
     Napi.IsNumber (Napi.arg (Napi.Array elems :: tail) 2) = true /\
     Napi.Int32Value (Napi.arg (Napi.Array elems :: tail) 2)
       = Returned numThreads) ->
    IndexWrapper.Methods.AddItems self (Napi.Array elems :: tail)
      = added ids numThreads).
  { intros tail ids numThreads Hids Hthreads.
    unfold IndexWrapper.Methods.AddItems,
      IndexWrapper.Methods.read_AddItemsArgs.
    rewrite Length_cons.
    change (Napi.arg (Napi.Array elems :: tail) 0) with (Napi.Array elems).
    cbn [Napi.IsArray negb orb IndexWrapper.elems_of].
    rewrite Hvectors. cbn [mbind JsResult_bind].
    assert (Hread_ids :
      (if (2 <=? Napi.Length (Napi.Array elems :: tail))
          && Napi.IsArray (Napi.arg (Napi.Array elems :: tail) 1)
       then mapM IndexWrapper.size_t_option
              (IndexWrapper.elems_of (Napi.arg (Napi.Array elems :: tail) 1))
       else Returned []) = Returned ids).
    { destruct Hids as [[Hnot ->] | [Harray Hlabels]].
      - now rewrite Hnot, andb_false_r.
      - rewrite Harray, andb_true_r.
        destruct (2 <=? Napi.Length (Napi.Array elems :: tail)) eqn:Hlen;
          [exact Hlabels|].
        rewrite arg_past_the_end in Harray; [discriminate|].
        apply Z.leb_gt in Hlen. unfold Napi.Length in Hlen. lia. }
    rewrite Hread_ids. cbn [mbind JsResult_bind].
    assert (Hread_threads :
      IndexWrapper.number_arg (Napi.Array elems :: tail) 2
        Napi.Int32Value (-1) = Returned numThreads).
    { unfold IndexWrapper.number_arg.
      destruct Hthreads as [[Hnot ->] | [Hnumber Hvalue]].
      - now rewrite Hnot, andb_false_r.
      - rewrite Hnumber, andb_true_r.
        destruct (Z.of_nat 3 <=? Napi.Length (Napi.Array elems :: tail))
          eqn:Hlen; [exact Hvalue|].
        rewrite arg_past_the_end in Hnumber; [discriminate|].
        apply Z.leb_gt in Hlen. unfold Napi.Length in Hlen. lia. }
    rewrite Hread_threads. reflexivity. }
  split; [exact (Hgeneral rest)|].
  split; [intros ids Hids; now apply mapM_size_t_option|].
  split; [intros n Hn; now apply Int32Value_double_of_Z|].
  split.
  - intros ids n more Hids Hn. apply Hgeneral.
    + right. split; [reflexivity|]. now apply mapM_size_t_option.
    + right. split; [reflexivity|]. now apply Int32Value_double_of_Z.
  - apply Hgeneral; left; split; reflexivity.
Qed.

Lemma AddItems_arguments_witness :
  fst (IndexWrapper.Methods.AddItems (Upd := ExampleUpdates.updates)
         ExampleUpdates.wrapper
         [Napi.Array [Example.query_vector; Example.query_vector]])
    = Returned (Napi.Array [Example.number 2; Example.number 3]) /\
  IndexWrapper.Methods.AddItems (Upd := ExampleUpdates.updates)
      ExampleUpdates.wrapper
      [Napi.Array [Example.query_vector; Example.query_vector];
       Napi.Array [Example.number 40; Example.number 41];
       Example.number 4]
    = IndexWrapper.Methods.try_update (Eng := Example.engine)
        (StandIn.addItems Example.index
           [[Napi.float_of_Z 1; Napi.float_of_Z 0];
            [Napi.float_of_Z 1; Napi.float_of_Z 0]] [40; 41] 4)
        (fun resultIds =>
           Napi.Array
             ((fun id => Napi.Number (Napi.double_of_Z id)) <$> resultIds)) /\
  fst (IndexWrapper.Methods.AddItems (Upd := ExampleUpdates.updates)
         ExampleUpdates.wrapper
         [Napi.Array [Example.query_vector; Example.query_vector];
          Napi.Array [Example.number 40; Example.number 41];
          Example.number 4])
    = Returned (Napi.Array [Example.number 40; Example.number 41]).
Proof.
  pose proof
    (AddItems_arguments (Upd := ExampleUpdates.updates)
       ExampleUpdates.wrapper [Example.query_vector; Example.query_vector]
       [] [[Napi.float_of_Z 1; Napi.float_of_Z 0];
           [Napi.float_of_Z 1; Napi.float_of_Z 0]] eq_refl)
    as (_ & _ & _ & Hfull & Hnone).
  assert (Hcall := Hfull [40; 41] 4 []
                     ltac:(repeat constructor; lia) ltac:(lia)).
  split; [|split].
  - etransitivity; [apply f_equal, Hnone|]. reflexivity.
  - exact Hcall.
  - etransitivity; [apply f_equal, Hcall|]. reflexivity.
Defined.

(** X17. [addItems] checks its vectors one after the other, and before
    its labels. The first element of [vectors] that is not an array of
    numbers decides the [TypeError]: the one about the elements when it
    is not an array, the one of the number accessor when it is an array
    with something else than a number in it. Only when all vectors
    convert can a label that is not a number make the call fail. In each
    case the index is left alone. *)
Theorem AddItems_validation {En : Enums} {Eng : Engine} {Upd : Updates}
    (self : IndexWrapper.t) (good : list Napi.Value)
    (vectors : list (list spec_float)) :
  IndexWrapper.Methods.addItems_vectors good = Returned vectors ->
  (forall bad rest more,
     Napi.IsArray bad = false ->
     IndexWrapper.Methods.AddItems self
         (Napi.Array (good ++ bad :: rest) :: more)
       = (Thrown JsTypeError
            "addItems() expected each element of 'vectors' to be an array",
          self)) /\
  (forall elems v rest more,
     v ∈ elems -> Napi.IsNumber v = false ->
     IndexWrapper.Methods.AddItems self
         (Napi.Array (good ++ Napi.Array elems :: rest) :: more)
       = (Thrown JsTypeError "A number was expected", self)) /\
  (forall ids v more,
     v ∈ ids -> Napi.IsNumber v = false ->
     IndexWrapper.Methods.AddItems self
         (Napi.Array good :: Napi.Array ids :: more)
       = (Thrown JsTypeError "A number was expected", self)).
Proof.
  intros Hgood.
  unfold IndexWrapper.Methods.AddItems,
    IndexWrapper.Methods.read_AddItemsArgs.
  split; [|split].
  - intros bad rest more Hbad. rewrite Length_cons.
    change (Napi.arg (?v :: _) 0) with v.
    cbn [Napi.IsArray negb orb IndexWrapper.elems_of].
    unfold IndexWrapper.Methods.addItems_vectors in *.
    rewrite (mapM_Thrown _ good bad rest vectors JsTypeError
               "addItems() expected each element of 'vectors' to be an array"
               Hgood)
      by (rewrite Hbad; reflexivity).
    reflexivity.
  - intros elems v rest more Hin Hv. rewrite Length_cons.
    change (Napi.arg (?v :: _) 0) with v.
    cbn [Napi.IsArray negb orb IndexWrapper.elems_of].
    unfold IndexWrapper.Methods.addItems_vectors in *.
    rewrite (mapM_Thrown _ good (Napi.Array elems) rest vectors JsTypeError
               "A number was expected" Hgood)
      by (cbn [Napi.IsArray];
          exact (ArrayToVector_not_Number elems v Hin Hv)).
    reflexivity.
  - intros ids v more Hin Hv. rewrite Length_cons.
    change (Napi.arg (?v :: _) 0) with v.
    change (Napi.arg (_ :: ?v :: _) 1) with v.
    cbn [Napi.IsArray negb orb IndexWrapper.elems_of].
    rewrite Hgood. cbn [mbind JsResult_bind].
    assert (Hlen : (2 <=? Napi.Length
                      (Napi.Array good :: Napi.Array ids :: more)) = true).
    { apply Z.leb_le. unfold Napi.Length. cbn [length]. lia. }
    rewrite Hlen. cbn [andb].
    assert (Hids : mapM IndexWrapper.size_t_option ids
                   = Thrown JsTypeError "A number was expected").
    { clear Hlen. induction ids as [|a ids IH]; [inversion Hin|].
      cbn [mapM]. destruct (Napi.IsNumber a) eqn:Ha.
      - destruct a as [| | |d| | | | |]; try discriminate.
        destruct (Int64Value_Number d) as [z Hz].
        assert (Hsize : IndexWrapper.size_t_option (Napi.Number d)
                        = Returned (CInt.to_u64 z))
          by (unfold IndexWrapper.size_t_option; rewrite Hz; reflexivity).
        rewrite Hsize.
        cbn [mbind JsResult_bind]. rewrite IH; [reflexivity|].
        apply elem_of_cons in Hin. destruct Hin as [->|Hin];
          [discriminate | exact Hin].
      - destruct a; try discriminate; reflexivity. }
    rewrite Hids. reflexivity.
Qed.

Lemma AddItems_validation_witness :
  IndexWrapper.Methods.AddItems (Upd := ExampleUpdates.updates)
      ExampleUpdates.wrapper
      [Napi.Array [Example.query_vector; Example.number 1];
       Napi.Array [Napi.String "a"]]
    = (Thrown JsTypeError
         "addItems() expected each element of 'vectors' to be an array",
       ExampleUpdates.wrapper) /\
  IndexWrapper.Methods.AddItems (Upd := ExampleUpdates.updates)
      ExampleUpdates.wrapper
      [Napi.Array [Example.query_vector]; Napi.Array [Napi.String "a"]]
    = (Thrown JsTypeError "A number was expected", ExampleUpdates.wrapper).
Proof.
  pose proof
    (AddItems_validation (Upd := ExampleUpdates.updates)
       ExampleUpdates.wrapper [Example.query_vector]
       [[Napi.float_of_Z 1; Napi.float_of_Z 0]] eq_refl)
    as (Hbad & _ & Hids).
  split.
  - apply (Hbad (Example.number 1) [] [Napi.Array [Napi.String "a"]]).
    reflexivity.
  - apply (Hids [Napi.String "a"] (Napi.String "a") []).
    + apply elem_of_cons. left. reflexivity.
    + reflexivity.
Defined.

(** ** More about the constructor and the loaders *)

Section Construction.
Context {En : Enums} {Eng : Engine}.
Import CInt Napi IndexWrapper.

Lemma kind_of_None (s : StorageDataType) :
  s <> Float32 -> s <> Float8 -> s <> E4M3 -> kind_of s = None.
Proof.
  intros H32 H8 HE. unfold kind_of.
  repeat destruct (decide _); congruence.
Qed.

(** Reading the options throws nothing but the [TypeError] of an
    accessor. *)
Lemma As_Number_kind (v : Value) kind message :
  As_Number v = Thrown kind message -> kind = JsTypeError.
Proof. destruct v; cbn; congruence. Qed.

Lemma accessor_kind {A B} (f : A -> B) (read : Value -> JsResult A)
    (v : Value) kind message :
  (forall kind' message',
     read v = Thrown kind' message' -> kind' = JsTypeError) ->
  (n ← read v; Returned (f n)) = Thrown kind message -> kind = JsTypeError.
Proof.
  intros Hread. destruct (read v) as [a|k m] eqn:E; cbn; [discriminate|].
  intros H. injection H as <- <-. exact (Hread k m eq_refl).
Qed.

Lemma Uint32Value_kind (v : Value) kind message :
  Uint32Value v = Thrown kind message -> kind = JsTypeError.
Proof. apply accessor_kind, As_Number_kind. Qed.

Lemma Int32Value_kind (v : Value) kind message :
  Int32Value v = Thrown kind message -> kind = JsTypeError.
Proof. apply accessor_kind, As_Number_kind. Qed.

Lemma Int64Value_kind (v : Value) kind message :
  Int64Value v = Thrown kind message -> kind = JsTypeError.
Proof. apply accessor_kind, As_Number_kind. Qed.

Lemma size_t_option_kind (v : Value) kind message :
  size_t_option v = Thrown kind message -> kind = JsTypeError.
Proof. apply accessor_kind, Int64Value_kind. Qed.

Lemma SpaceType_option_kind (v : Value) kind message :
  SpaceType_option v = Thrown kind message -> kind = JsTypeError.
Proof. apply accessor_kind, Uint32Value_kind. Qed.

Lemma StorageDataType_option_kind (v : Value) kind message :
  StorageDataType_option v = Thrown kind message -> kind = JsTypeError.
Proof. apply accessor_kind, Uint32Value_kind. Qed.

Lemma optional_kind {A} options key (read : Value -> JsResult A) dflt
    kind message :
  (forall v kind' message',
     read v = Thrown kind' message' -> kind' = JsTypeError) ->
  optional options key read dflt = Thrown kind message ->
  kind = JsTypeError.
Proof.
  intros Hread. unfold optional. destruct (Has options key).
  - apply Hread.
  - discriminate.
Qed.

Lemma read_Options_kind (options : Value) kind message :
  read_Options options = Thrown kind message -> kind = JsTypeError.
Proof.
  unfold read_Options.
  destruct (negb (Has options "space") || negb (Has options "numDimensions"));
    [congruence|].
  destruct (SpaceType_option _) as [space|k m] eqn:E1;
    [|cbn; intros H; injection H as <- <-;
      exact (SpaceType_option_kind _ _ _ E1)].
  destruct (Int32Value _) as [dims|k m] eqn:E2;
    [|cbn; intros H; injection H as <- <-;
      exact (Int32Value_kind _ _ _ E2)].
  cbn [mbind JsResult_bind].
  destruct (optional options "M" _ _) as [M|k m] eqn:E3;
    [|cbn; intros H; injection H as <- <-;
      exact (optional_kind _ _ _ _ _ _ size_t_option_kind E3)].
  destruct (optional options "efConstruction" _ _) as [ef|k m] eqn:E4;
    [|cbn; intros H; injection H as <- <-;
      exact (optional_kind _ _ _ _ _ _ size_t_option_kind E4)].
  destruct (optional options "randomSeed" _ _) as [seed|k m] eqn:E5;
    [|cbn; intros H; injection H as <- <-;
      exact (optional_kind _ _ _ _ _ _ size_t_option_kind E5)].
  destruct (optional options "maxElements" _ _) as [maxE|k m] eqn:E6;
    [|cbn; intros H; injection H as <- <-;
      exact (optional_kind _ _ _ _ _ _ size_t_option_kind E6)].
  destruct (optional options "storageDataType" _ _) as [sdt|k m] eqn:E7;
    [|cbn; intros H; injection H as <- <-;
      exact (optional_kind _ _ _ _ _ _ StorageDataType_option_kind E7)].
  cbn. discriminate.
Qed.

End Construction.

(** X18. An [Error] of the constructor is an error of the engine. The
    constructor throws a plain [Error] exactly when the options could be
    read, their storage type is one of the three, and the engine's
    constructor, called with the values read, threw; the message is the
    engine's. Every other failure of the constructor is a
    [TypeError]. *)
Theorem constructor_Error_from_engine {En : Enums} {Eng : Engine}
    (info : list Napi.Value) (message : string) :
  IndexWrapper.new info = Thrown JsError message <->
  exists o kind,
    Napi.IsObject (Napi.arg info 0) = true /\
    IndexWrapper.read_Options (Napi.arg info 0) = Returned o /\
    IndexWrapper.kind_of (IndexWrapper.storageDataType o) = Some kind /\
    TypedIndex_new kind (IndexWrapper.space o)
      (IndexWrapper.numDimensions o) (IndexWrapper.M o)
      (IndexWrapper.efConstruction o) (IndexWrapper.maxElements o)
      (IndexWrapper.randomSeed o) = Throw message.
Proof.
  split.
  - intros Hnew.
    destruct (Napi.IsObject (Napi.arg info 0)) eqn:Hobj;
      [|rewrite new_not_object in Hnew by assumption; discriminate].
    rewrite new_object in Hnew by assumption.
    destruct (IndexWrapper.read_Options (Napi.arg info 0))
      as [o|k m] eqn:Hread.
    + cbn [mbind JsResult_bind] in Hnew. unfold IndexWrapper.create in Hnew.
      destruct (IndexWrapper.kind_of _) as [kind|] eqn:Hkind;
        [|discriminate].
      exists o, kind. repeat split; try assumption.
      destruct (TypedIndex_new _ _ _ _ _ _ _) as [index|what];
        cbn in Hnew; [discriminate|congruence].
    + cbn [mbind JsResult_bind] in Hnew. injection Hnew as -> ->.
      now apply read_Options_kind in Hread.
  - intros (o & kind & Hobj & Hread & Hkind & Hthrow).
    rewrite new_object, Hread by assumption. cbn [mbind JsResult_bind].
    unfold IndexWrapper.create. rewrite Hkind, Hthrow. reflexivity.
Qed.

Lemma constructor_Error_from_engine_witness :
  IndexWrapper.new (Eng := ExampleUpdates.strict_engine)
      [ExampleUpdates.no_dimensions]
    = Thrown JsError "The number of dimensions must be positive." /\
  exists o kind,
    IndexWrapper.read_Options (En := SpecModel.enums)
      ExampleUpdates.no_dimensions = Returned o /\
    IndexWrapper.numDimensions o = 0 /\ kind = TypedIndex_float.
Proof.
  assert (Hnew : IndexWrapper.new (Eng := ExampleUpdates.strict_engine)
                   [ExampleUpdates.no_dimensions]
                 = Thrown JsError "The number of dimensions must be positive.")
    by reflexivity.
  split; [exact Hnew|].
  apply (constructor_Error_from_engine
           (Eng := ExampleUpdates.strict_engine)) in Hnew.
  destruct Hnew as (o & kind & _ & Hread & Hkind & _).
  exists o, kind. split; [exact Hread|].
  assert (Ho : IndexWrapper.read_Options (En := SpecModel.enums)
                 ExampleUpdates.no_dimensions
               = Returned
                   (@IndexWrapper.Build_Options SpecModel.enums
                      0 0 12 200 1 1 32))
    by reflexivity.
  change (Napi.arg [ExampleUpdates.no_dimensions] 0)
    with ExampleUpdates.no_dimensions in Hread.
  rewrite Ho in Hread. injection Hread as <-.
  split; [reflexivity|].
  assert (Hfloat : IndexWrapper.kind_of (En := SpecModel.enums) 32
                   = Some TypedIndex_float) by reflexivity.
  cbn [IndexWrapper.storageDataType] in Hkind. congruence.
Defined.

Section Loading.
Context {En : Enums} {Eng : Engine}.
Import CInt Napi IndexWrapper.

(** The wrapper of a loaded index is constructed from the space and the
    number of dimensions of that index, and the defaults. *)
Lemma wrap_spec (loadedIndex : Index) :
  0 <= int_of_SpaceType (Index_getSpace loadedIndex) < 2 ^ 32 ->
  - 2 ^ 31 <= Index_getNumDimensions loadedIndex < 2 ^ 31 ->
  wrap loadedIndex =
    match TypedIndex_new TypedIndex_float
            (SpaceType_of_uint32
               (int_of_SpaceType (Index_getSpace loadedIndex)))
            (Index_getNumDimensions loadedIndex) 12 200 1 1 with
    | Ok _ => Returned (Build loadedIndex)
    | Throw what => Thrown JsError what
    end.
Proof.
  intros Hspace Hdims. unfold wrap.
  set (a := double_of_Z (int_of_SpaceType (Index_getSpace loadedIndex))).
  set (b := double_of_Z (Index_getNumDimensions loadedIndex)).
  destruct (dummyOptions_read a b)
    as (Hobj & Hsp & Hnd & HM & Hef & Hrs & Hme & Hsd & Gsp & Gnd).
  set (options := Object _) in *.
  unfold new. rewrite Length_cons.
  change (arg [options] 0) with options. rewrite Hobj. cbn [negb orb].
  unfold read_Options. rewrite Hsp, Hnd. cbn [negb orb].
  rewrite !optional_absent by assumption. rewrite Gsp, Gnd.
  unfold SpaceType_option, a, b.
  rewrite Uint32Value_double_of_Z, Int32Value_double_of_Z by assumption.
  cbn [mbind JsResult_bind]. unfold create.
  cbn [storageDataType space numDimensions M efConstruction maxElements
       randomSeed].
  rewrite kind_of_Float32.
  destruct (TypedIndex_new _ _ _ _ _ _ _); reflexivity.
Qed.

Lemma validate_no_options (info : list Value) (metadata : Metadata) :
  has_options info = false -> validate info metadata = Returned ().
Proof. intros H. unfold validate. now rewrite H. Qed.

Lemma read_LoadOptions_no_options (info : list Value) :
  has_options info = false ->
  read_LoadOptions info =
    Returned {| load_space := Euclidean; load_numDimensions := 0;
                load_storageDataType := Float32 |}.
Proof. intros H. unfold read_LoadOptions. now rewrite H. Qed.

Lemma load_from_no_options (info info' : list Value) o metadata stream
    missing no_metadata :
  has_options info = false -> has_options info' = false ->
  load_from info o metadata stream missing no_metadata =
  load_from info' o metadata stream missing no_metadata.
Proof.
  intros H H'. unfold load_from. destruct metadata as [metadata|];
    [|reflexivity].
  now rewrite !validate_no_options by assumption.
Qed.

Lemma has_options_not_object (first v : Value) (rest : list Value) :
  IsObject v = false -> has_options (first :: v :: rest) = false.
Proof.
  intros H. unfold has_options.
  change (arg (first :: v :: rest) 1) with v. now rewrite H, andb_false_r.
Qed.

End Loading.

(** X19. Loading constructs an index to throw away. Once the engine has
    loaded an index, the wrapper is made by the constructor, called with
    the space and the number of dimensions of the loaded index and
    nothing else: the engine is asked for a new full-precision index
    with these two and the defaults [M = 12], [efConstruction = 200],
    [maxElements = 1], [randomSeed = 1]. If that call throws, the load
    fails with its message although the index was loaded; otherwise the
    wrapper holds the loaded index. *)
Theorem load_constructs_default_index {En : Enums} {Eng : Engine}
    (loadedIndex : Index) :
  0 <= int_of_SpaceType (Index_getSpace loadedIndex) < 2 ^ 32 ->
  - 2 ^ 31 <= Index_getNumDimensions loadedIndex < 2 ^ 31 ->
  let constructed :=
    TypedIndex_new TypedIndex_float
      (SpaceType_of_uint32 (int_of_SpaceType (Index_getSpace loadedIndex)))
      (Index_getNumDimensions loadedIndex) 12 200 1 1 in
  (forall index,
     constructed = Ok index ->
     IndexWrapper.wrap loadedIndex
       = Returned (IndexWrapper.Build loadedIndex)) /\
  (forall what,
     constructed = Throw what ->
     IndexWrapper.wrap loadedIndex = Thrown JsError what /\
     forall kind stream space numDimensions metadata,
       (TypedIndex_load kind stream space numDimensions = Ok loadedIndex ->
        proceed_legacy kind stream space numDimensions
          = Thrown JsError what) /\
       (loadTypedIndexFromMetadata metadata stream = Ok loadedIndex ->
        proceed_with_metadata metadata stream = Thrown JsError what)).
Proof.
  intros Hspace Hdims constructed.
  pose proof (wrap_spec loadedIndex Hspace Hdims) as Hwrap.
  fold constructed in Hwrap. split.
  - intros index Hok. now rewrite Hok in Hwrap.
  - intros what Hthrow. rewrite Hthrow in Hwrap. split; [exact Hwrap|].
    intros kind stream space numDimensions metadata. split; intros Hload.
    + unfold proceed_legacy. rewrite Hload. exact Hwrap.
    + unfold proceed_with_metadata. rewrite Hload. exact Hwrap.
Qed.

Lemma load_constructs_default_index_witness :
  IndexWrapper.FromBuffer (Eng := ExampleUpdates.strict_engine)
      [Napi.Buffer (SpecModel.serialize ExampleUpdates.no_dimensions_index)]
    = Thrown JsError "The number of dimensions must be positive." /\
  IndexWrapper.wrap (Eng := Example.engine) Example.index
    = Returned (IndexWrapper.Build (Eng := Example.engine) Example.index).
Proof.
  split.
  - set (header :=
           Metadata_loadFromStream (Engine := ExampleUpdates.strict_engine)
             (inr (MemoryInputStream.new
                     (SpecModel.serialize
                        ExampleUpdates.no_dimensions_index)))).
    set (metadata := SpecModel.metadata_of ExampleUpdates.no_dimensions_index).
    set (stream := match header with
                   | Ok (_, stream) => stream
                   | Throw _ => inr (MemoryInputStream.new [])
                   end).
    assert (Hheader : header = Ok (Some metadata, stream)) by reflexivity.
    assert (Hload :
      loadTypedIndexFromMetadata (Engine := ExampleUpdates.strict_engine)
        metadata stream = Ok ExampleUpdates.no_dimensions_index)
      by reflexivity.
    destruct (load_constructs_default_index
                (Eng := ExampleUpdates.strict_engine)
                ExampleUpdates.no_dimensions_index) as [_ Hthrow].
    + cbn. lia.
    + cbn. lia.
    + destruct (Hthrow "The number of dimensions must be positive." eq_refl)
        as [_ Hproceed].
      destruct (Hproceed TypedIndex_float stream 0 0 metadata)
        as [_ Hmetadata].
      etransitivity; [|exact (Hmetadata Hload)]. reflexivity.
  - destruct (load_constructs_default_index (Eng := Example.engine)
                Example.index) as [Hok _].
    + cbn. lia.
    + cbn. lia.
    + exact (Hok _ eq_refl).
Defined.

(** X20. Options that are not an object are ignored. When the second
    argument of [loadIndex] or [fromBuffer] is anything but an object (a
    number, a string, [null], ...), and whatever follows it, the call does
    what it does without a second argument: nothing is read from it and
    nothing is checked against the header. *)
Theorem load_ignores_non_object_options {En : Enums} {Eng : Engine}
    (source v : Napi.Value) (rest : list Napi.Value) :
  Napi.IsObject v = false ->
  IndexWrapper.LoadIndex (source :: v :: rest)
    = IndexWrapper.LoadIndex [source] /\
  IndexWrapper.FromBuffer (source :: v :: rest)
    = IndexWrapper.FromBuffer [source].
Proof.
  intros Hv.
  pose proof (has_options_not_object source v rest Hv) as Hno.
  assert (Hno' : IndexWrapper.has_options [source] = false) by reflexivity.
  split.
  - unfold IndexWrapper.LoadIndex. rewrite !Length_cons.
    change (Napi.arg (source :: v :: rest) 0) with source.
    change (Napi.arg [source] 0) with source.
    destruct (negb (Napi.IsString source)); [reflexivity|]. cbn [orb].
    rewrite !read_LoadOptions_no_options by assumption.
    cbn [mbind JsResult_bind].
    destruct (FileInputStream_new _) as [file|what]; [|reflexivity].
    cbn [try_engine mbind JsResult_bind].
    destruct (Metadata_loadFromStream (inl file))
      as [[metadata stream]|what]; [|reflexivity].
    cbn [try_engine mbind JsResult_bind]. now apply load_from_no_options.
  - unfold IndexWrapper.FromBuffer. rewrite !Length_cons.
    change (Napi.arg (source :: v :: rest) 0) with source.
    change (Napi.arg [source] 0) with source.
    destruct (negb (Napi.IsBuffer source)); [reflexivity|]. cbn [orb].
    rewrite !read_LoadOptions_no_options by assumption.
    cbn [mbind JsResult_bind].
    destruct (Metadata_loadFromStream
                (inr (MemoryInputStream.new (IndexWrapper.bytes_of source))))
      as [[metadata stream]|what]; [|reflexivity].
    cbn [try_engine mbind JsResult_bind]. now apply load_from_no_options.
Qed.

Lemma load_ignores_non_object_options_witness :
  IndexWrapper.LoadIndex (Eng := Example.engine)
      [Napi.String "index.voy"; Example.number 16]
    = IndexWrapper.LoadIndex (Eng := Example.engine)
        [Napi.String "index.voy"] /\
  IndexWrapper.LoadIndex (Eng := Example.engine) [Napi.String "index.voy"]
    = Returned (IndexWrapper.Build (Eng := Example.engine) Example.index).
Proof.
  split.
  - apply (load_ignores_non_object_options (Eng := Example.engine)
             (Napi.String "index.voy") (Example.number 16) []).
    reflexivity.
  - reflexivity.
Defined.

(** X21. A storage type that is none of the three. The constructor,
    given options it can read whose storage type is neither [Float32]
    nor [Float8] nor [E4M3], throws the [TypeError] "Unknown storage
    data type received."; so does each loader on a file without header,
    once the number of dimensions has passed its test. The engine is not
    asked to create or load anything. *)
Theorem unknown_storage_data_type {En : Enums} {Eng : Engine}
    (unknown : StorageDataType) :
  unknown <> Float32 -> unknown <> Float8 -> unknown <> E4M3 ->
  (forall info o,
     Napi.IsObject (Napi.arg info 0) = true ->
     IndexWrapper.read_Options (Napi.arg info 0) = Returned o ->
     IndexWrapper.storageDataType o = unknown ->
     IndexWrapper.new info
       = Thrown JsTypeError "Unknown storage data type received.") /\
  (forall path rest o file stream,
     IndexWrapper.read_LoadOptions (Napi.String path :: rest) = Returned o ->
     IndexWrapper.load_storageDataType o = unknown ->
     FileInputStream_new path = Ok file ->
     Metadata_loadFromStream (inl file) = Ok (None, stream) ->
     0 < IndexWrapper.load_numDimensions o ->
     IndexWrapper.LoadIndex (Napi.String path :: rest)
       = Thrown JsTypeError "Unknown storage data type received.") /\
  (forall data rest o stream,
     IndexWrapper.read_LoadOptions (Napi.Buffer data :: rest) = Returned o ->
     IndexWrapper.load_storageDataType o = unknown ->
     Metadata_loadFromStream (inr (MemoryInputStream.new data))
       = Ok (None, stream) ->
     IndexWrapper.load_numDimensions o <> 0 ->
     IndexWrapper.FromBuffer (Napi.Buffer data :: rest)
       = Thrown JsTypeError "Unknown storage data type received.").
Proof.
  intros H32 H8 HE.
  pose proof (kind_of_None unknown H32 H8 HE) as Hkind.
  split; [|split].
  - intros info o Hobj Hread <-.
    rewrite new_object, Hread by assumption. cbn [mbind JsResult_bind].
    unfold IndexWrapper.create. now rewrite Hkind.
  - intros path rest o file stream Hread <- Hfile Hheader Hdims.
    rewrite (LoadIndex_unfold path rest o file None stream Hread Hfile
               Hheader), load_from_legacy.
    destruct (Z.leb_spec (IndexWrapper.load_numDimensions o) 0); [lia|].
    now rewrite Hkind.
  - intros data rest o stream Hread <- Hheader Hdims.
    rewrite (FromBuffer_unfold data rest o None stream Hread Hheader),
      load_from_legacy.
    destruct (Z.eqb_spec (IndexWrapper.load_numDimensions o) 0); [lia|].
    now rewrite Hkind.
Qed.

Lemma unknown_storage_data_type_witness :
  IndexWrapper.new (Eng := Example.engine) [ExampleUpdates.unknown_storage]
    = Thrown JsTypeError "Unknown storage data type received." /\
  IndexWrapper.FromBuffer (Eng := Example.engine)
      [Napi.Buffer (SpecModel.serialize_legacy Example.index);
       ExampleUpdates.unknown_storage]
    = Thrown JsTypeError "Unknown storage data type received.".
Proof.
  destruct (unknown_storage_data_type (Eng := Example.engine) 99)
    as (Hnew & _ & Hbuffer); [discriminate..|].
  split.
  - apply (Hnew [ExampleUpdates.unknown_storage]
             (@IndexWrapper.Build_Options SpecModel.enums 0 2 12 200 1 1 99));
      reflexivity.
  - set (header :=
           Metadata_loadFromStream (Engine := Example.engine)
             (inr (MemoryInputStream.new
                     (SpecModel.serialize_legacy Example.index)))).
    set (stream := match header with
                   | Ok (_, stream) => stream
                   | Throw _ => inr (MemoryInputStream.new [])
                   end).
    apply (Hbuffer (SpecModel.serialize_legacy Example.index)
             [ExampleUpdates.unknown_storage]
             (@IndexWrapper.Build_LoadOptions SpecModel.enums 0 2 99) stream).
    + reflexivity.
    + reflexivity.
    + reflexivity.
    + discriminate.
Defined.

(** X22. The order of the checks against the header. When the caller's
    options conflict with the header in several ways, the storage type
    is reported first, the space only when the storage type agrees or
    was not given, and the number of dimensions last. The number of
    dimensions is read there through the unsigned accessor and stored in
    an [int], which gives the number the signed accessor reads for the
    legacy branch. *)
Theorem validation_order {En : Enums} {Eng : Engine}
    (info : list Napi.Value) (o : IndexWrapper.LoadOptions)
    (metadata : Metadata) :
  IndexWrapper.read_LoadOptions info = Returned o ->
  let no_conflict_on (parameter : string) :=
    forall m, Mismatch_parameter m = parameter ->
              ~ conflict info metadata m in
  (forall provided stored,
     conflict info metadata (StorageMismatch provided stored) ->
     IndexWrapper.validate info metadata
       = Thrown JsError (IndexWrapper.storage_mismatch provided stored)) /\
  (forall provided stored,
     no_conflict_on "storageDataType" ->
     conflict info metadata (SpaceMismatch provided stored) ->
     IndexWrapper.validate info metadata
       = Thrown JsError (IndexWrapper.space_mismatch provided stored)) /\
  (forall provided stored,
     no_conflict_on "storageDataType" -> no_conflict_on "space" ->
     conflict info metadata (DimensionsMismatch provided stored) ->
     IndexWrapper.validate info metadata
       = Thrown JsError
           (IndexWrapper.dimensions_mismatch provided stored)) /\
  (forall v, IndexWrapper.providedDims_option v = Napi.Int32Value v).
Proof.
  intros Hread no_conflict_on.
  assert (Hstorage_ok :
    IndexWrapper.has_options info = true ->
    no_conflict_on "storageDataType" ->
    (if Napi.Has (Napi.arg info 1) "storageDataType"
     then providedType ←
            catch_std (IndexWrapper.StorageDataType_option
                         (Napi.Get (Napi.arg info 1) "storageDataType"));
          if decide (Metadata_getStorageDataType metadata = providedType)
          then Returned ()
          else Thrown JsError
                 (IndexWrapper.storage_mismatch providedType
                    (Metadata_getStorageDataType metadata))
     else Returned ()) = Returned ()).
  { intros Hopt Hno.
    destruct (read_LoadOptions_supplied info o Hread Hopt) as (_ & _ & Hsd).
    destruct (Napi.Has (Napi.arg info 1) "storageDataType") eqn:Esd;
      [|reflexivity].
    rewrite (Hsd eq_refl). cbn [catch_std mbind JsResult_bind].
    destruct (decide _) as [|Hne]; [reflexivity|]. exfalso.
    apply (Hno (StorageMismatch (IndexWrapper.load_storageDataType o)
                  (Metadata_getStorageDataType metadata)) eq_refl).
    repeat split; auto. }
  assert (Hspace_ok :
    IndexWrapper.has_options info = true ->
    no_conflict_on "space" ->
    (if Napi.Has (Napi.arg info 1) "space"
     then providedSpace ←
            catch_std (IndexWrapper.SpaceType_option
                         (Napi.Get (Napi.arg info 1) "space"));
          if decide (Metadata_getSpaceType metadata = providedSpace)
          then Returned ()
          else Thrown JsError
                 (IndexWrapper.space_mismatch providedSpace
                    (Metadata_getSpaceType metadata))
     else Returned ()) = Returned ()).
  { intros Hopt Hno.
    destruct (read_LoadOptions_supplied info o Hread Hopt) as (Hsp & _ & _).
    destruct (Napi.Has (Napi.arg info 1) "space") eqn:Esp; [|reflexivity].
    rewrite (Hsp eq_refl). cbn [catch_std mbind JsResult_bind].
    destruct (decide _) as [|Hne]; [reflexivity|]. exfalso.
    apply (Hno (SpaceMismatch (IndexWrapper.load_space o)
                  (Metadata_getSpaceType metadata)) eq_refl).
    repeat split; auto. }
  split; [|split; [|split]].
  - intros provided stored (Hopt & Hhas & Hval & -> & Hne).
    cbn [Mismatch_parameter] in Hhas. unfold IndexWrapper.validate.
    rewrite Hopt, Hhas, Hval. cbn [catch_std mbind JsResult_bind].
    destruct (decide _) as [Heq|]; [congruence|reflexivity].
  - intros provided stored Hno (Hopt & Hhas & Hval & -> & Hne).
    cbn [Mismatch_parameter] in Hhas. unfold IndexWrapper.validate.
    rewrite Hopt, (Hstorage_ok Hopt Hno). cbn [mbind JsResult_bind].
    rewrite Hhas, Hval. cbn [catch_std mbind JsResult_bind].
    destruct (decide _) as [Heq|]; [congruence|reflexivity].
  - intros provided stored Hno Hno' (Hopt & Hhas & Hval & -> & Hne).
    cbn [Mismatch_parameter] in Hhas. unfold IndexWrapper.validate.
    rewrite Hopt, (Hstorage_ok Hopt Hno). cbn [mbind JsResult_bind].
    rewrite (Hspace_ok Hopt Hno'). cbn [mbind JsResult_bind].
    rewrite Hhas, Hval. cbn [catch_std mbind JsResult_bind].
    destruct (decide _) as [Heq|]; [congruence|reflexivity].
  - intros v. unfold IndexWrapper.providedDims_option, Napi.Int32Value,
      Napi.Uint32Value.
    destruct (Napi.As_Number v) as [d|]; [|reflexivity].
    cbn [mbind JsResult_bind]. f_equal.
    unfold CInt.to_i32, CInt.to_u32.
    now rewrite Z.add_mod_idemp_l by lia.
Qed.

Lemma validation_order_witness :
  IndexWrapper.validate (Eng := Example.engine)
      [Napi.String "index.voy"; ExampleUpdates.all_wrong]
      (SpecModel.metadata_of Example.index)
    = Thrown JsError (IndexWrapper.storage_mismatch (En := SpecModel.enums)
                        16 32) /\
  IndexWrapper.validate (Eng := Example.engine)
      [Napi.String "index.voy"; ExampleUpdates.wrong_space_and_dimensions]
      (SpecModel.metadata_of Example.index)
    = Thrown JsError (IndexWrapper.space_mismatch (En := SpecModel.enums)
                        2 0).
Proof.
  split.
  - destruct (validation_order (Eng := Example.engine)
                [Napi.String "index.voy"; ExampleUpdates.all_wrong]
                (@IndexWrapper.Build_LoadOptions SpecModel.enums 2 3 16)
                (SpecModel.metadata_of Example.index) eq_refl)
      as (Hstorage & _).
    apply (Hstorage 16 32).
    repeat split; discriminate.
  - destruct (validation_order (Eng := Example.engine)
                [Napi.String "index.voy";
                 ExampleUpdates.wrong_space_and_dimensions]
                (@IndexWrapper.Build_LoadOptions SpecModel.enums 2 3 32)
                (SpecModel.metadata_of Example.index) eq_refl)
      as (_ & Hspace & _).
    apply (Hspace 2 0).
    + intros m Hm (_ & Hhas & _). rewrite Hm in Hhas. discriminate.
    + repeat split; discriminate.
Defined.

(** ** More about [query] *)

Section Answers.
Context {En : Enums} {Eng : Engine} {Srch : Search}.
Import CInt Napi IndexWrapper.

(** A label of at most 24 bits passes through [float] unchanged. *)
Lemma VectorToArray_float_of_Z (ids : list Z) :
  Forall (fun id => 0 <= id < 2 ^ 24) ids ->
  VectorToArray (float_of_Z <$> ids)
    = Array ((fun id => Number (double_of_Z id)) <$> ids).
Proof.
  intros Hids. unfold VectorToArray. f_equal.
  rewrite <- list_fmap_compose.
  induction Hids as [|id ids Hid _ IH]; [reflexivity|].
  cbn [fmap list_fmap compose].
  rewrite double_of_float_of_Z by lia. f_equal. exact IH.
Qed.

Lemma result_row_lookup {T} (toNumber : T -> spec_float) (dflt : T)
    (data : list T) (i cols j : nat) (x : T) :
  (j < cols)%nat -> data !! (i * cols + j)%nat = Some x ->
  exists row,
    result_row toNumber dflt data i cols cols cols = Array row /\
    length row = cols /\ row !! j = Some (Number (toNumber x)).
Proof.
  intros Hj Hx. unfold result_row. eexists. split; [reflexivity|].
  rewrite Nat.sub_diag. cbn [replicate]. rewrite app_nil_r.
  split; [now rewrite length_fmap, length_seq|].
  rewrite list_lookup_fmap, lookup_seq_lt by assumption. cbn [fmap option_fmap option_map].
  rewrite Nat.add_0_l, nth_lookup, Hx. reflexivity.
Qed.

End Answers.

(** X23. The single-vector [query] returns small labels exactly. The
    labels of the answer pass through a vector of [float]; when all of
    them are below [2^24] nothing is lost, and the call returns the
    labels the engine found, with the distances, whatever the optional
    arguments. *)
Theorem query_single_exact_below_2_24
    {En : Enums} {Eng : Engine} {Srch : Search}
    (self : IndexWrapper.t) (first : Napi.Value)
    (elems rest : list Napi.Value) (a : IndexWrapper.QueryArgs)
    (queryVector : list spec_float) (neighborIds : list Z)
    (distances : list spec_float) :
  let input := Napi.Array (first :: elems) in
  Napi.IsNumber first = true ->
  IndexWrapper.read_QueryArgs (input :: rest) = Returned a ->
  IndexWrapper.ArrayToVector input = Returned queryVector ->
  Index_query (IndexWrapper.index_ self) queryVector (IndexWrapper.k a)
    (IndexWrapper.queryEf a) = Ok (neighborIds, distances) ->
  Forall (fun id => 0 <= id < 2 ^ 24) neighborIds ->
  IndexWrapper.Query self (input :: rest) =
    Returned (Napi.ArrayWith []
      (<["neighbors" :=
           Napi.Array
             ((fun id => Napi.Number (Napi.double_of_Z id))
                <$> neighborIds)]>
       (<["distances" := IndexWrapper.VectorToArray distances]> ∅))).
Proof.
  intros input Hfirst Hargs Hvector Hquery Hsmall.
  unfold input in *. rewrite (Query_Array self _ _ a Hargs), Hfirst.
  unfold IndexWrapper.query_single. rewrite Hvector.
  cbn [catch_std mbind JsResult_bind]. rewrite Hquery.
  cbn [try_engine mbind JsResult_bind].
  rewrite VectorToArray_float_of_Z by assumption. reflexivity.
Qed.

Lemma query_single_exact_below_2_24_witness :
  IndexWrapper.Query (Srch := Example.search)
      (@IndexWrapper.Build SpecModel.enums Example.engine
         ExampleUpdates.two_points)
      [Example.query_vector; Example.number 3] =
    Returned (Napi.ArrayWith []
      (<["neighbors" := Napi.Array [Example.number 0; Example.number 5]]>
       (<["distances" :=
            IndexWrapper.VectorToArray
              [S754_zero false; S754_zero false]]> ∅))).
Proof.
  apply (query_single_exact_below_2_24 (Srch := Example.search)
           (@IndexWrapper.Build SpecModel.enums Example.engine
              ExampleUpdates.two_points)
           (Example.number 1) [Example.number 0] [Example.number 3]
           {| IndexWrapper.k := 3; IndexWrapper.numThreads := -1;
              IndexWrapper.queryEf := -1 |}
           [Napi.float_of_Z 1; Napi.float_of_Z 0] [0; 5]
           [S754_zero false; S754_zero false]).
  - reflexivity.
  - reflexivity.
  - reflexivity.
  - reflexivity.
  - repeat constructor; lia.
Defined.

(** X24. The answer to several query vectors. [neighbors] has one row
    per row of the engine's answer and each row one entry per column;
    the entry of row [i] and column [j] is the label at [i * cols + j]
    of the answer, and every label below [2^53] is returned as a number
    that the accessors of labels read back as that label. *)
Theorem query_batch_labels {En : Enums} {Eng : Engine} {Srch : Search}
    (self : IndexWrapper.t) (elems rest : list Napi.Value)
    (a : IndexWrapper.QueryArgs) (queryVectors : list (list spec_float))
    (neighborIds : NDArray Z) (distances : NDArray spec_float) :
  (forall first more, elems = first :: more -> Napi.IsNumber first = false) ->
  IndexWrapper.read_QueryArgs (Napi.Array elems :: rest) = Returned a ->
  IndexWrapper.query_vectors elems = Returned queryVectors ->
  Index_query_batch (IndexWrapper.index_ self) queryVectors
    (IndexWrapper.k a) (IndexWrapper.numThreads a) (IndexWrapper.queryEf a)
    = Ok (neighborIds, distances) ->
  let rows := Z.to_nat (fst (nd_shape neighborIds)) in
  let cols := Z.to_nat (snd (nd_shape neighborIds)) in
  exists result neighbors,
    IndexWrapper.Query self (Napi.Array elems :: rest) = Returned result /\
    Napi.Get result "neighbors" = Napi.Array neighbors /\
    length neighbors = rows /\
    forall i j label,
      (i < rows)%nat -> (j < cols)%nat ->
      nd_data neighborIds !! (i * cols + j)%nat = Some label ->
      exists row,
        neighbors !! i = Some (Napi.Array row) /\
        length row = cols /\
        row !! j = Some (Napi.Number (Napi.double_of_Z label)) /\
        (0 <= label < 2 ^ 53 ->
         IndexWrapper.size_t_option (Napi.Number (Napi.double_of_Z label))
           = Returned label).
Proof.
  intros Hbatch Hargs Hvectors Hquery rows cols.
  rewrite (Query_Array self _ _ a Hargs).
  assert (Hnot : match elems with
                 | first :: _ => Napi.IsNumber first
                 | [] => false
                 end = false).
  { destruct elems as [|first more]; [reflexivity|].
    exact (Hbatch first more eq_refl). }
  rewrite Hnot. unfold IndexWrapper.query_batch.
  cbn [IndexWrapper.elems_of]. rewrite Hvectors.
  cbn [mbind JsResult_bind]. rewrite Hquery.
  cbn [try_engine mbind JsResult_bind].
  eexists. eexists. split; [reflexivity|]. split; [reflexivity|].
  fold rows. fold cols. split; [now rewrite length_fmap, length_seq|].
  intros i j label Hi Hj Hlabel.
  destruct (result_row_lookup Napi.double_of_Z 0 (nd_data neighborIds)
              i cols j label Hj Hlabel) as (row & Hrow & Hlen & Hentry).
  exists row. rewrite list_lookup_fmap, lookup_seq_lt by assumption.
  cbn [fmap option_fmap option_map]. rewrite Nat.add_0_l, Hrow.
  repeat split; try assumption.
  apply size_t_option_double_of_Z.
Qed.

Lemma query_batch_labels_witness :
  exists result neighbors,
    IndexWrapper.Query (Srch := Example.search)
        (@IndexWrapper.Build SpecModel.enums Example.engine Example.index)
        [Napi.Array [Example.query_vector]; Example.number 2]
      = Returned result /\
    Napi.Get result "neighbors" = Napi.Array neighbors /\
    length neighbors = 1%nat /\
    forall i j label,
      (i < 1)%nat -> (j < 2)%nat ->
      [16777217; 7] !! (i * 2 + j)%nat = Some label ->
      exists row,
        neighbors !! i = Some (Napi.Array row) /\
        length row = 2%nat /\
        row !! j = Some (Napi.Number (Napi.double_of_Z label)) /\
        (0 <= label < 2 ^ 53 ->
         IndexWrapper.size_t_option (Napi.Number (Napi.double_of_Z label))
           = Returned label).
Proof.
  apply (query_batch_labels (Srch := Example.search)
           (@IndexWrapper.Build SpecModel.enums Example.engine Example.index)
           [Example.query_vector] [Example.number 2]
           {| IndexWrapper.k := 2; IndexWrapper.numThreads := -1;
              IndexWrapper.queryEf := -1 |}
           [[Napi.float_of_Z 1; Napi.float_of_Z 0]]
           {| nd_data := [16777217; 7]; nd_shape := (1, 2) |}
           {| nd_data := [S754_zero false; S754_zero false];
              nd_shape := (1, 2) |}).
  - intros first more Heq. injection Heq as <- _. reflexivity.
  - reflexivity.
  - reflexivity.
  - reflexivity.
Defined.

(** X25. The same mistake, two kinds of error. A vector with something
    else than a number in it makes [addItem] and [getDistance] throw the
    [TypeError] of the number accessor, because they convert their
    vectors before the [try]; [query] converts inside it and throws a
    plain [Error] with the same message, for a single vector and for a
    vector in a batch alike. An element of a batch that is not an array
    at all is a [TypeError] of [query]'s own. *)
Theorem non_number_error_kind
    {En : Enums} {Eng : Engine} {Srch : Search} {Upd : Updates}
    (self : IndexWrapper.t) (first v : Napi.Value)
    (elems : list Napi.Value) :
  Napi.IsNumber first = true -> v ∈ elems -> Napi.IsNumber v = false ->
  let vector := Napi.Array (first :: elems) in
  IndexWrapper.Methods.AddItem self [vector]
    = (Thrown JsTypeError "A number was expected", self) /\
  (forall other,
     IndexWrapper.Methods.GetDistance self [vector; Napi.Array other]
       = Thrown JsTypeError "A number was expected") /\
  IndexWrapper.Query self [vector]
    = Thrown JsError "A number was expected" /\
  IndexWrapper.Query self [Napi.Array [vector]]
    = Thrown JsError "A number was expected" /\
  IndexWrapper.Query self [Napi.Array [v]]
    = (if Napi.IsArray v
       then IndexWrapper.query_batch self (Napi.Array [v])
              IndexWrapper.query_initial
       else Thrown JsTypeError
              ("query() expected one- or two-dimensional input data " ++
               "(either a single query vector or multiple query vectors)")).
Proof.
  intros Hfirst Hin Hv vector.
  assert (Hvector : IndexWrapper.ArrayToVector vector
                    = Thrown JsTypeError "A number was expected").
  { apply (ArrayToVector_not_Number (first :: elems) v); [|exact Hv].
    apply elem_of_cons. right. exact Hin. }
  split; [|split; [|split; [|split]]].
  - unfold IndexWrapper.Methods.AddItem.
    unfold vector in *. rewrite read_AddItemArgs_Array, Hvector.
    reflexivity.
  - intros other. unfold IndexWrapper.Methods.GetDistance.
    change (Napi.arg [vector; Napi.Array other] 0) with vector.
    change (Napi.arg [vector; Napi.Array other] 1) with (Napi.Array other).
    change (Napi.Length [vector; Napi.Array other] <? 2) with false.
    cbn [vector Napi.IsArray negb orb]. fold vector.
    rewrite Hvector. reflexivity.
  - unfold vector in *.
    rewrite (Query_vector_alone_single self first elems Hfirst).
    unfold IndexWrapper.query_single. rewrite Hvector. reflexivity.
  - rewrite (Query_vector_alone_batch self [vector])
      by (intros ? ? Heq; injection Heq as <- _; reflexivity).
    unfold IndexWrapper.query_batch, IndexWrapper.query_vectors.
    cbn [IndexWrapper.elems_of mapM vector Napi.IsArray]. fold vector.
    rewrite Hvector. reflexivity.
  - rewrite (Query_vector_alone_batch self [v])
      by (intros ? ? Heq; injection Heq as <- _; exact Hv).
    destruct (Napi.IsArray v) eqn:Harray; [reflexivity|].
    unfold IndexWrapper.query_batch, IndexWrapper.query_vectors.
    cbn [IndexWrapper.elems_of mapM]. rewrite Harray. reflexivity.
Qed.

Lemma non_number_error_kind_witness :
  IndexWrapper.Methods.AddItem (Upd := ExampleUpdates.updates)
      ExampleUpdates.wrapper
      [Napi.Array [Example.number 1; Napi.String "0"]]
    = (Thrown JsTypeError "A number was expected", ExampleUpdates.wrapper) /\
  IndexWrapper.Query (Srch := Example.search) ExampleUpdates.wrapper
      [Napi.Array [Example.number 1; Napi.String "0"]]
    = Thrown JsError "A number was expected".
Proof.
  destruct (non_number_error_kind
              (Srch := Example.search) (Upd := ExampleUpdates.updates)
              ExampleUpdates.wrapper (Example.number 1) (Napi.String "0")
              [Napi.String "0"])
    as (Hadd & _ & Hquery & _).
  - reflexivity.
  - apply elem_of_cons. left. reflexivity.
  - reflexivity.
  - split; [exact Hadd | exact Hquery].
Defined.

(** ** The exported enumerations *)

Section Exports.
Context {En : Enums}.
Import CInt Napi IndexWrapper.

Lemma InitSpace_Get :
  IsObject InitSpace = true /\
  Get InitSpace "Euclidean"
    = Number (double_of_Z (uint32_of_SpaceType Euclidean)) /\
  Get InitSpace "Cosine"
    = Number (double_of_Z (uint32_of_SpaceType Cosine)) /\
  Get InitSpace "InnerProduct"
    = Number (double_of_Z (uint32_of_SpaceType InnerProduct)).
Proof. repeat split. Qed.

Lemma InitStorageDataType_Get :
  IsObject InitStorageDataType = true /\
  Get InitStorageDataType "Float8"
    = Number (double_of_Z (uint32_of_StorageDataType Float8)) /\
  Get InitStorageDataType "Float32"
    = Number (double_of_Z (uint32_of_StorageDataType Float32)) /\
  Get InitStorageDataType "E4M3"
    = Number (double_of_Z (uint32_of_StorageDataType E4M3)).
Proof. repeat split. Qed.

Lemma to_u32_range (z : Z) : 0 <= to_u32 z < 2 ^ 32.
Proof. unfold to_u32. apply Z.mod_pos_bound. lia. Qed.

Lemma SpaceType_option_exported (s : SpaceType) :
  SpaceType_of_uint32 (uint32_of_SpaceType s) = s ->
  SpaceType_option (Number (double_of_Z (uint32_of_SpaceType s)))
    = Returned s.
Proof.
  intros Hcast. unfold SpaceType_option.
  rewrite Uint32Value_double_of_Z by apply to_u32_range.
  cbn [mbind JsResult_bind]. now rewrite Hcast.
Qed.

Lemma StorageDataType_option_exported (s : StorageDataType) :
  StorageDataType_of_uint32 (uint32_of_StorageDataType s) = s ->
  StorageDataType_option
    (Number (double_of_Z (uint32_of_StorageDataType s))) = Returned s.
Proof.
  intros Hcast. unfold StorageDataType_option.
  rewrite Uint32Value_double_of_Z by apply to_u32_range.
  cbn [mbind JsResult_bind]. now rewrite Hcast.
Qed.

End Exports.

(** X26. The exported constants select what they name. Provided the
    cast to an enumeration gives back an enumerator from its own value,
    each of [Space.Euclidean], [Space.Cosine], [Space.InnerProduct] is
    read by the constructor and the loaders as the space of that name,
    and each of [StorageDataType.Float8], [.Float32], [.E4M3] as the
    storage type of that name; and the [space] getter of an index
    returns the exported constant of its space when the enumerator's
    value is not negative. *)
Theorem exported_enums_round_trip {En : Enums} {Eng : Engine} :
  Forall (fun s => SpaceType_of_uint32 (uint32_of_SpaceType s) = s)
    [Euclidean; Cosine; InnerProduct] ->
  Forall (fun s =>
            StorageDataType_of_uint32 (uint32_of_StorageDataType s) = s)
    [Float8; Float32; E4M3] ->
  (IndexWrapper.SpaceType_option (Napi.Get InitSpace "Euclidean")
     = Returned Euclidean /\
   IndexWrapper.SpaceType_option (Napi.Get InitSpace "Cosine")
     = Returned Cosine /\
   IndexWrapper.SpaceType_option (Napi.Get InitSpace "InnerProduct")
     = Returned InnerProduct) /\
  (IndexWrapper.StorageDataType_option
     (Napi.Get InitStorageDataType "Float8") = Returned Float8 /\
   IndexWrapper.StorageDataType_option
     (Napi.Get InitStorageDataType "Float32") = Returned Float32 /\
   IndexWrapper.StorageDataType_option
     (Napi.Get InitStorageDataType "E4M3") = Returned E4M3) /\
  (forall self info name s,
     (name, s) ∈ [("Euclidean", Euclidean); ("Cosine", Cosine);
                  ("InnerProduct", InnerProduct)] ->
     Index_getSpace (IndexWrapper.index_ self) = s ->
     0 <= int_of_SpaceType s < 2 ^ 32 ->
     IndexWrapper.Methods.GetSpace self info = Napi.Get InitSpace name).
Proof.
  intros Hspace Hstorage.
  destruct InitSpace_Get as (_ & GE & GC & GI).
  destruct InitStorageDataType_Get as (_ & G8 & G32 & G43).
  apply Forall_cons in Hspace as [HE Hspace].
  apply Forall_cons in Hspace as [HC Hspace].
  apply Forall_cons in Hspace as [HI _].
  apply Forall_cons in Hstorage as [H8 Hstorage].
  apply Forall_cons in Hstorage as [H32 Hstorage].
  apply Forall_cons in Hstorage as [H43 _].
  split; [|split].
  - rewrite GE, GC, GI. repeat split; now apply SpaceType_option_exported.
  - rewrite G8, G32, G43.
    repeat split; now apply StorageDataType_option_exported.
  - intros self info name s Hin Hs Hrange.
    unfold IndexWrapper.Methods.GetSpace. rewrite Hs.
    assert (Hu : uint32_of_SpaceType s = int_of_SpaceType s).
    { unfold uint32_of_SpaceType, CInt.to_u32. apply Z.mod_small. lia. }
    rewrite !elem_of_cons in Hin.
    destruct Hin as [Heq | [Heq | [Heq | Hin]]];
      [injection Heq as -> ->; rewrite ?GE, ?GC, ?GI, Hu; reflexivity .. |].
    inversion Hin.
Qed.

Lemma exported_enums_round_trip_witness :
  IndexWrapper.SpaceType_option (En := SpecModel.enums)
      (Napi.Get (InitSpace (En := SpecModel.enums)) "Cosine") = Returned 2 /\
  IndexWrapper.StorageDataType_option (En := SpecModel.enums)
      (Napi.Get (InitStorageDataType (En := SpecModel.enums)) "E4M3") = Returned 48 /\
  IndexWrapper.Methods.GetSpace ExampleUpdates.wrapper []
    = Napi.Get (InitSpace (En := SpecModel.enums)) "Euclidean".
Proof.
  destruct (exported_enums_round_trip (En := SpecModel.enums)
              (Eng := Example.engine))
    as ((_ & HC & _) & (_ & _ & H43) & Hget).
  - repeat constructor.
  - repeat constructor.
  - split; [exact HC|]. split; [exact H43|].
    apply (Hget ExampleUpdates.wrapper [] "Euclidean" 0).
    + apply elem_of_cons. left. reflexivity.
    + reflexivity.
    + cbn. lia.
Defined.

(** ** Rows of vectors *)

Section Rows.
Context {En : Enums} {Eng : Engine} {Upd : Updates}.
Import CInt Napi IndexWrapper IndexWrapper.Methods.

(** A row of a result array over data that holds it is the slice of the
    data, converted. *)
Lemma result_row_slice (data : list spec_float) (i cols : nat) :
  (i * cols + cols <= length data)%nat ->
  result_row double_of_float (S754_zero false) data i cols cols cols
    = VectorToArray (take cols (drop (i * cols) data)).
Proof.
  intros Hlen. unfold result_row, VectorToArray.
  rewrite Nat.sub_diag. cbn [replicate]. rewrite app_nil_r. f_equal.
  apply list_eq. intros j. rewrite !list_lookup_fmap.
  destruct (decide (j < cols)%nat) as [Hj|Hj].
  - rewrite lookup_seq_lt, lookup_take_lt, lookup_drop by assumption.
    cbn [fmap option_fmap option_map]. rewrite Nat.add_0_l.
    destruct (lookup_lt_is_Some_2 data (i * cols + j)%nat) as [x Hx];
      [lia|].
    rewrite nth_lookup, Hx. reflexivity.
  - rewrite lookup_seq_ge, lookup_take_ge by lia. reflexivity.
Qed.

End Rows.

(** X27. The rows of [getVectors] are the engine's vectors. When the
    engine answers an array of [rows] by [cols] valid [float]s,
    [getVectors] returns [rows] rows, and row [i] converts back with
    [ArrayToVector] to the [cols] components of vector [i]: a row can be
    handed to [addItem] as it is. *)
Theorem GetVectors_rows {En : Enums} {Eng : Engine} {Upd : Updates}
    (self : IndexWrapper.t) (ids : list Napi.Value) (labels : list Z)
    (vectors : NDArray spec_float) :
  mapM IndexWrapper.size_t_option ids = Returned labels ->
  Index_getVectors (IndexWrapper.index_ self) labels = Ok vectors ->
  let rows := Z.to_nat (fst (nd_shape vectors)) in
  let cols := Z.to_nat (snd (nd_shape vectors)) in
  length (nd_data vectors) = (rows * cols)%nat ->
  Forall (fun f => valid_binary 24 128 f = true) (nd_data vectors) ->
  exists result,
    IndexWrapper.Methods.GetVectors self [Napi.Array ids]
      = Returned (Napi.Array result) /\
    length result = rows /\
    forall i, (i < rows)%nat ->
      exists row,
        result !! i = Some row /\
        IndexWrapper.ArrayToVector row
          = Returned (take cols (drop (i * cols) (nd_data vectors))).
Proof.
  intros Hids Hvectors rows cols Hlen Hvalid.
  unfold IndexWrapper.Methods.GetVectors. rewrite Length_cons.
  change (Napi.arg [?v] 0) with v.
  cbn [Napi.IsArray negb orb IndexWrapper.elems_of].
  rewrite Hids. cbn [mbind JsResult_bind]. rewrite Hvectors.
  cbn [try_engine mbind JsResult_bind].
  unfold IndexWrapper.Methods.rows_of. fold rows. fold cols.
  eexists. split; [reflexivity|].
  split; [now rewrite length_fmap, length_seq|].
  intros i Hi. eexists.
  rewrite list_lookup_fmap, lookup_seq_lt by assumption.
  cbn [fmap option_fmap option_map]. rewrite Nat.add_0_l.
  split; [reflexivity|].
  rewrite result_row_slice by nia.
  apply ArrayToVector_VectorToArray.
  apply Forall_take, Forall_drop. exact Hvalid.
Qed.

Lemma GetVectors_rows_witness :
  exists result,
    IndexWrapper.Methods.GetVectors (Upd := ExampleUpdates.updates)
        ExampleUpdates.wrapper
        [Napi.Array [Example.number 7; Example.number 16777217]]
      = Returned (Napi.Array result) /\
    length result = 2%nat /\
    forall i, (i < 2)%nat ->
      exists row,
        result !! i = Some row /\
        IndexWrapper.ArrayToVector row
          = Returned
              (take 2 (drop (i * 2)
                 [S754_zero false; Napi.float_of_Z 1;
                  Napi.float_of_Z 1; S754_zero false])).
Proof.
  apply (GetVectors_rows (Upd := ExampleUpdates.updates)
           ExampleUpdates.wrapper
           [Example.number 7; Example.number 16777217] [7; 16777217]
           {| nd_data := [S754_zero false; Napi.float_of_Z 1;
                          Napi.float_of_Z 1; S754_zero false];
              nd_shape := (2, 2) |}).
  - reflexivity.
  - reflexivity.
  - reflexivity.
  - repeat constructor.
Defined.

(** X28. The distances of a batch. When the engine answers distances of
    the shape of the labels, [rows] by [cols], and as many of them,
    [distances] has [rows] rows and row [i] is the array of the [cols]
    distances of query [i], each as a number. *)
Theorem query_batch_distances {En : Enums} {Eng : Engine} {Srch : Search}
    (self : IndexWrapper.t) (elems rest : list Napi.Value)
    (a : IndexWrapper.QueryArgs) (queryVectors : list (list spec_float))
    (neighborIds : NDArray Z) (distances : NDArray spec_float) :
  (forall first more, elems = first :: more -> Napi.IsNumber first = false) ->
  IndexWrapper.read_QueryArgs (Napi.Array elems :: rest) = Returned a ->
  IndexWrapper.query_vectors elems = Returned queryVectors ->
  Index_query_batch (IndexWrapper.index_ self) queryVectors
    (IndexWrapper.k a) (IndexWrapper.numThreads a) (IndexWrapper.queryEf a)
    = Ok (neighborIds, distances) ->
  nd_shape distances = nd_shape neighborIds ->
  let rows := Z.to_nat (fst (nd_shape neighborIds)) in
  let cols := Z.to_nat (snd (nd_shape neighborIds)) in
  length (nd_data distances) = (rows * cols)%nat ->
  exists result,
    IndexWrapper.Query self (Napi.Array elems :: rest) = Returned result /\
    Napi.Get result "distances" =
      Napi.Array
        ((fun i =>
            IndexWrapper.VectorToArray
              (take cols (drop (i * cols) (nd_data distances))))
           <$> seq 0 rows).
Proof.
  intros Hbatch Hargs Hvectors Hquery Hshape rows cols Hlen.
  rewrite (Query_Array self _ _ a Hargs).
  assert (Hnot : match elems with
                 | first :: _ => Napi.IsNumber first
                 | [] => false
                 end = false).
  { destruct elems as [|first more]; [reflexivity|].
    exact (Hbatch first more eq_refl). }
  rewrite Hnot. unfold IndexWrapper.query_batch.
  cbn [IndexWrapper.elems_of]. rewrite Hvectors.
  cbn [mbind JsResult_bind]. rewrite Hquery.
  cbn [try_engine mbind JsResult_bind].
  eexists. split; [reflexivity|].
  rewrite Hshape. fold rows. fold cols.
  rewrite Nat.sub_diag. cbn [replicate]. rewrite app_nil_r.
  change (Napi.Get (Napi.Object (<["neighbors" := ?n]>
            (<["distances" := ?d]> ∅))) "distances") with d.
  f_equal. apply list_fmap_ext. intros j i Hi.
  apply lookup_seq in Hi as [-> Hj].
  apply result_row_slice. cbn [Nat.add]. nia.
Qed.

Lemma query_batch_distances_witness :
  exists result,
    IndexWrapper.Query (Srch := Example.search)
        (@IndexWrapper.Build SpecModel.enums Example.engine Example.index)
        [Napi.Array [Example.query_vector; Example.query_vector];
         Example.number 2]
      = Returned result /\
    Napi.Get result "distances" =
      Napi.Array
        ((fun i =>
            IndexWrapper.VectorToArray
              (take 2 (drop (i * 2)
                 [S754_zero false; S754_zero false;
                  S754_zero false; S754_zero false])))
           <$> seq 0 2).
Proof.
  apply (query_batch_distances (Srch := Example.search)
           (@IndexWrapper.Build SpecModel.enums Example.engine Example.index)
           [Example.query_vector; Example.query_vector] [Example.number 2]
           {| IndexWrapper.k := 2; IndexWrapper.numThreads := -1;
              IndexWrapper.queryEf := -1 |}
           [[Napi.float_of_Z 1; Napi.float_of_Z 0];
            [Napi.float_of_Z 1; Napi.float_of_Z 0]]
           {| nd_data := [16777217; 7; 16777217; 7]; nd_shape := (2, 2) |}
           {| nd_data := [S754_zero false; S754_zero false;
                          S754_zero false; S754_zero false];
              nd_shape := (2, 2) |}).
  - intros first more Heq. injection Heq as <- _. reflexivity.
  - reflexivity.
  - reflexivity.
  - reflexivity.
  - reflexivity.
  - reflexivity.
Defined.
